(** * Synaptic-View: entity store, grid geometry and monitor publication

    A shallow embedding of [core/state.py], [game/grid.py],
    [game/renderer.py], the scheduling side of [gui/variable_monitor.py]
    and the start-up sequence of [main.py], followed by the properties
    of the specification that were checked against it, and by further
    properties of the store, the grid, the frame and the monitor's
    window that the code shows.

    Python values are modelled as the interpreter has them: unbounded
    integers as [Z], floats as IEEE-754 binary64 values with
    round-to-nearest-even, dictionaries as insertion-ordered association
    lists, exceptions as an error result. *)

From Stdlib Require Import ZArith List String Ascii Bool Lia Sorted Permutation.
From Stdlib Require DecimalString DecimalZ DecimalPos DecimalFacts.
Import ListNotations.
Open Scope Z_scope.

(* ================================================================== *)
(** * Exceptions *)

Inductive pyerr : Type :=
| KeyError
| TypeError
| ZeroDivisionError
| ValueError
| OverflowError.

Inductive result (A : Type) : Type :=
| Ok (a : A)
| Raise (e : pyerr).

Arguments Ok {A} a.
Arguments Raise {A} e.

Definition bind {A B : Type} (r : result A) (k : A -> result B) : result B :=
  match r with
  | Ok a => k a
  | Raise e => Raise e
  end.

Notation "x <- c1 ;; c2" := (bind c1 (fun x => c2))
  (at level 61, c1 at next level, right associativity).
Notation "' pat <- c1 ;; c2" := (bind c1 (fun x => match x with pat => c2 end))
  (at level 61, pat pattern, c1 at next level, right associativity).

(* ================================================================== *)
(** * Python floats (binary64) *)

Module PyFloat.

(** Every finite binary64 number is an integer multiple of [2^-1074],
    the smallest subnormal.  [Fin n] denotes [n * 2^-1074]; the two
    zeros are identified (no operation below distinguishes them in a
    way the program can observe through [int] or a comparison). *)
Inductive float : Type :=
| Fin (n : Z)
| PInf
| NInf
| NaN.

(** [1.0] in units of [2^-1074]. *)
Definition one_u : Z := 2 ^ 1074.

(** [2^1024] in units of [2^-1074]: the first magnitude that overflows. *)
Definition huge : Z := 2 ^ 2098.

Definition zero : float := Fin 0.
Definition one : float := Fin one_u.
Definition half : float := Fin (2 ^ 1073).

(** Quotient [p / q] rounded to the nearest integer, ties to even
    ([0 <= p], [0 < q]). *)
Definition div_half_even (p q : Z) : Z :=
  let k := p / q in
  match 2 * (p mod q) ?= q with
  | Lt => k
  | Gt => k + 1
  | Eq => if Z.even k then k else k + 1
  end.

(** The magnitude [p / q] (in units) rounded to 53 significant bits:
    below [2^53] units the spacing is one unit, and it doubles with
    every further binade. *)
Definition round_mag (p q : Z) : Z :=
  let s := Z.max 0 (Z.log2 (p / q) - 52) in
  div_half_even p (q * 2 ^ s) * 2 ^ s.

(** Round-to-nearest-even of the exact value [n / d] units ([0 < d]). *)
Definition round_ne (n d : Z) : float :=
  let m := round_mag (Z.abs n) d in
  if huge <=? m then (if n <? 0 then NInf else PInf)
  else Fin (Z.sgn n * m).

Definition neg (x : float) : float :=
  match x with
  | Fin n => Fin (- n)
  | PInf => NInf
  | NInf => PInf
  | NaN => NaN
  end.

Definition add (x y : float) : float :=
  match x, y with
  | NaN, _ | _, NaN => NaN
  | PInf, NInf | NInf, PInf => NaN
  | PInf, _ | _, PInf => PInf
  | NInf, _ | _, NInf => NInf
  | Fin a, Fin b => round_ne (a + b) 1
  end.

Definition sub (x y : float) : float := add x (neg y).

Definition mul (x y : float) : float :=
  match x, y with
  | NaN, _ | _, NaN => NaN
  | Fin a, Fin b => round_ne (a * b) one_u
  | Fin a, PInf | PInf, Fin a =>
      if a =? 0 then NaN else if a <? 0 then NInf else PInf
  | Fin a, NInf | NInf, Fin a =>
      if a =? 0 then NaN else if a <? 0 then PInf else NInf
  | PInf, PInf | NInf, NInf => PInf
  | PInf, NInf | NInf, PInf => NInf
  end.

(** IEEE division.  Python raises before dividing by zero, so the
    zero-divisor rows are only here for totality. *)
Definition div (x y : float) : float :=
  match x, y with
  | NaN, _ | _, NaN => NaN
  | Fin a, Fin b =>
      if b =? 0 then
        (if a =? 0 then NaN else if a <? 0 then NInf else PInf)
      else round_ne (a * one_u * Z.sgn b) (Z.abs b)
  | Fin _, PInf | Fin _, NInf => Fin 0
  | PInf, Fin b => if b <? 0 then NInf else PInf
  | NInf, Fin b => if b <? 0 then PInf else NInf
  | PInf, PInf | PInf, NInf | NInf, PInf | NInf, NInf => NaN
  end.

(** C [fmod]: exact, sign of the dividend. *)
Definition fmod (x y : float) : float :=
  match x, y with
  | NaN, _ | _, NaN => NaN
  | PInf, _ | NInf, _ => NaN
  | Fin a, PInf | Fin a, NInf => Fin a
  | Fin a, Fin b => if b =? 0 then NaN else Fin (Z.rem a b)
  end.

(** C [floor]. *)
Definition floor (x : float) : float :=
  match x with
  | Fin n => Fin (n / one_u * one_u)
  | _ => x
  end.

Definition ltb (x y : float) : bool :=
  match x, y with
  | NaN, _ | _, NaN => false
  | Fin a, Fin b => a <? b
  | NInf, NInf => false
  | NInf, _ => true
  | _, NInf => false
  | PInf, _ => false
  | Fin _, PInf => true
  end.

(** C truth value of a double: [x != 0.0]. *)
Definition nonzero (x : float) : bool :=
  match x with
  | Fin n => negb (n =? 0)
  | _ => true
  end.

(** CPython's [_float_div_mod] (Objects/floatobject.c), for [wx != 0]:
    the pair (floored quotient, remainder). *)
Definition float_div_mod (vx wx : float) : float * float :=
  let mod0 := fmod vx wx in
  let div0 := div (sub vx mod0) wx in
  let '(mod1, div1) :=
    if nonzero mod0 then
      if negb (Bool.eqb (ltb wx zero) (ltb mod0 zero))
      then (add mod0 wx, sub div0 one)
      else (mod0, div0)
    else (zero, div0) in
  let floordiv :=
    if nonzero div1 then
      let f := floor div1 in
      if ltb half (sub div1 f) then add f one else f
    else zero in
  (floordiv, mod1).

(** [float.__floordiv__]. *)
Definition float_floor_div (vx wx : float) : result float :=
  if nonzero wx then Ok (fst (float_div_mod vx wx))
  else Raise ZeroDivisionError.

(** [float.__truediv__]. *)
Definition float_true_div (vx wx : float) : result float :=
  if nonzero wx then Ok (div vx wx) else Raise ZeroDivisionError.

(** [int(x)] for a float [x]: truncation towards zero. *)
Definition float_to_int (x : float) : result Z :=
  match x with
  | Fin n => Ok (Z.quot n one_u)
  | NaN => Raise ValueError
  | PInf | NInf => Raise OverflowError
  end.

(** [float(z)] for an integer [z] ([PyLong_AsDouble]): correctly
    rounded, and an error rather than an infinity on overflow. *)
Definition float_of_int (z : Z) : result float :=
  match round_ne (z * one_u) 1 with
  | Fin n => Ok (Fin n)
  | _ => Raise OverflowError
  end.

(** [a / b] for integers ([long_true_divide]): the exact quotient,
    correctly rounded. *)
Definition int_true_div (a b : Z) : result float :=
  if b =? 0 then Raise ZeroDivisionError
  else match round_ne (a * one_u * Z.sgn b) (Z.abs b) with
       | Fin n => Ok (Fin n)
       | _ => Raise OverflowError
       end.

(** The literal [1.5]. *)
Definition one_and_half : float := Fin (3 * 2 ^ 1073).

(** A double given by its hexadecimal significand and binary exponent,
    [m * 2^e] with [-1074 <= e]. *)
Definition of_hex (m e : Z) : float := Fin (m * 2 ^ (e + 1074)).

End PyFloat.

(* ================================================================== *)
(** * Floats that are exact in the model *)

Module PyFloatSpec.
Import PyFloat.

(** [N] units is a binary64 value: at most 53 significant bits, below
    the overflow threshold. *)
Definition representable (N : Z) : Prop :=
  exists m e, N = m * 2 ^ e /\ 0 <= e <= 2045 /\ Z.abs m < 2 ^ 53.

(** The float [m / 2]: pixel coordinates are sums of whole pixels,
    half cells and steps of [1.5]. *)
Definition halves (m : Z) : float := Fin (m * 2 ^ 1073).

Arguments halves : simpl never.

Definition small (m : Z) : Prop := Z.abs m < 2 ^ 53.

End PyFloatSpec.

(* ================================================================== *)
(** * Python values and the numeric tower *)

Module PyVal.
Import PyFloat.

(** The numbers: [int] and [float]. *)
Inductive num : Type :=
| NInt (z : Z)
| NFloat (f : float).

(** The values stored in entity and metrics dictionaries. *)
Inductive pyval : Type :=
| VNone
| VBool (b : bool)
| VInt (z : Z)
| VFloat (f : float)
| VStr (s : string).

Definition of_num (n : num) : pyval :=
  match n with
  | NInt z => VInt z
  | NFloat f => VFloat f
  end.

(** The operand of an arithmetic operator; [bool] is a subclass of
    [int], everything else that is not a number is a [TypeError]. *)
Definition as_num (v : pyval) : result num :=
  match v with
  | VBool b => Ok (NInt (if b then 1 else 0))
  | VInt z => Ok (NInt z)
  | VFloat f => Ok (NFloat f)
  | VNone | VStr _ => Raise TypeError
  end.

Definition to_float (n : num) : result float :=
  match n with
  | NInt z => float_of_int z
  | NFloat f => Ok f
  end.

(** [a + b] *)
Definition num_add (a b : num) : result num :=
  match a, b with
  | NInt x, NInt y => Ok (NInt (x + y))
  | _, _ => fa <- to_float a ;; fb <- to_float b ;; Ok (NFloat (add fa fb))
  end.

(** [a - b] *)
Definition num_sub (a b : num) : result num :=
  match a, b with
  | NInt x, NInt y => Ok (NInt (x - y))
  | _, _ => fa <- to_float a ;; fb <- to_float b ;; Ok (NFloat (sub fa fb))
  end.

(** [a * b] *)
Definition num_mul (a b : num) : result num :=
  match a, b with
  | NInt x, NInt y => Ok (NInt (x * y))
  | _, _ => fa <- to_float a ;; fb <- to_float b ;; Ok (NFloat (mul fa fb))
  end.

(** [a / b] *)
Definition num_truediv (a b : num) : result num :=
  match a, b with
  | NInt x, NInt y => f <- int_true_div x y ;; Ok (NFloat f)
  | _, _ =>
      fa <- to_float a ;; fb <- to_float b ;;
      f <- float_true_div fa fb ;; Ok (NFloat f)
  end.

(** [a // b] *)
Definition num_floordiv (a b : num) : result num :=
  match a, b with
  | NInt x, NInt y =>
      if y =? 0 then Raise ZeroDivisionError else Ok (NInt (x / y))
  | _, _ =>
      fa <- to_float a ;; fb <- to_float b ;;
      f <- float_floor_div fa fb ;; Ok (NFloat f)
  end.

(** [a < b]; a float and an int are compared by their exact values. *)
Definition num_lt (a b : num) : bool :=
  match a, b with
  | NInt x, NInt y => x <? y
  | NFloat f, NFloat g => ltb f g
  | NFloat (Fin n), NInt y => n <? y * one_u
  | NFloat NInf, NInt _ => true
  | NFloat _, NInt _ => false
  | NInt x, NFloat (Fin n) => x * one_u <? n
  | NInt _, NFloat PInf => true
  | NInt _, NFloat _ => false
  end.

(** [int(a)] *)
Definition num_int (a : num) : result Z :=
  match a with
  | NInt z => Ok z
  | NFloat f => float_to_int f
  end.

(** [v < n], [v + n], [v // n] for a stored value [v] and a number [n]. *)
Definition py_lt_num (v : pyval) (n : num) : result bool :=
  a <- as_num v ;; Ok (num_lt a n).

Definition py_add_num (v : pyval) (n : num) : result num :=
  a <- as_num v ;; num_add a n.

Definition py_floordiv_num (v : pyval) (n : num) : result num :=
  a <- as_num v ;; num_floordiv a n.

Section Int.
(** [int(s)] for a string [s] is the interpreter's literal parser;
    the program never reaches it with the values it stores itself. *)
Variable parse_int : string -> result Z.

(** [int(v)] *)
Definition py_int (v : pyval) : result Z :=
  match v with
  | VNone => Raise TypeError
  | VBool b => Ok (if b then 1 else 0)
  | VInt z => Ok z
  | VFloat f => float_to_int f
  | VStr s => parse_int s
  end.
End Int.

End PyVal.

(* ================================================================== *)
(** * Python dictionaries *)

(** Keys are compared with [==]. *)
Class EqKey (K : Type) : Type := {
  keqb : K -> K -> bool;
  keqb_spec : forall a b : K, reflect (a = b) (keqb a b)
}.

#[export] Instance EqKey_Z : EqKey Z :=
  {| keqb := Z.eqb; keqb_spec := Z.eqb_spec |}.

#[export] Instance EqKey_string : EqKey string :=
  {| keqb := String.eqb; keqb_spec := String.eqb_spec |}.

Module PyDict.
Section Dict.
Context {K V : Type} `{EqKey K}.

(** A [dict] keeps its items in insertion order. *)
Definition dict : Type := list (K * V).

Definition empty : dict := [].

(** [d.get(k)] *)
Fixpoint get (d : dict) (k : K) : option V :=
  match d with
  | [] => None
  | (k', v) :: rest => if keqb k k' then Some v else get rest k
  end.

(** [k in d] *)
Definition contains (d : dict) (k : K) : bool :=
  match get d k with
  | Some _ => true
  | None => false
  end.

(** [d[k]] *)
Definition getitem (d : dict) (k : K) : result V :=
  match get d k with
  | Some v => Ok v
  | None => Raise KeyError
  end.

(** [d[k] = v]: an existing key keeps its place, a new one goes last. *)
Fixpoint setitem (d : dict) (k : K) (v : V) : dict :=
  match d with
  | [] => [(k, v)]
  | (k', v') :: rest =>
      if keqb k k' then (k', v) :: rest else (k', v') :: setitem rest k v
  end.

(** [d.update(u)], also the unpacking [{..., **u}] in a display. *)
Definition update (d u : dict) : dict :=
  fold_left (fun acc kv => setitem acc (fst kv) (snd kv)) u d.

(** [d.pop(k, None)] *)
Fixpoint delitem (d : dict) (k : K) : dict :=
  match d with
  | [] => []
  | (k', v') :: rest =>
      if keqb k k' then rest else (k', v') :: delitem rest k
  end.

(** [list(d.keys())] *)
Definition keys (d : dict) : list K := map fst d.

(** [len(d)] *)
Definition len (d : dict) : Z := Z.of_nat (List.length d).

(** What the interpreter guarantees of every dict: no key twice. *)
Definition wf (d : dict) : Prop := NoDup (keys d).
End Dict.
Arguments dict K V : clear implicits.
End PyDict.

(* ================================================================== *)
(** * core/config.py *)

(** The two constants of [core/config.py] that the modelled code reads
    are parameters of the development; their values are not fixed
    here. *)
Record Config : Type := {
  CELL_SIZE : PyVal.num;
  GAME_SCREEN_WIDTH : PyVal.num
}.

(* ================================================================== *)
(** * core/state.py *)

Module State.
Import PyVal PyDict.
Open Scope string_scope.
Open Scope list_scope.
Open Scope Z_scope.

Definition EntityData : Type := dict string pyval.

(** [entities] and [_next_entity_id] are class attributes of
    [GameState]: one store, whatever instance is used to reach it. *)
Record GameState : Type := {
  entities : dict Z EntityData;
  _next_entity_id : Z
}.

Definition initial : GameState :=
  {| entities := empty; _next_entity_id := 1 |}.

(** The display [{"id": ..., "x": 0, ..., "brain_active": False}]. *)
Definition template (entity_id : Z) : EntityData :=
  [ ("id", VInt entity_id);
    ("x", VInt 0);
    ("y", VInt 0);
    ("status", VStr "Existing");
    ("brain_active", VBool false) ].

Definition add_entity (s : GameState) (initial_data : EntityData)
  : GameState * Z :=
  let entity_id := _next_entity_id s in
  let entity_data := update (template entity_id) initial_data in
  ({| entities := setitem (entities s) entity_id entity_data;
      _next_entity_id := entity_id + 1 |},
   entity_id).

Definition update_entity (s : GameState) (entity_id : Z) (updates : EntityData)
  : GameState :=
  match get (entities s) entity_id with
  | Some data =>
      {| entities := setitem (entities s) entity_id (update data updates);
         _next_entity_id := _next_entity_id s |}
  | None => s
  end.

Definition get_entity_ids (s : GameState) : list Z := keys (entities s).

Definition get_entity_data (s : GameState) (entity_id : Z) : EntityData :=
  match get (entities s) entity_id with
  | Some data => data
  | None => empty
  end.

(** Modelled from the spec: removal of an entity.  [GameState] has no
    method for it; the store must support a removal that invalidates
    that identity only, which on the public [entities] dict is
    [entities.pop(entity_id, None)]. *)
Definition remove_entity (s : GameState) (entity_id : Z) : GameState :=
  {| entities := delitem (entities s) entity_id;
     _next_entity_id := _next_entity_id s |}.

(** The calls a client can make on the store. *)
Inductive op : Type :=
| Add (initial_data : EntityData)
| Update (entity_id : Z) (updates : EntityData)
| Remove (entity_id : Z).

(** One call: the new store, and the identity returned when the call
    is [add_entity]. *)
Definition step (s : GameState) (o : op) : GameState * option Z :=
  match o with
  | Add a => let '(s', i) := add_entity s a in (s', Some i)
  | Update i u => (update_entity s i u, None)
  | Remove i => (remove_entity s i, None)
  end.

(** A sequence of calls: the final store and the identities returned,
    in the order they were returned. *)
Fixpoint run (s : GameState) (ops : list op) : GameState * list Z :=
  match ops with
  | [] => (s, [])
  | o :: rest =>
      let '(s1, r) := step s o in
      let '(s2, ids) := run s1 rest in
      (s2, match r with Some i => i :: ids | None => ids end)
  end.

End State.

(* ================================================================== *)
(** * game/grid.py *)

Module Grid.
Import PyVal.

Section Grid.
Variable cell_size : num.

(** [screen_to_grid]: [int(x // cell_size), int(y // cell_size)] *)
Definition screen_to_grid (x y : pyval) : result (Z * Z) :=
  qx <- py_floordiv_num x cell_size ;;
  gx <- num_int qx ;;
  qy <- py_floordiv_num y cell_size ;;
  gy <- num_int qy ;;
  Ok (gx, gy).

(** One coordinate of [grid_to_screen_center]:
    [col * cell_size + cell_size / 2] *)
Definition cell_center (col : Z) : result num :=
  p <- num_mul (NInt col) cell_size ;;
  h <- num_truediv cell_size (NInt 2) ;;
  num_add p h.

Definition grid_to_screen_center (col row : Z) : result (num * num) :=
  center_x <- cell_center col ;;
  center_y <- cell_center row ;;
  Ok (center_x, center_y).
End Grid.

End Grid.

(* ================================================================== *)
(** * gui/variable_monitor.py, as seen from the simulation thread *)

Module VariableMonitor.
Import PyVal PyDict.

(** The calls handed to the Tk thread with [root.after(0, ...)]. *)
Inductive tk_call : Type :=
| ApplyEntityListUpdate (new_entity_ids : list Z)
| PopulateVariables (new_data : dict string pyval).

(** [root] records whether [self.root] is set; [after_queue] holds the
    scheduled calls, oldest first.  The monitor is handed the
    dictionary object itself; a scheduled [PopulateVariables] records
    the contents it had at that moment. *)
Record t : Type := {
  is_running : bool;
  root : bool;
  after_queue : list tk_call
}.

(** [__init__]: no window yet, nothing scheduled. *)
Definition create : t :=
  {| is_running := false; root := false; after_queue := [] |}.

(** The monitor once its thread has built the window. *)
Definition started : t :=
  {| is_running := true; root := true; after_queue := [] |}.

Definition schedule (m : t) (c : tk_call) : t :=
  {| is_running := is_running m;
     root := root m;
     after_queue := after_queue m ++ [c] |}.

Definition update_entity_list (m : t) (new_entity_ids : list Z) : t :=
  if is_running m && root m
  then schedule m (ApplyEntityListUpdate new_entity_ids)
  else m.

Definition update_data (m : t) (new_data : dict string pyval) : t :=
  if is_running m && root m
  then schedule m (PopulateVariables new_data)
  else m.

(** The snapshots among the scheduled calls. *)
Fixpoint snapshots (q : list tk_call) : list (dict string pyval) :=
  match q with
  | [] => []
  | PopulateVariables d :: rest => d :: snapshots rest
  | ApplyEntityListUpdate _ :: rest => snapshots rest
  end.

End VariableMonitor.

(* ================================================================== *)
(** * game/renderer.py *)

Module PygameRenderer.
Import PyFloat PyVal PyDict State.
Open Scope string_scope.
Open Scope list_scope.
Open Scope Z_scope.

Record t : Type := {
  monitor : option VariableMonitor.t;
  state : GameState;
  selected_entity_id : option Z;
  is_running : bool;
  frame_count : Z;
  global_metrics : dict string pyval
}.

(** [__init__]; the window, clock and grid objects hold nothing the
    modelled methods read besides the configuration, and the monitor's
    [select_callback] is [set_selected_entity] below. *)
Definition init (monitor : option VariableMonitor.t) (game_state : GameState) : t :=
  {| monitor := monitor;
     state := game_state;
     selected_entity_id := None;
     is_running := true;
     frame_count := 0;
     global_metrics :=
       [ ("Frame Count", VInt 0);
         ("Current FPS", VFloat zero);
         ("Total Entities", VInt 0);
         ("System Status", VStr "Running") ] |}.

(** Assignments to the attributes the methods below rebind. *)
Definition set_frame_count (r : t) (n : Z) : t :=
  {| monitor := monitor r;
     state := state r;
     selected_entity_id := selected_entity_id r;
     is_running := is_running r;
     frame_count := n;
     global_metrics := global_metrics r |}.

(** The store is shared: what the renderer's calls, or other code,
    make of it. *)
Definition with_state (r : t) (st : GameState) : t :=
  {| monitor := monitor r;
     state := st;
     selected_entity_id := selected_entity_id r;
     is_running := is_running r;
     frame_count := frame_count r;
     global_metrics := global_metrics r |}.

(** The monitor object is shared with the Tk thread: what the
    renderer's calls, or that thread, make of it. *)
Definition with_monitor (r : t) (m : VariableMonitor.t) : t :=
  {| monitor := Some m;
     state := state r;
     selected_entity_id := selected_entity_id r;
     is_running := is_running r;
     frame_count := frame_count r;
     global_metrics := global_metrics r |}.

Definition set_selected_entity (r : t) (entity_id : option Z) : t :=
  {| monitor := monitor r;
     state := state r;
     selected_entity_id := entity_id;
     is_running := is_running r;
     frame_count := frame_count r;
     global_metrics := global_metrics r |}.

Definition update_global_metrics (r : t) (key : string) (value : pyval) : t :=
  {| monitor := monitor r;
     state := state r;
     selected_entity_id := selected_entity_id r;
     is_running := is_running r;
     frame_count := frame_count r;
     global_metrics := setitem (global_metrics r) key value |}.

(** What [pygame.event.get()] hands to [handle_events]. *)
Inductive event : Type :=
| QUIT
| OTHER.

Definition is_quit (e : event) : bool :=
  match e with
  | QUIT => true
  | OTHER => false
  end.

Definition handle_events (events : list event) (r : t) : t :=
  {| monitor := monitor r;
     state := state r;
     selected_entity_id := selected_entity_id r;
     is_running := if existsb is_quit events then false else is_running r;
     frame_count := frame_count r;
     global_metrics := global_metrics r |}.

Section Renderer.
Variable config : Config.

(** [move_speed = 1.5] *)
Definition move_speed : num := NFloat one_and_half.

(** The body of the movement loop for one item of
    [self.state.entities.items()]. *)
Definition move_entity (st : GameState) (entity_id : Z) (data : EntityData)
  : result GameState :=
  x <- getitem data "x" ;;
  limit <- num_sub (GAME_SCREEN_WIDTH config) (CELL_SIZE config) ;;
  below <- py_lt_num x limit ;;
  new_x <- (if below : bool
            then x' <- getitem data "x" ;; py_add_num x' move_speed
            else num_add (NInt 0) move_speed) ;;
  new_y <- getitem data "y" ;;
  '(grid_col, _) <- Grid.screen_to_grid (CELL_SIZE config) (of_num new_x) new_y ;;
  '(_, grid_row) <- Grid.screen_to_grid (CELL_SIZE config) (of_num new_x) new_y ;;
  let updates : EntityData :=
    [ ("x", of_num new_x);
      ("y", new_y);
      ("grid_col", VInt grid_col);
      ("grid_row", VInt grid_row) ] in
  Ok (update_entity st entity_id updates).

(** The movement loop.  [data] is the dictionary stored under
    [entity_id]; an iteration writes that dictionary only, so the
    items taken on entry are the ones the live view yields. *)
Fixpoint move_entities (items : list (Z * EntityData)) (st : GameState)
  : result GameState :=
  match items with
  | [] => Ok st
  | (entity_id, data) :: rest =>
      st' <- move_entity st entity_id data ;;
      move_entities rest st'
  end.

(** Section 2 of [update]: the entity list goes to the monitor every
    sixtieth frame. *)
Definition send_entity_list (r : t) : t :=
  match monitor r with
  | Some m =>
      if frame_count r mod 60 =? 0
      then with_monitor r
             (VariableMonitor.update_entity_list m (get_entity_ids (state r)))
      else r
  | None => r
  end.

(** Section 3 of [update]: the data of the monitored target goes to
    the monitor every fifteenth frame. *)
Definition send_data (r : t) : t :=
  match monitor r with
  | Some m =>
      if frame_count r mod 15 =? 0
      then
        let data_to_send :=
          match selected_entity_id r with
          | None => global_metrics r
          | Some entity_id => get_entity_data (state r) entity_id
          end in
        with_monitor r (VariableMonitor.update_data m data_to_send)
      else r
  | None => r
  end.

(** [update]; [fps] is the value of [round(self.clock.get_fps(), 1)]. *)
Definition update (fps : float) (r : t) : result t :=
  let r := set_frame_count r (frame_count r + 1) in
  st <- move_entities (entities (state r)) (state r) ;;
  let r := with_state r st in
  let r := update_global_metrics r "Frame Count" (VInt (frame_count r)) in
  let r := update_global_metrics r "Current FPS" (VFloat fps) in
  let r :=
    update_global_metrics r "Total Entities"
      (VInt (len (entities (state r)))) in
  let r := send_entity_list r in
  let r := send_data r in
  Ok r.

Section Draw.
Variable parse_int : string -> result Z.

(** The values [draw] computes for one entity before it hands them
    to pygame: the circle's centre. *)
Definition draw_entity (data : EntityData) : result (Z * Z) :=
  pos_x <- getitem data "x" ;;
  pos_y <- getitem data "y" ;;
  _ <- num_floordiv (CELL_SIZE config) (NInt 4) ;;
  px <- py_int parse_int pos_x ;;
  py <- py_int parse_int pos_y ;;
  Ok (px, py).

Fixpoint draw_entities (items : list (Z * EntityData)) : result unit :=
  match items with
  | [] => Ok tt
  | (_, data) :: rest => _ <- draw_entity data ;; draw_entities rest
  end.

(** [draw]: it changes nothing in the renderer, and fails when a
    stored position cannot be turned into pixel coordinates. *)
Definition draw (r : t) : result unit :=
  draw_entities (entities (state r)).

(** What one turn of the main loop receives from outside. *)
Record frame_env : Type := {
  events : list event;
  fps : float
}.

(** One turn of the loop in [run]. *)
Definition frame (e : frame_env) (r : t) : result t :=
  let r1 := handle_events (events e) r in
  r2 <- update (fps e) r1 ;;
  _ <- draw r2 ;;
  Ok r2.

(** The loop of [run], for as many turns as there are inputs; what
    follows the loop stops the monitor and closes pygame. *)
Fixpoint run (envs : list frame_env) (r : t) : result t :=
  match envs with
  | [] => Ok r
  | e :: rest =>
      if is_running r
      then r' <- frame e r ;; run rest r'
      else Ok r
  end.
End Draw.
End Renderer.

End PygameRenderer.

(* ================================================================== *)
(** * The renderer among the other actors *)

Module RendererSpec.
Import PyFloat PyVal PyDict State PygameRenderer.
Open Scope string_scope.
Open Scope list_scope.
Open Scope Z_scope.

(** The renderer states the program can be in: built by [__init__],
    advanced by [update] and [handle_events] on the main thread, with
    the selection callback, the store's clients and the Tk thread
    acting in between. *)
Inductive reachable (config : Config) : t -> Prop :=
| reach_init mon gs :
    reachable config (init mon gs)
| reach_update r fps r' :
    reachable config r -> update config fps r = Ok r' ->
    reachable config r'
| reach_events r evs :
    reachable config r -> reachable config (handle_events evs r)
| reach_select r sel :
    reachable config r -> reachable config (set_selected_entity r sel)
| reach_store r o :
    reachable config r ->
    reachable config (with_state r (fst (State.step (state r) o)))
| reach_tk r m m' :
    reachable config r -> monitor r = Some m ->
    reachable config (with_monitor r m').

(** The metrics cache holds its four keys in their initial order. *)
Definition metrics_shape (gm : dict string pyval) : Prop :=
  exists frames rate total,
    gm = [ ("Frame Count", frames);
           ("Current FPS", rate);
           ("Total Entities", total);
           ("System Status", VStr "Running") ].

(** The aggregate snapshot of a renderer state. *)
Definition aggregate_snapshot (fps : float) (r : t) : dict string pyval :=
  [ ("Frame Count", VInt (frame_count r));
    ("Current FPS", VFloat fps);
    ("Total Entities", VInt (len (entities (state r))));
    ("System Status", VStr "Running") ].

(** An entity the movement loop can advance: both coordinates are
    floats, multiples of one half, well inside the exact range. *)
Definition movable (data : EntityData) : Prop :=
  exists kx ky,
    get data "x" = Some (VFloat (PyFloatSpec.halves kx)) /\
    get data "y" = Some (VFloat (PyFloatSpec.halves ky)) /\
    Z.abs kx <= 2 ^ 51 /\ Z.abs ky <= 2 ^ 51.

Definition all_movable (st : GameState) : Prop :=
  Forall (fun item => movable (snd item)) (entities st).

(** A monitor whose window is up. *)
Definition monitor_up (m : VariableMonitor.t) : Prop :=
  VariableMonitor.is_running m = true /\ VariableMonitor.root m = true.

(** The number of snapshots scheduled on a monitor. *)
Definition snaps (m : VariableMonitor.t) : Z :=
  Z.of_nat
    (List.length (VariableMonitor.snapshots (VariableMonitor.after_queue m))).

(** The renderer is in the loop, every entity can be advanced, and the
    monitor is up. *)
Definition ready (r : t) (m : VariableMonitor.t) : Prop :=
  all_movable (state r) /\ is_running r = true /\
  monitor r = Some m /\ monitor_up m /\
  metrics_shape (global_metrics r).

(** [n] calls of [update] in a row, the clock reading [fps] each time. *)
Fixpoint updates (config : Config) (n : nat) (fps : float) (r : t)
  : result t :=
  match n with
  | O => Ok r
  | S n' => r' <- update config fps r ;; updates config n' fps r'
  end.

(** Loop inputs without a QUIT event. *)
Definition no_quit (e : frame_env) : bool :=
  negb (existsb is_quit (events e)).

(** [int] is never applied to a string by the scenarios below. *)
Definition no_parse (s : string) : result Z := Raise ValueError.

(** A configuration whose sizes are whole numbers of pixels. *)
Definition pixel_config (cell_size screen_width : Z) : Config :=
  {| CELL_SIZE := NInt cell_size; GAME_SCREEN_WIDTH := NInt screen_width |}.

(** A sample configuration: 40-pixel cells on an 800-pixel screen. *)
Definition sample_config : Config := pixel_config 40 800.

Definition idle_frame : frame_env :=
  {| events := []; fps := Fin (60 * one_u) |}.

End RendererSpec.

(* ================================================================== *)
(** * main.py *)

Module Main.
Import PyVal PyDict State.
Open Scope string_scope.
Open Scope list_scope.
Open Scope Z_scope.

Section Main.
Variable config : Config.

(** [get_center_coords]: the formula of [Grid.grid_to_screen_center]
    over [CELL_SIZE]. *)
Definition get_center_coords (col row : Z) : result (num * num) :=
  cx <- Grid.cell_center (CELL_SIZE config) col ;;
  cy <- Grid.cell_center (CELL_SIZE config) row ;;
  Ok (cx, cy).

(** The two [add_entity] calls; the store and the identities printed. *)
Definition populate (s : GameState) : result (GameState * (Z * Z)) :=
  '(x1, y1) <- get_center_coords 3 5 ;;
  let '(s1, e1_id) :=
    add_entity s
      [ ("x", of_num x1); ("y", of_num y1);
        ("name", VStr "First Agent");
        ("manual_spawn", VBool true);
        ("status", VStr "Spawned") ] in
  '(x2, y2) <- get_center_coords 10 8 ;;
  let '(s2, e2_id) :=
    add_entity s1
      [ ("x", of_num x2); ("y", of_num y2);
        ("name", VStr "Second Agent");
        ("manual_spawn", VBool true);
        ("status", VStr "Spawned") ] in
  Ok (s2, (e1_id, e2_id)).

Section Loop.
Variable parse_int : string -> result Z.

(** [main]; [monitor] is the monitor object as it stands after
    [start_monitor_thread] and the one-second wait, [envs] what the
    loop receives.  Without a running monitor there is no renderer. *)
Definition main (monitor : VariableMonitor.t)
    (envs : list PygameRenderer.frame_env)
  : result (option PygameRenderer.t) :=
  '(s, _) <- populate State.initial ;;
  if negb (VariableMonitor.is_running monitor) then Ok None
  else
    let renderer := PygameRenderer.init (Some monitor) s in
    r <- PygameRenderer.run config parse_int envs renderer ;;
    Ok (Some r).
End Loop.
End Main.

End Main.

(* ================================================================== *)
(** * Predicates used to state the properties of the store *)

Module StateSpec.
Import PyVal PyDict State.
Open Scope string_scope.
Open Scope list_scope.
Open Scope Z_scope.

(** Live identities are distinct, positive and below the counter. *)
Definition store_inv (s : GameState) : Prop :=
  wf (entities s) /\
  1 <= _next_entity_id s /\
  forall k, In k (keys (entities s)) -> 1 <= k < _next_entity_id s.

(** The call does not carry the key ["id"]. *)
Definition keeps_id (o : op) : bool :=
  match o with
  | Add a => negb (contains a "id")
  | Update _ u => negb (contains u "id")
  | Remove _ => true
  end.

(** Every live entity carries its own identity under ["id"]. *)
Definition id_field_inv (s : GameState) : Prop :=
  forall i E, get (entities s) i = Some E -> get E "id" = Some (VInt i).

(** [entity_id] was returned by a creation and removed afterwards. *)
Definition removed_after_issue (ops : list op) (entity_id : Z) : Prop :=
  exists ops1 ops2,
    ops = ops1 ++ Remove entity_id :: ops2 /\
    In entity_id (snd (run initial ops1)).

End StateSpec.

(* ================================================================== *)
(** * Sample runs *)

Module Samples.
Import PyFloat PyVal PyDict State PygameRenderer RendererSpec.
Open Scope string_scope.
Open Scope list_scope.
Open Scope Z_scope.

(** A store holding one entity, created with a name. *)
Definition probe : EntityData := [ ("name", VStr "probe") ].

Definition store_one : GameState := fst (add_entity initial probe).

(** Creations and an update, none of them carrying "id". *)
Definition plain_calls : list op :=
  [ Add probe; Update 1 [ ("x", VInt 3) ]; Add [] ].

(** An entity is created, removed, and another one created. *)
Definition removal_calls : list op := [ Add []; Remove 1; Add [] ].

Definition or_initial (r : result t) : t :=
  match r with
  | Ok r' => r'
  | Raise _ => init None initial
  end.

(** A renderer over an empty store, one frame before it publishes. *)
Definition before_publish : t :=
  Eval vm_compute in
    or_initial
      (updates sample_config 14 zero
         (init (Some VariableMonitor.started) initial)).

(** The inspector selects entity 1, which is then removed. *)
Definition stale_start : t :=
  with_state
    (set_selected_entity
       (init (Some VariableMonitor.started) store_one) (Some 1))
    (remove_entity store_one 1).

Definition stale_before_publish : t :=
  Eval vm_compute in or_initial (updates sample_config 14 zero stale_start).

Definition stale_published : t :=
  Eval vm_compute in
    or_initial (update sample_config zero stale_before_publish).

Definition published : t :=
  Eval vm_compute in or_initial (update sample_config zero before_publish).

End Samples.

(* ================================================================== *)
(** * Python strings of integers, and [sorted] *)

Module PyStr.
Import DecimalString.
Open Scope string_scope.
Open Scope list_scope.
Open Scope Z_scope.

(** A character's code point; strings are read as sequences of code
    points below 256. *)
Definition ord (c : ascii) : N := N_of_ascii c.

(** The characters [str.isdigit] accepts in that range: the ASCII
    digits and the superscripts two, three and one. *)
Definition isdigit_char (c : ascii) : bool :=
  let n := ord c in
  (((48 <=? n) && (n <=? 57)) || (n =? 178) || (n =? 179) || (n =? 185))%N.

Fixpoint all_digits (s : string) : bool :=
  match s with
  | EmptyString => true
  | String c rest => isdigit_char c && all_digits rest
  end.

(** [s.isdigit()] *)
Definition isdigit (s : string) : bool :=
  match s with
  | EmptyString => false
  | _ => all_digits s
  end.

Section Limit.
(** [sys.get_int_max_str_digits()]: 0 when there is no limit, as in
    the interpreters that do not have one. *)
Variable int_max_str_digits : Z.

Definition over_limit (digits : nat) : bool :=
  (0 <? int_max_str_digits) && (int_max_str_digits <? Z.of_nat digits).

(** [str(z)] *)
Definition str_int (z : Z) : result string :=
  let digits :=
    match Z.to_int z with
    | Decimal.Pos d | Decimal.Neg d => NilZero.string_of_uint d
    end in
  if over_limit (String.length digits) then Raise ValueError
  else Ok (NilZero.string_of_int (Z.to_int z)).

(** [int(s)] for a string [s] that [isdigit] accepts: the superscripts
    are no decimal literal. *)
Definition int_of_digits (s : string) : result Z :=
  if over_limit (String.length s) then Raise ValueError
  else match NilEmpty.uint_of_string s with
       | Some d => Ok (Z.of_uint d)
       | None => Raise ValueError
       end.
End Limit.

(** [sorted(l)] for a list of integers. *)
Fixpoint insert (z : Z) (l : list Z) : list Z :=
  match l with
  | [] => [z]
  | y :: rest => if z <=? y then z :: l else y :: insert z rest
  end.

Definition sorted (l : list Z) : list Z := fold_right insert [] l.

(** [a == b] for lists of strings, and [x in l]. *)
Fixpoint list_eqb (a b : list string) : bool :=
  match a, b with
  | [], [] => true
  | x :: a', y :: b' => (x =? y)%string && list_eqb a' b'
  | _, _ => false
  end.

Definition mem (x : string) (l : list string) : bool :=
  existsb (String.eqb x) l.

(** [[f(x) for x in l]] for an [f] that may raise. *)
Fixpoint map_result {A B : Type} (f : A -> result B) (l : list A)
  : result (list B) :=
  match l with
  | [] => Ok []
  | a :: rest => b <- f a ;; bs <- map_result f rest ;; Ok (b :: bs)
  end.

(** The decimal digits of a natural number. *)
Definition digits_of (z : Z) : Decimal.uint :=
  match z with
  | Z0 => Decimal.zero
  | Zpos p | Zneg p => Pos.to_uint p
  end.

End PyStr.

(* ================================================================== *)
(** * gui/variable_monitor.py, on the Tk thread *)

Module MonitorGui.
Import PyVal PyDict PyStr.
Open Scope string_scope.
Open Scope list_scope.
Open Scope Z_scope.

(** The attributes of [VariableMonitor] that only the Tk thread
    touches.  [entity_var] is the value of the [StringVar], [None]
    before [_setup_gui] creates it; [entity_menu] and [content_frame]
    record whether the widget exists; [select_callback] whether a
    callback is installed; [variable_labels] maps a key to the text of
    its value label.  The option menu's entries are [entity_ids]. *)
Record t : Type := {
  entity_var : option string;
  entity_menu : bool;
  entity_ids : list string;
  select_callback : bool;
  content_frame : bool;
  variable_labels : dict string string
}.

(** [__init__] *)
Definition create : t :=
  {| entity_var := None;
     entity_menu := false;
     entity_ids := ["Game Metrics"];
     select_callback := false;
     content_frame := false;
     variable_labels := [] |}.

(** The assignment [monitor.select_callback = ...] of the renderer. *)
Definition install_callback (g : t) : t :=
  {| entity_var := entity_var g;
     entity_menu := entity_menu g;
     entity_ids := entity_ids g;
     select_callback := true;
     content_frame := content_frame g;
     variable_labels := variable_labels g |}.

(** What [_setup_gui] leaves before the main loop, but for the labels:
    the variable holds "Game Metrics" (set before the trace is added,
    so no callback runs) and the widgets exist. *)
Definition setup_gui (g : t) : t :=
  {| entity_var := Some "Game Metrics";
     entity_menu := true;
     entity_ids := entity_ids g;
     select_callback := select_callback g;
     content_frame := true;
     variable_labels := variable_labels g |}.

Section Gui.
Variable int_max_str_digits : Z.

(** [self.entity_var.get() if self.entity_var else "Game Metrics"] *)
Definition current_selection (g : t) : string :=
  match entity_var g with
  | Some s => s
  | None => "Game Metrics"
  end.

(** [_on_entity_select]: the argument the callback is called with,
    when one is installed. *)
Definition on_entity_select (g : t) : result (option (option Z)) :=
  let selected := current_selection g in
  target_id <-
    (if isdigit selected
     then z <- int_of_digits int_max_str_digits selected ;; Ok (Some z)
     else if (selected =? "Game Metrics")%string then Ok None
     else Ok None) ;;
  Ok (if select_callback g then Some target_id else None).

(** [self.entity_var.set(value)]: the write runs the trace, that is
    [_on_entity_select]; Tk reports an exception raised in it and
    goes on. *)
Definition set_entity_var (g : t) (value : string)
  : t * option (option Z) :=
  let g' :=
    {| entity_var := Some value;
       entity_menu := entity_menu g;
       entity_ids := entity_ids g;
       select_callback := select_callback g;
       content_frame := content_frame g;
       variable_labels := variable_labels g |} in
  match on_entity_select g' with
  | Ok call => (g', call)
  | Raise _ => (g', None)
  end.

Definition set_entity_ids (g : t) (ids : list string) : t :=
  {| entity_var := entity_var g;
     entity_menu := entity_menu g;
     entity_ids := ids;
     select_callback := select_callback g;
     content_frame := content_frame g;
     variable_labels := variable_labels g |}.

(** [_apply_entity_list_update]; the monitor and the callback's
    argument, if the callback ran. *)
Definition apply_entity_list_update (g : t) (new_entity_ids : list Z)
  : result (t * option (option Z)) :=
  if negb (entity_menu g) then Ok (g, None)
  else
    labels <- map_result (str_int int_max_str_digits) (sorted new_entity_ids) ;;
    let new_ids_str := "Game Metrics" :: labels in
    if list_eqb new_ids_str (entity_ids g) then Ok (g, None)
    else
      let g1 := set_entity_ids g new_ids_str in
      let current := current_selection g1 in
      match entity_var g1 with
      | Some _ =>
          if mem current (entity_ids g1)
          then Ok (g1, None)
          else Ok (set_entity_var g1 (hd "" (entity_ids g1)))
      | None => Ok (g1, None)
      end.

Section Labels.
(** [repr] of a float: its text is not modelled, and it never raises. *)
Variable float_str : PyFloat.float -> string.

(** [str(value)] for the values shown; the text of an integer is
    subject to the limit on digits. *)
Definition py_str (v : pyval) : result string :=
  match v with
  | VNone => Ok "None"
  | VBool true => Ok "True"
  | VBool false => Ok "False"
  | VInt z => str_int int_max_str_digits z
  | VFloat f => Ok (float_str f)
  | VStr s => Ok s
  end.

Definition set_variable_labels (g : t) (labels : dict string string) : t :=
  {| entity_var := entity_var g;
     entity_menu := entity_menu g;
     entity_ids := entity_ids g;
     select_callback := select_callback g;
     content_frame := content_frame g;
     variable_labels := labels |}.

(** The loop of [_populate_variables] from the labels made so far:
    [str(value)] is evaluated before the label is stored, so an
    exception leaves the labels of the items before it. *)
Fixpoint populate_items (labels : dict string string)
    (items : list (string * pyval)) : dict string string * option pyerr :=
  match items with
  | [] => (labels, None)
  | (key, value) :: rest =>
      match py_str value with
      | Ok text => populate_items (setitem labels key text) rest
      | Raise e => (labels, Some e)
      end
  end.

(** [_populate_variables]: the labels are rebuilt from nothing, one
    per item, the key being [str(key)], which for a string is the
    string.  The result is the monitor it leaves and the exception it
    raised, if any. *)
Definition populate_variables (g : t) (data : dict string pyval)
  : t * option pyerr :=
  if content_frame g
  then
    let '(labels, err) := populate_items [] data in
    (set_variable_labels g labels, err)
  else (g, None).

(** A call scheduled with [root.after] runs on the Tk thread; an
    exception in it is reported and the thread goes on. *)
Definition run_call (g : t) (c : VariableMonitor.tk_call)
  : t * option (option Z) :=
  match c with
  | VariableMonitor.ApplyEntityListUpdate ids =>
      match apply_entity_list_update g ids with
      | Ok res => res
      | Raise _ => (g, None)
      end
  | VariableMonitor.PopulateVariables data =>
      (fst (populate_variables g data), None)
  end.

(** The Tk thread takes the oldest scheduled call of the monitor the
    renderer holds and runs it; the callback is the renderer's
    [set_selected_entity]. *)
Definition tk_step (g : t) (r : PygameRenderer.t) : t * PygameRenderer.t :=
  match PygameRenderer.monitor r with
  | Some m =>
      match VariableMonitor.after_queue m with
      | [] => (g, r)
      | c :: rest =>
          let m' :=
            {| VariableMonitor.is_running := VariableMonitor.is_running m;
               VariableMonitor.root := VariableMonitor.root m;
               VariableMonitor.after_queue := rest |} in
          let r1 := PygameRenderer.with_monitor r m' in
          let '(g', call) := run_call g c in
          (g',
           match call with
           | Some target => PygameRenderer.set_selected_entity r1 target
           | None => r1
           end)
      end
  | None => (g, r)
  end.
End Labels.
End Gui.

(** The variable holds one of the entries of the menu. *)
Definition selection_valid (g : t) : Prop :=
  In (current_selection g) (entity_ids g).

End MonitorGui.

(* ================================================================== *)
(** * game/grid.py: drawing *)

Module GridDraw.
Import PyVal.
Open Scope list_scope.
Open Scope Z_scope.

(** [range(n)] *)
Definition range (n : Z) : list Z := map Z.of_nat (seq 0 (Z.to_nat n)).

Section Draw.
(** The colour values of [core/config.py] are whatever pygame accepts. *)
Variable color : Type.
Variables GRID_COLOR_1 GRID_COLOR_2 : color.
(** The dimensions are integers: [range] accepts nothing else. *)
Variables GRID_WIDTH GRID_HEIGHT : Z.
Variable cell_size : num.

(** What one call of [pygame.draw.rect] receives: the colour and the
    arguments of [pygame.Rect]. *)
Record rect_call : Type := {
  rect_color : color;
  rect_left : num;
  rect_top : num;
  rect_width : num;
  rect_height : num
}.

Definition cell_color (row col : Z) : color :=
  if (row + col) mod 2 =? 0 then GRID_COLOR_1 else GRID_COLOR_2.

(** The body of the inner loop. *)
Definition draw_cell (row col : Z) : result rect_call :=
  let color := cell_color row col in
  left <- num_mul (NInt col) cell_size ;;
  top <- num_mul (NInt row) cell_size ;;
  Ok {| rect_color := color;
        rect_left := left;
        rect_top := top;
        rect_width := cell_size;
        rect_height := cell_size |}.

Fixpoint draw_cols (row : Z) (cols : list Z) : result (list rect_call) :=
  match cols with
  | [] => Ok []
  | col :: rest =>
      call <- draw_cell row col ;;
      calls <- draw_cols row rest ;;
      Ok (call :: calls)
  end.

Fixpoint draw_rows (rows : list Z) : result (list rect_call) :=
  match rows with
  | [] => Ok []
  | row :: rest =>
      calls <- draw_cols row (range GRID_WIDTH) ;;
      more <- draw_rows rest ;;
      Ok (calls ++ more)
  end.

(** [Grid.draw]: the rectangles drawn, in the order they are drawn. *)
Definition draw : result (list rect_call) :=
  draw_rows (range GRID_HEIGHT).

(** The square of side [c] pixels for the cell [(col, row)], in the
    colour of that cell. *)
Definition square (c row col : Z) : rect_call :=
  {| rect_color := cell_color row col;
     rect_left := NInt (col * c);
     rect_top := NInt (row * c);
     rect_width := NInt c;
     rect_height := NInt c |}.
End Draw.

End GridDraw.

(* ================================================================== *)
(** * The range of the round trip between cells and pixels *)

Module GridSpec.
Import PyFloat PyVal.

(** A positive cell size, an [int] or a finite [float], and its value
    [u] in units of [2^-1074]. *)
Definition positive_cell (c : num) (u : Z) : Prop :=
  match c with
  | NInt z => 0 < z /\ u = z * one_u
  | NFloat (Fin b) => 0 < b /\ u = b
  | NFloat _ => False
  end.

(** The indices whose centre comes back to them: below [2^50], with
    [(index + 1) * cell_size] below [2^1023]; and, for an integer cell
    size, as long as the centre [(2 * index + 1) * cell_size / 2] is
    computed without rounding. *)
Definition round_trip_range (c : num) (index : Z) : Prop :=
  0 <= index /\
  ((exists u,
       positive_cell c u /\ index < 2 ^ 50 /\
       (index + 1) * u < 2 ^ 2097) \/
   (exists z, c = NInt z /\ 0 < z /\ (2 * index + 1) * z < 2 ^ 53)).

End GridSpec.

(* ================================================================== *)
(** * Predicates used to state the shape of the store *)

Module StoreShape.
Import PyVal PyDict State.
Open Scope string_scope.
Open Scope list_scope.
Open Scope Z_scope.

(** The keys of the template. *)
Definition template_keys : list string :=
  ["id"; "x"; "y"; "status"; "brain_active"].

(** Live identities are listed in increasing order. *)
Definition ids_sorted (s : GameState) : Prop :=
  StronglySorted Z.lt (get_entity_ids s).

(** Every live entity has the keys of the template. *)
Definition has_template (s : GameState) : Prop :=
  forall i E k,
    get (entities s) i = Some E -> In k template_keys -> In k (keys E).

End StoreShape.

(* ================================================================== *)
(** * Predicates used to state the properties of the frame *)

Module FrameSpec.
Import PyFloat PyVal PyDict State PygameRenderer.
Open Scope string_scope.
Open Scope list_scope.
Open Scope Z_scope.

(** The keys the movement loop writes. *)
Definition moved_keys : list string := ["x"; "y"; "grid_col"; "grid_row"].

(** What one iteration of the movement loop makes of an entity. *)
Definition moved (config : Config) (old new : EntityData) : Prop :=
  exists x y limit below new_x grid_col grid_row,
    get old "x" = Some x /\ get old "y" = Some y /\
    num_sub (GAME_SCREEN_WIDTH config) (CELL_SIZE config) = Ok limit /\
    py_lt_num x limit = Ok below /\
    (if below : bool
     then py_add_num x move_speed
     else num_add (NInt 0) move_speed) = Ok new_x /\
    Grid.screen_to_grid (CELL_SIZE config) (of_num new_x) y
      = Ok (grid_col, grid_row) /\
    new = PyDict.update old
            [ ("x", of_num new_x); ("y", y);
              ("grid_col", VInt grid_col); ("grid_row", VInt grid_row) ].

(** The same identities in the same order, each entity moved. *)
Definition all_moved (config : Config) (old new : GameState) : Prop :=
  Forall2 (fun o n => fst o = fst n /\ moved config (snd o) (snd n))
          (entities old) (entities new) /\
  _next_entity_id new = _next_entity_id old.

(** The position [k / 2], stored as a float or as an integer. *)
Definition at_half_pixels (v : pyval) (k : Z) : Prop :=
  v = VFloat (PyFloatSpec.halves k) \/ exists z, v = VInt z /\ k = 2 * z.

End FrameSpec.

(* ================================================================== *)
(** * Sample frames and monitor windows *)

Module FrameSamples.
Import PyFloat PyVal PyDict State PygameRenderer RendererSpec Samples.
Open Scope string_scope.
Open Scope list_scope.
Open Scope Z_scope.

(** A renderer with a monitor over the store of one entity. *)
Definition moving_start : PygameRenderer.t :=
  init (Some VariableMonitor.started) store_one.

Definition moved_once : PygameRenderer.t :=
  Eval vm_compute in or_initial (update sample_config zero moving_start).

(** The entity of [store_one], and what one frame makes of it. *)
Definition probe_entity : EntityData := PyDict.update (template 1) probe.

Definition moved_probe : EntityData :=
  Eval vm_compute in get_entity_data (state moved_once) 1.

(** The same renderer with entity 1 selected, one frame before a
    publication. *)
Definition selected_start : PygameRenderer.t :=
  set_frame_count (set_selected_entity moving_start (Some 1)) 14.

Definition selected_published : PygameRenderer.t :=
  Eval vm_compute in or_initial (update sample_config zero selected_start).

(** A renderer whose monitor has not been started. *)
Definition unstarted_start : PygameRenderer.t :=
  init (Some VariableMonitor.create) store_one.

Definition unstarted_moved : PygameRenderer.t :=
  Eval vm_compute in or_initial (update sample_config zero unstarted_start).

(** The stale selection of [stale_start], one frame before the list
    of identities is refreshed. *)
Definition stale_before_refresh : PygameRenderer.t :=
  set_frame_count stale_start 59.

Definition stale_refreshed : PygameRenderer.t :=
  Eval vm_compute in
    or_initial (update sample_config zero stale_before_refresh).

(** A turn of the loop that receives a QUIT event. *)
Definition quit_frame : frame_env :=
  {| events := [OTHER; QUIT]; fps := zero |}.

(** The default of [sys.get_int_max_str_digits()] in CPython 3.11. *)
Definition default_max_str_digits : Z := 4300.

(** The monitor's window once [_setup_gui] has built it, the
    renderer's callback installed. *)
Definition gui_ready : MonitorGui.t :=
  MonitorGui.install_callback (MonitorGui.setup_gui MonitorGui.create).

(** The window showing entity 1, which the user has selected. *)
Definition gui_selected : MonitorGui.t :=
  {| MonitorGui.entity_var := Some "1";
     MonitorGui.entity_menu := true;
     MonitorGui.entity_ids := ["Game Metrics"; "1"];
     MonitorGui.select_callback := true;
     MonitorGui.content_frame := true;
     MonitorGui.variable_labels := [] |}.

(** The window after the selection has fallen back, entity 2 being
    the only one left. *)
Definition gui_fallen_back : MonitorGui.t :=
  {| MonitorGui.entity_var := Some "Game Metrics";
     MonitorGui.entity_menu := true;
     MonitorGui.entity_ids := ["Game Metrics"; "2"];
     MonitorGui.select_callback := true;
     MonitorGui.content_frame := true;
     MonitorGui.variable_labels := [] |}.

(** The window listing entities 1 and 2. *)
Definition gui_two : MonitorGui.t :=
  {| MonitorGui.entity_var := Some "Game Metrics";
     MonitorGui.entity_menu := true;
     MonitorGui.entity_ids := ["Game Metrics"; "1"; "2"];
     MonitorGui.select_callback := true;
     MonitorGui.content_frame := true;
     MonitorGui.variable_labels := [] |}.

(** A stand-in for the text of a float. *)
Definition float_text (f : float) : string := "0.0".

(** A value whose text is longer than a limit of 640 digits allows. *)
Definition long_int : Z := 10 ^ 640.

Definition long_data : dict string pyval :=
  [ ("Frame Count", VInt 7); ("score", VInt long_int); ("name", VStr "probe") ].

End FrameSamples.

(** Spot checks of the rounding against values printed by CPython. *)
Example float_tenth :
  PyFloat.int_true_div 1 10 = Ok (PyFloat.of_hex 0x1999999999999a (-56)).
Proof. vm_compute. reflexivity. Qed.

Example float_tenth_plus_fifth :
  PyFloat.add (PyFloat.of_hex 0x1999999999999a (-56))
              (PyFloat.of_hex 0x1999999999999a (-55))
  = PyFloat.of_hex 0x13333333333334 (-54).
Proof. vm_compute. reflexivity. Qed.

Example float_one_floordiv_tenth :
  PyFloat.float_floor_div PyFloat.one (PyFloat.of_hex 0x1999999999999a (-56))
  = Ok (PyFloat.Fin (9 * PyFloat.one_u)).
Proof. vm_compute. reflexivity. Qed.

Example float_neg_floordiv :
  PyFloat.float_floor_div (PyFloat.Fin (- (15 * 2 ^ 1073))) (PyFloat.Fin (2 * PyFloat.one_u))
  = Ok (PyFloat.Fin (- (4 * PyFloat.one_u))).
Proof. vm_compute. reflexivity. Qed.

Example float_special_values :
  PyFloat.mul PyFloat.PInf PyFloat.NInf = PyFloat.NInf /\
  PyFloat.float_floor_div (PyFloat.Fin (- PyFloat.one_u)) PyFloat.PInf
  = Ok (PyFloat.Fin (- PyFloat.one_u)) /\
  PyFloat.float_floor_div PyFloat.PInf PyFloat.one = Ok PyFloat.NaN /\
  PyFloat.float_floor_div PyFloat.one PyFloat.zero = Raise ZeroDivisionError /\
  PyFloat.float_to_int PyFloat.NaN = Raise ValueError.
Proof. repeat split; vm_compute; reflexivity. Qed.

Example float_of_int_ties_even :
  PyFloat.float_of_int (2 ^ 53 + 1) = Ok (PyFloat.Fin (2 ^ 53 * PyFloat.one_u)).
Proof. vm_compute. reflexivity. Qed.

(** The first turn of the loop on the sample configuration: the first
    agent starts at 140.0, moves to 141.5 and stays in column 3, row 5. *)
Example main_first_frame :
  match
    Main.main RendererSpec.sample_config RendererSpec.no_parse
      VariableMonitor.started [RendererSpec.idle_frame]
  with
  | Ok (Some r) =>
      let data := State.get_entity_data (PygameRenderer.state r) 1 in
      (PygameRenderer.frame_count r,
       PyDict.get data "x"%string,
       PyDict.get data "grid_col"%string,
       PyDict.get data "grid_row"%string,
       PyDict.keys data)
      = (1,
         Some (PyVal.VFloat (PyFloatSpec.halves 283)),
         Some (PyVal.VInt 3),
         Some (PyVal.VInt 5),
         ["id"; "x"; "y"; "status"; "brain_active"; "name"; "manual_spawn";
          "grid_col"; "grid_row"]%string)
  | _ => False
  end.
Proof. vm_compute. reflexivity. Qed.

(** A monitor that did not start: [main] returns before any frame. *)
Example main_without_monitor :
  Main.main RendererSpec.sample_config RendererSpec.no_parse
    VariableMonitor.create [RendererSpec.idle_frame]
  = Ok None.
Proof. vm_compute. reflexivity. Qed.

(* ================================================================== *)
(** * Exact float arithmetic *)

Module PyFloatFacts.
Import PyFloat PyFloatSpec.

Lemma div_half_even_exact k q : 0 < q -> div_half_even (k * q) q = k.
Proof.
  intros Hq. unfold div_half_even.
  rewrite Z.div_mul, Z.mod_mul by lia.
  assert (Hc : (2 * 0 ?= q) = Lt) by (apply Z.compare_lt_iff; lia).
  now rewrite Hc.
Qed.

Lemma round_mag_exact N q :
  0 < q -> 0 <= N -> representable N -> round_mag (N * q) q = N.
Proof.
  intros Hq HN (m & e & -> & He & Hm). unfold round_mag.
  rewrite Z.div_mul by lia.
  set (s := Z.max 0 (Z.log2 (m * 2 ^ e) - 52)).
  assert (Hpe : 0 < 2 ^ e) by (apply Z.pow_pos_nonneg; lia).
  assert (Hs : 0 <= s <= e).
  { subst s. split; [lia|].
    apply Z.max_lub; [lia|].
    destruct (Z.eq_dec m 0) as [->|Hm0].
    - simpl. lia.
    - assert (0 < m) by nia.
      rewrite Z.log2_mul_pow2 by lia.
      assert (Z.log2 m < 53); [|lia].
      apply Z.log2_lt_pow2; lia. }
  assert (Hps : 0 < 2 ^ s) by (apply Z.pow_pos_nonneg; lia).
  replace (2 ^ e) with (2 ^ (e - s) * 2 ^ s)
    by (rewrite <- Z.pow_add_r by lia; f_equal; lia).
  replace (m * (2 ^ (e - s) * 2 ^ s) * q)
    with (m * 2 ^ (e - s) * (q * 2 ^ s)) by ring.
  rewrite div_half_even_exact by nia. ring.
Qed.

Lemma representable_abs N : representable N -> representable (Z.abs N).
Proof.
  intros (m & e & -> & He & Hm). exists (Z.abs m), e.
  assert (0 < 2 ^ e) by (apply Z.pow_pos_nonneg; lia).
  rewrite Z.abs_mul, (Z.abs_eq (2 ^ e)), Z.abs_idemp by lia. auto.
Qed.

Lemma representable_lt_huge N : representable N -> Z.abs N < huge.
Proof.
  intros (m & e & -> & He & Hm). unfold huge.
  assert (0 < 2 ^ e) by (apply Z.pow_pos_nonneg; lia).
  rewrite Z.abs_mul, (Z.abs_eq (2 ^ e)) by lia.
  replace 2098 with (53 + 2045) by reflexivity.
  rewrite Z.pow_add_r by lia.
  assert (2 ^ e <= 2 ^ 2045) by (apply Z.pow_le_mono_r; lia).
  assert (0 < 2 ^ 53) by (apply Z.pow_pos_nonneg; lia).
  nia.
Qed.

Lemma round_ne_exact N d :
  0 < d -> representable N -> round_ne (N * d) d = Fin N.
Proof.
  intros Hd HN. unfold round_ne.
  rewrite Z.abs_mul, (Z.abs_eq d) by lia.
  rewrite round_mag_exact by (auto using representable_abs; lia).
  pose proof (representable_lt_huge N HN) as Hh.
  destruct (huge <=? Z.abs N) eqn:Hc; [apply Z.leb_le in Hc; lia|].
  f_equal. rewrite Z.sgn_mul, (Z.sgn_pos d) by lia.
  rewrite Z.mul_1_r. now destruct N.
Qed.

Lemma pow1073_pos : 0 < 2 ^ 1073.
Proof. now apply Z.pow_pos_nonneg. Qed.

Lemma one_u_halves : one_u = 2 * 2 ^ 1073.
Proof.
  unfold one_u. replace 1074 with (1 + 1073) by reflexivity.
  now rewrite Z.pow_add_r.
Qed.

Lemma representable_halves m : small m -> representable (m * 2 ^ 1073).
Proof. intros Hm. exists m, 1073. repeat split; auto; lia. Qed.

Lemma halves_inj a b : halves a = halves b -> a = b.
Proof.
  unfold halves. intros [= Hab]. pose proof pow1073_pos. nia.
Qed.

Lemma add_halves a b :
  small (a + b) -> add (halves a) (halves b) = halves (a + b).
Proof.
  intros Hs. unfold add, halves.
  replace (a * 2 ^ 1073 + b * 2 ^ 1073) with ((a + b) * 2 ^ 1073 * 1) by ring.
  apply round_ne_exact; [lia | now apply representable_halves].
Qed.

Lemma neg_halves a : neg (halves a) = halves (- a).
Proof. unfold neg, halves. f_equal. ring. Qed.

Lemma sub_halves a b :
  small (a - b) -> sub (halves a) (halves b) = halves (a - b).
Proof.
  intros Hs. unfold sub. rewrite neg_halves.
  now rewrite add_halves.
Qed.

Lemma ltb_halves a b : ltb (halves a) (halves b) = (a <? b).
Proof.
  unfold ltb, halves. pose proof pow1073_pos.
  destruct (a <? b) eqn:Hab.
  - apply Z.ltb_lt in Hab. apply Z.ltb_lt. nia.
  - apply Z.ltb_ge in Hab. apply Z.ltb_ge. nia.
Qed.

Lemma nonzero_halves a : nonzero (halves a) = negb (a =? 0).
Proof.
  unfold nonzero, halves. pose proof pow1073_pos. f_equal.
  destruct (a =? 0) eqn:Ha.
  - apply Z.eqb_eq in Ha. subst. reflexivity.
  - apply Z.eqb_neq in Ha. apply Z.eqb_neq. nia.
Qed.

Lemma float_of_int_halves z :
  small z -> float_of_int z = Ok (halves (2 * z)).
Proof.
  intros Hs. unfold float_of_int, halves.
  replace (z * one_u) with (2 * z * 2 ^ 1073 * 1)
    by (rewrite one_u_halves; ring).
  rewrite round_ne_exact; [reflexivity | lia |].
  exists z, 1074. split; [|split; [lia | exact Hs]].
  replace 1074 with (1 + 1073) by reflexivity.
  rewrite Z.pow_add_r by lia. ring.
Qed.

Lemma int_true_div_two c :
  small c -> int_true_div c 2 = Ok (halves c).
Proof.
  intros Hs. unfold int_true_div. simpl (2 =? 0). cbv iota.
  replace (c * one_u * Z.sgn 2) with (c * 2 ^ 1073 * Z.abs 2)
    by (rewrite one_u_halves; simpl Z.sgn; simpl Z.abs; ring).
  rewrite round_ne_exact; [reflexivity | reflexivity | now apply representable_halves].
Qed.

Lemma float_to_int_halves q : float_to_int (halves (2 * q)) = Ok q.
Proof.
  unfold float_to_int, halves. f_equal.
  replace (2 * q * 2 ^ 1073) with (q * one_u) by (rewrite one_u_halves; ring).
  apply Z.quot_mul. unfold one_u. pose proof (Z.pow_pos_nonneg 2 1074). lia.
Qed.

Lemma zero_halves : zero = halves 0.
Proof. reflexivity. Qed.

Lemma one_halves : one = halves 2.
Proof. unfold one, halves. now rewrite one_u_halves. Qed.

Lemma half_halves : half = halves 1.
Proof. unfold half, halves. now rewrite Z.mul_1_l. Qed.

Lemma fmod_halves k w :
  w <> 0 -> fmod (halves k) (halves w) = halves (Z.rem k w).
Proof.
  intros Hw. unfold fmod, halves. pose proof pow1073_pos.
  destruct (w * 2 ^ 1073 =? 0) eqn:Hz.
  - apply Z.eqb_eq in Hz. nia.
  - f_equal. apply Z.mul_rem_distr_r; lia.
Qed.

Lemma div_halves_exact q w :
  0 < w -> small (2 * q) ->
  div (halves (w * q)) (halves w) = halves (2 * q).
Proof.
  intros Hw Hq. unfold div, halves. pose proof pow1073_pos.
  destruct (w * 2 ^ 1073 =? 0) eqn:Hz; [apply Z.eqb_eq in Hz; nia|].
  rewrite Z.sgn_pos, Z.abs_eq by nia.
  replace (w * q * 2 ^ 1073 * one_u * 1)
    with (2 * q * 2 ^ 1073 * (w * 2 ^ 1073))
    by (rewrite one_u_halves; ring).
  apply round_ne_exact; [nia | now apply representable_halves].
Qed.

Lemma floor_halves_even q : floor (halves (2 * q)) = halves (2 * q).
Proof.
  unfold floor, halves. f_equal.
  replace (2 * q * 2 ^ 1073) with (q * one_u) by (rewrite one_u_halves; ring).
  rewrite Z.div_mul; auto.
  unfold one_u. pose proof (Z.pow_pos_nonneg 2 1074). lia.
Qed.

(** Floor and truncated division agree up to the sign of the remainder. *)
Lemma div_quot_rem k w :
  0 < w -> k / w = if Z.rem k w <? 0 then k ÷ w - 1 else k ÷ w.
Proof.
  intros Hw. pose proof (Z.quot_rem' k w) as Hk.
  pose proof (Z.rem_bound_abs k w) as Hr.
  symmetry. destruct (Z.rem k w <? 0) eqn:Hs.
  - apply Z.ltb_lt in Hs.
    apply Z.div_unique with (r := Z.rem k w + w); lia.
  - apply Z.ltb_ge in Hs.
    apply Z.div_unique with (r := Z.rem k w); lia.
Qed.

Lemma quot_rem_small k w :
  0 < w -> Z.abs (w * (k ÷ w)) <= Z.abs k /\ Z.abs (k ÷ w) <= Z.abs k.
Proof.
  intros Hw. pose proof (Z.quot_rem' k w) as Hk.
  destruct (Z_le_gt_dec 0 k) as [Hpos|Hneg].
  - pose proof (Z.rem_bound_pos_pos k w Hw Hpos).
    pose proof (Z.quot_pos k w Hpos Hw). nia.
  - pose proof (Z.rem_bound_pos_neg k w Hw ltac:(lia)).
    assert (k ÷ w <= 0).
    { pose proof (Z.quot_opp_l (- k) w ltac:(lia)) as Ho.
      rewrite Z.opp_involutive in Ho.
      pose proof (Z.quot_pos (- k) w ltac:(lia) Hw). lia. }
    nia.
Qed.

Lemma float_floor_div_halves k w :
  2 <= w -> - 2 ^ 52 <= k < 2 ^ 53 ->
  float_floor_div (halves k) (halves w) = Ok (halves (2 * (k / w))).
Proof.
  intros Hw Hk.
  assert (H52 : 2 ^ 53 = 2 * 2 ^ 52) by reflexivity.
  assert (Hp52 : 0 < 2 ^ 52) by reflexivity.
  pose proof (Z.quot_rem' k w) as Hqr.
  pose proof (Z.rem_bound_abs k w ltac:(lia)) as Hr.
  destruct (quot_rem_small k w ltac:(lia)) as [Hwq Hq].
  assert (Hq2 : small (2 * (k ÷ w))).
  { unfold small. assert (2 * Z.abs (k ÷ w) <= Z.abs k) by nia. lia. }
  unfold float_floor_div, float_div_mod.
  rewrite nonzero_halves.
  destruct (w =? 0) eqn:Hw0; [apply Z.eqb_eq in Hw0; lia|]. cbn [negb].
  f_equal.
  rewrite fmod_halves by lia.
  rewrite sub_halves by (unfold small; lia).
  replace (k - Z.rem k w) with (w * (k ÷ w)) by lia.
  rewrite div_halves_exact by (auto; lia).
  rewrite zero_halves, one_halves, half_halves, !ltb_halves, nonzero_halves.
  rewrite (div_quot_rem k w) by lia.
  destruct (w <? 0) eqn:Hwn; [apply Z.ltb_lt in Hwn; lia|].
  destruct (Z.rem k w =? 0) eqn:Hr0; cbn [negb].
  - apply Z.eqb_eq in Hr0. rewrite Hr0. cbn [Z.ltb Z.compare fst].
    rewrite nonzero_halves.
    destruct (2 * (k ÷ w) =? 0) eqn:Hq0; cbn [negb].
    + apply Z.eqb_eq in Hq0. now rewrite Hq0.
    + rewrite floor_halves_even.
      rewrite sub_halves by (unfold small; rewrite Z.sub_diag; reflexivity).
      rewrite Z.sub_diag, ltb_halves. reflexivity.
  - destruct (Z.rem k w <? 0) eqn:Hrn; cbn [negb Bool.eqb fst].
    + apply Z.ltb_lt in Hrn.
      assert (Hs : small (2 * (k ÷ w) - 2)).
      { unfold small. assert (k < 0) by nia. lia. }
      rewrite sub_halves by exact Hs.
      replace (2 * (k ÷ w) - 2) with (2 * (k ÷ w - 1)) in * by ring.
      rewrite nonzero_halves.
      destruct (2 * (k ÷ w - 1) =? 0) eqn:Hq0; cbn [negb].
      * apply Z.eqb_eq in Hq0. now rewrite Hq0.
      * rewrite floor_halves_even.
        rewrite sub_halves by (unfold small; rewrite Z.sub_diag; reflexivity).
        rewrite Z.sub_diag, ltb_halves. reflexivity.
    + rewrite nonzero_halves.
      destruct (2 * (k ÷ w) =? 0) eqn:Hq0; cbn [negb].
      * apply Z.eqb_eq in Hq0. now rewrite Hq0.
      * rewrite floor_halves_even.
        rewrite sub_halves by (unfold small; rewrite Z.sub_diag; reflexivity).
        rewrite Z.sub_diag, ltb_halves. reflexivity.
Qed.
End PyFloatFacts.

(* ================================================================== *)
(** * Facts about dictionaries *)

Module PyDictFacts.
Import PyDict.

Section Facts.
Context {K V : Type} `{EqKey K}.
Implicit Types (d u : dict K V) (k : K) (v : V).

Lemma keqb_refl k : keqb k k = true.
Proof. destruct (keqb_spec k k); congruence. Qed.

Lemma keqb_neq k k' : k <> k' -> keqb k k' = false.
Proof. intros Hne. destruct (keqb_spec k k'); congruence. Qed.

Lemma get_setitem_same d k v : get (setitem d k v) k = Some v.
Proof.
  induction d as [|[k' v'] d IH]; simpl.
  - now rewrite keqb_refl.
  - destruct (keqb_spec k k') as [->|Hne]; simpl.
    + now rewrite keqb_refl.
    + now rewrite (keqb_neq _ _ Hne).
Qed.

Lemma get_setitem_other d k k' v :
  k <> k' -> get (setitem d k v) k' = get d k'.
Proof.
  intros Hne. induction d as [|[k0 v0] d IH]; simpl.
  - rewrite keqb_neq; auto.
  - destruct (keqb_spec k k0) as [->|Hne0]; simpl.
    + rewrite keqb_neq; auto.
    + now rewrite IH.
Qed.

Lemma get_None_iff d k : get d k = None <-> ~ In k (keys d).
Proof.
  induction d as [|[k0 v0] d IH]; simpl.
  - tauto.
  - destruct (keqb_spec k k0) as [->|Hne].
    + split; [discriminate | intros Hn; exfalso; auto].
    + rewrite IH. split; [intros Hn [Heq|Hin]; congruence | tauto].
Qed.

Lemma get_Some_In d k v : get d k = Some v -> In k (keys d).
Proof.
  intros Hg. destruct (in_dec (fun a b => reflect_dec _ _ (keqb_spec a b)) k (keys d))
    as [Hin|Hout]; auto.
  apply get_None_iff in Hout. congruence.
Qed.

Lemma contains_true_iff d k : contains d k = true <-> In k (keys d).
Proof.
  unfold contains. destruct (get d k) eqn:Hg.
  - split; auto. intros _. eapply get_Some_In; eauto.
  - apply get_None_iff in Hg. split; [discriminate | tauto].
Qed.

Lemma keys_setitem d k v :
  keys (setitem d k v) = if contains d k then keys d else keys d ++ [k].
Proof.
  unfold contains. induction d as [|[k0 v0] d IH]; simpl; auto.
  destruct (keqb_spec k k0) as [->|Hne]; simpl; auto.
  rewrite IH. now destruct (get d k).
Qed.

Lemma wf_setitem d k v : wf d -> wf (setitem d k v).
Proof.
  unfold wf. intros Hd. rewrite keys_setitem.
  destruct (contains d k) eqn:Hc; auto.
  assert (Hout : ~ In k (keys d)).
  { rewrite <- contains_true_iff. congruence. }
  apply NoDup_app; auto.
  - repeat constructor. simpl. tauto.
  - intros a Ha [<-|[]]. auto.
Qed.

Lemma len_setitem_present d k v :
  contains d k = true -> len (setitem d k v) = len d.
Proof.
  intros Hc. unfold len.
  rewrite <- (length_map fst (setitem d k v)), <- (length_map fst d).
  fold (keys (setitem d k v)) (keys d). now rewrite keys_setitem, Hc.
Qed.

Lemma get_update_other d u k :
  ~ In k (keys u) -> get (update d u) k = get d k.
Proof.
  unfold update. revert d. induction u as [|[k0 v0] u IH]; intros d Hout; simpl; auto.
  simpl in Hout. rewrite IH by tauto.
  apply get_setitem_other. intros ->. tauto.
Qed.

Lemma get_update d u k :
  wf u ->
  get (update d u) k =
    match get u k with Some v => Some v | None => get d k end.
Proof.
  unfold update, wf. revert d.
  induction u as [|[k0 v0] u IH]; intros d Hwf; simpl; auto.
  inversion Hwf as [|? ? Hout Hwf']; subst.
  rewrite IH by assumption.
  destruct (keqb_spec k k0) as [->|Hne].
  - apply get_None_iff in Hout. rewrite Hout. apply get_setitem_same.
  - destruct (get u k); auto. apply get_setitem_other. congruence.
Qed.

Lemma keys_update_present d u :
  (forall k, In k (keys u) -> In k (keys d)) -> keys (update d u) = keys d.
Proof.
  unfold update. revert d.
  induction u as [|[k0 v0] u IH]; intros d Hin; simpl; auto.
  assert (Hk : keys (setitem d k0 v0) = keys d).
  { rewrite keys_setitem.
    destruct (contains d k0) eqn:Hc; auto.
    assert (In k0 (keys d)) by (apply Hin; simpl; auto).
    apply contains_true_iff in H0. congruence. }
  rewrite IH; auto. intros k Hk'. rewrite Hk. apply Hin. simpl. auto.
Qed.

Lemma keys_delitem_incl d k k' :
  In k' (keys (delitem d k)) -> In k' (keys d).
Proof.
  induction d as [|[k0 v0] d IH]; simpl; auto.
  destruct (keqb_spec k k0) as [->|Hne]; simpl; tauto.
Qed.

Lemma wf_delitem d k : wf d -> wf (delitem d k).
Proof.
  unfold wf. induction d as [|[k0 v0] d IH]; simpl; auto.
  intros Hwf. inversion Hwf as [|? ? Hout Hwf']; subst.
  destruct (keqb_spec k k0) as [->|Hne]; simpl; auto.
  constructor; auto. intros Hin. apply Hout. eapply keys_delitem_incl; eauto.
Qed.

Lemma get_delitem_same d k : wf d -> get (delitem d k) k = None.
Proof.
  unfold wf. induction d as [|[k0 v0] d IH]; simpl; auto.
  intros Hwf. inversion Hwf as [|? ? Hout Hwf']; subst.
  destruct (keqb_spec k k0) as [->|Hne]; simpl.
  - now apply get_None_iff.
  - rewrite keqb_neq; auto.
Qed.

Lemma get_delitem_other d k k' :
  k <> k' -> get (delitem d k) k' = get d k'.
Proof.
  intros Hne. induction d as [|[k0 v0] d IH]; simpl; auto.
  destruct (keqb_spec k k0) as [->|Hne0]; simpl.
  - rewrite keqb_neq; auto.
  - now rewrite IH.
Qed.
End Facts.

End PyDictFacts.

(* ================================================================== *)
(** * The entity store *)

Module StateFacts.
Import PyVal PyDict PyDictFacts State StateSpec.
Open Scope string_scope.
Open Scope list_scope.
Open Scope Z_scope.

Lemma run_cons s o ops :
  run s (o :: ops) =
    (fst (run (fst (step s o)) ops),
     match snd (step s o) with
     | Some i => i :: snd (run (fst (step s o)) ops)
     | None => snd (run (fst (step s o)) ops)
     end).
Proof.
  simpl. destruct (step s o) as [s1 r]. simpl.
  now destruct (run s1 ops).
Qed.

Lemma run_app s ops1 ops2 :
  run s (ops1 ++ ops2) =
    (fst (run (fst (run s ops1)) ops2),
     snd (run s ops1) ++ snd (run (fst (run s ops1)) ops2)).
Proof.
  revert s. induction ops1 as [|o ops1 IH]; intros s.
  - simpl. now destruct (run s ops2).
  - rewrite <- app_comm_cons, !run_cons, IH. simpl.
    now destruct (snd (step s o)).
Qed.

Lemma next_step s o :
  _next_entity_id s <= _next_entity_id (fst (step s o)).
Proof.
  destruct o as [a|i u|i]; simpl; try lia.
  unfold update_entity. destruct (get (entities s) i); simpl; lia.
Qed.

Lemma next_run s ops :
  _next_entity_id s <= _next_entity_id (fst (run s ops)).
Proof.
  revert s. induction ops as [|o ops IH]; intros s.
  - simpl. lia.
  - rewrite run_cons. simpl. specialize (IH (fst (step s o))).
    pose proof (next_step s o). lia.
Qed.

(** An identity returned by a call is the counter before the call, and
    the counter is past it afterwards. *)
Lemma step_issued s o i :
  snd (step s o) = Some i ->
  i = _next_entity_id s /\ _next_entity_id (fst (step s o)) = i + 1.
Proof.
  destruct o as [a|j u|j]; simpl; try discriminate.
  intros [= <-]. auto.
Qed.

Lemma issued_bounds s ops :
  Forall (fun i => _next_entity_id s <= i < _next_entity_id (fst (run s ops)))
         (snd (run s ops)).
Proof.
  revert s. induction ops as [|o ops IH]; intros s.
  - constructor.
  - rewrite run_cons. simpl.
    specialize (IH (fst (step s o))).
    pose proof (next_step s o) as Hs.
    pose proof (next_run (fst (step s o)) ops) as Hr.
    assert (Hrest : Forall
              (fun i => _next_entity_id s <= i <
                        _next_entity_id (fst (run (fst (step s o)) ops)))
              (snd (run (fst (step s o)) ops))).
    { eapply Forall_impl; [|exact IH]. simpl. intros; lia. }
    destruct (snd (step s o)) as [i|] eqn:Hi; auto.
    apply step_issued in Hi. constructor; auto. lia.
Qed.

Lemma issued_sorted s ops : StronglySorted Z.lt (snd (run s ops)).
Proof.
  revert s. induction ops as [|o ops IH]; intros s.
  - constructor.
  - rewrite run_cons. simpl.
    destruct (snd (step s o)) as [i|] eqn:Hi; auto.
    constructor; auto.
    apply step_issued in Hi.
    eapply Forall_impl; [|apply issued_bounds]. simpl. intros; lia.
Qed.

Lemma sorted_lt_NoDup (l : list Z) : StronglySorted Z.lt l -> NoDup l.
Proof.
  induction 1 as [|a l Hs IH Hall]; constructor; auto.
  intros Hin. rewrite Forall_forall in Hall. specialize (Hall a Hin). lia.
Qed.

Lemma store_inv_initial : store_inv initial.
Proof. split; [constructor | split; [simpl; lia | intros k []]]. Qed.

Lemma store_inv_step s o : store_inv s -> store_inv (fst (step s o)).
Proof.
  intros (Hwf & Hpos & Hb). destruct o as [a|i u|i]; simpl.
  - split; [|split]; simpl.
    + now apply wf_setitem.
    + lia.
    + intros k. rewrite keys_setitem.
      destruct (contains (entities s) (_next_entity_id s)).
      * intros Hk. apply Hb in Hk. lia.
      * rewrite in_app_iff. intros [Hk|[<-|[]]]; [apply Hb in Hk|]; lia.
  - unfold update_entity. destruct (get (entities s) i) as [data|] eqn:Hg.
    + split; [|split]; simpl; auto.
      * now apply wf_setitem.
      * intros k. rewrite keys_setitem.
        unfold contains. rewrite Hg. apply Hb.
    + split; [|split]; auto.
  - split; [|split]; simpl; auto.
    + now apply wf_delitem.
    + intros k Hk. apply Hb. eapply keys_delitem_incl; eauto.
Qed.

Lemma store_inv_run s ops : store_inv s -> store_inv (fst (run s ops)).
Proof.
  revert s. induction ops as [|o ops IH]; intros s Hs; auto.
  rewrite run_cons. simpl. apply IH. now apply store_inv_step.
Qed.

(** Whatever is live was either live before or returned since. *)
Lemma live_issued s ops k :
  In k (keys (entities (fst (run s ops)))) ->
  In k (keys (entities s)) \/ In k (snd (run s ops)).
Proof.
  revert s. induction ops as [|o ops IH]; intros s; auto.
  rewrite run_cons. simpl. intros Hk. apply IH in Hk.
  destruct o as [a|i u|i]; simpl in *.
  - destruct Hk as [Hk|Hk]; [|auto].
    revert Hk. rewrite keys_setitem.
    destruct (contains (entities s) (_next_entity_id s)); auto.
    rewrite in_app_iff. intros [Hk|[<-|[]]]; auto.
  - destruct Hk as [Hk|Hk]; [|auto]. left.
    revert Hk. unfold update_entity.
    destruct (get (entities s) i) as [data|] eqn:Hg; auto.
    simpl. rewrite keys_setitem. unfold contains. now rewrite Hg.
  - destruct Hk as [Hk|Hk]; [|auto]. left.
    eapply keys_delitem_incl; eauto.
Qed.

(** An identity below the counter that is not live stays out. *)
Lemma absent_stays_absent s ops i :
  store_inv s -> i < _next_entity_id s ->
  get (entities s) i = None ->
  get (entities (fst (run s ops))) i = None.
Proof.
  revert s. induction ops as [|o ops IH]; intros s Hinv Hlt Hab; auto.
  rewrite run_cons. simpl.
  pose proof (next_step s o) as Hn.
  apply IH; [now apply store_inv_step | lia |].
  destruct o as [a|j u|j]; simpl.
  - rewrite get_setitem_other; auto. lia.
  - unfold update_entity. destruct (get (entities s) j) as [data|] eqn:Hg; auto.
    simpl. rewrite get_setitem_other; auto. congruence.
  - destruct (Z.eq_dec j i) as [->|Hne].
    + apply get_delitem_same. apply Hinv.
    + rewrite get_delitem_other; auto.
Qed.

(** A live entity stays live through calls that do not remove it. *)
Lemma live_stays_live s ops i :
  contains (entities s) i = true ->
  ~ In (Remove i) ops ->
  contains (entities (fst (run s ops))) i = true.
Proof.
  revert s. induction ops as [|o ops IH]; intros s Hc Hnr; auto.
  rewrite run_cons. simpl. apply IH; [|intros Hin; apply Hnr; now right].
  unfold contains in *.
  destruct o as [a|j u|j]; simpl.
  - destruct (Z.eq_dec (_next_entity_id s) i) as [->|Hne].
    + now rewrite get_setitem_same.
    + now rewrite get_setitem_other.
  - unfold update_entity. destruct (get (entities s) j) as [data|] eqn:Hg; auto.
    simpl. destruct (Z.eq_dec j i) as [->|Hne].
    + now rewrite get_setitem_same.
    + now rewrite get_setitem_other.
  - rewrite get_delitem_other; auto.
    intros ->. apply Hnr. now left.
Qed.

Lemma issued_stays_live s ops i :
  In i (snd (run s ops)) ->
  ~ In (Remove i) ops ->
  contains (entities (fst (run s ops))) i = true.
Proof.
  revert s. induction ops as [|o ops IH]; intros s Hi Hnr; [destruct Hi|].
  rewrite run_cons in *. simpl in *.
  assert (Hnr' : ~ In (Remove i) ops) by tauto.
  destruct (snd (step s o)) as [i0|] eqn:Hs; [|now apply IH].
  destruct Hi as [->|Hi]; [|now apply IH].
  apply live_stays_live; auto.
  destruct o as [a|j u|j]; simpl in *; try discriminate.
  injection Hs as <-. unfold contains. now rewrite get_setitem_same.
Qed.

Lemma id_field_step s o :
  store_inv s -> keeps_id o = true ->
  id_field_inv s -> id_field_inv (fst (step s o)).
Proof.
  intros Hinv Hk Hid i E. destruct o as [a|j u|j]; simpl in *.
  - destruct (Z.eq_dec (_next_entity_id s) i) as [->|Hne].
    + rewrite get_setitem_same. intros [= <-].
      rewrite get_update_other; [reflexivity|].
      rewrite <- contains_true_iff. now destruct (contains a "id").
    + rewrite get_setitem_other; auto.
  - unfold update_entity. destruct (get (entities s) j) as [data|] eqn:Hg; auto.
    simpl. destruct (Z.eq_dec j i) as [->|Hne].
    + rewrite get_setitem_same. intros [= <-].
      rewrite get_update_other; [now apply Hid|].
      rewrite <- contains_true_iff. now destruct (contains u "id").
    + rewrite get_setitem_other; auto.
  - destruct (Z.eq_dec j i) as [->|Hne].
    + rewrite get_delitem_same; [discriminate | apply Hinv].
    + rewrite get_delitem_other; auto.
Qed.

Lemma id_field_run s ops :
  store_inv s -> forallb keeps_id ops = true ->
  id_field_inv s -> id_field_inv (fst (run s ops)).
Proof.
  revert s. induction ops as [|o ops IH]; intros s Hinv Hk Hid; auto.
  simpl in Hk. apply andb_prop in Hk as [Ho Hk].
  rewrite run_cons. simpl.
  apply IH; auto using store_inv_step, id_field_step.
Qed.

End StateFacts.

(* ================================================================== *)
(** * Properties of the entity store *)

Section StoreProperties.
Import PyVal PyDict PyDictFacts State StateSpec StateFacts.
Open Scope string_scope.
Open Scope list_scope.
Open Scope Z_scope.

(** C2: over any sequence of [add_entity] calls interleaved with
    updates and removals, the identities returned are strictly
    increasing, hence never returned twice; the counter never
    decreases as further calls are made; and the live entities are
    stored under pairwise distinct identities. *)
Theorem identities_strictly_increasing (ops : list op) :
  StronglySorted Z.lt (snd (run initial ops)) /\
  NoDup (snd (run initial ops)) /\
  NoDup (get_entity_ids (fst (run initial ops))) /\
  forall more,
    _next_entity_id (fst (run initial ops))
    <= _next_entity_id (fst (run initial (ops ++ more))).
Proof.
  split; [apply issued_sorted|].
  split; [apply sorted_lt_NoDup, issued_sorted|].
  split; [apply (store_inv_run initial ops store_inv_initial)|].
  intros more. rewrite run_app. simpl. apply next_run.
Qed.

(** C3: after [update_entity(id, u)] on a live [id], every attribute
    whose key is not in [u] reads from [get_entity_data(id)] exactly as
    it did in the entity before the call, extra keys included. *)
Theorem update_keeps_other_attributes
    (s : GameState) (entity_id : Z) (E u : EntityData) (k : string) :
  get (entities s) entity_id = Some E ->
  ~ In k (keys u) ->
  get (get_entity_data (update_entity s entity_id u) entity_id) k = get E k.
Proof.
  intros HE Hk. unfold get_entity_data, update_entity. rewrite HE. simpl.
  rewrite get_setitem_same. now apply get_update_other.
Qed.

(** C4: [add_entity(a)] always returns; it returns the counter's
    value, advances the counter by one and stores under the returned
    identity the template (identity, position (0, 0), status
    "Existing", brain inactive) overwritten by the items of [a]. *)
Theorem add_entity_merges_over_template (s : GameState) (a : EntityData) :
  wf a ->
  let entity_id := snd (add_entity s a) in
  let s' := fst (add_entity s a) in
  entity_id = _next_entity_id s /\
  _next_entity_id s' = _next_entity_id s + 1 /\
  template entity_id =
    [ ("id", VInt entity_id); ("x", VInt 0); ("y", VInt 0);
      ("status", VStr "Existing"); ("brain_active", VBool false) ] /\
  exists E,
    get (entities s') entity_id = Some E /\
    forall k,
      get E k =
        match get a k with
        | Some v => Some v
        | None => get (template entity_id) k
        end.
Proof.
  intros Hwf. unfold add_entity. cbn [fst snd entities _next_entity_id].
  split; [reflexivity|]. split; [reflexivity|]. split; [reflexivity|].
  exists (update (template (_next_entity_id s)) a). split.
  - apply get_setitem_same.
  - intros k. now apply get_update.
Qed.

(** C5, as the code has it: when no call carries the key "id", every
    live entity keeps the identity it was created with under "id";
    and an entity that is not removed stays stored under the identity
    [add_entity] returned for it. *)
Theorem stored_identity_stable (ops : list op) :
  forallb keeps_id ops = true ->
  (forall i E,
      get (entities (fst (run initial ops))) i = Some E ->
      get E "id" = Some (VInt i)) /\
  (forall i,
      In i (snd (run initial ops)) ->
      ~ In (Remove i) ops ->
      contains (entities (fst (run initial ops))) i = true).
Proof.
  intros Hk. split.
  - apply id_field_run; auto using store_inv_initial.
    intros i E. discriminate.
  - intros i. apply issued_stays_live.
Qed.

(** C6: [get_entity_data] on an identity that no creation returned, or
    that was removed after it was returned, yields the empty
    dictionary. *)
Theorem get_absent_is_empty (ops : list op) (entity_id : Z) :
  ~ In entity_id (snd (run initial ops)) \/ removed_after_issue ops entity_id ->
  get_entity_data (fst (run initial ops)) entity_id = empty.
Proof.
  intros Hcase.
  assert (Hnone : get (entities (fst (run initial ops))) entity_id = None).
  { destruct Hcase as [Hnot | (ops1 & ops2 & -> & Hin)].
    - apply get_None_iff. intros Hlive.
      apply live_issued in Hlive as [[]|Hi]. auto.
    - rewrite run_app. cbn [fst]. rewrite run_cons. cbn [fst].
      pose proof (store_inv_run initial ops1 store_inv_initial) as Hinv.
      pose proof (issued_bounds initial ops1) as Hb.
      rewrite Forall_forall in Hb. specialize (Hb _ Hin). simpl in Hb.
      apply absent_stays_absent.
      + apply (store_inv_step _ (Remove entity_id) Hinv).
      + simpl. lia.
      + simpl. apply get_delitem_same. apply Hinv. }
  unfold get_entity_data. now rewrite Hnone.
Qed.

(** C7: [update_entity] on an identity that is not in the store
    returns the store as it was: same entities, same counter. *)
Theorem update_absent_is_noop (s : GameState) (entity_id : Z) (u : EntityData) :
  contains (entities s) entity_id = false ->
  update_entity s entity_id u = s.
Proof.
  unfold contains, update_entity.
  destruct (get (entities s) entity_id); [discriminate | reflexivity].
Qed.

End StoreProperties.

(* ================================================================== *)
(** * The renderer *)

Module RendererFacts.
Import PyFloat PyVal PyDict PyDictFacts State PygameRenderer RendererSpec.
Open Scope string_scope.
Open Scope list_scope.
Open Scope Z_scope.

Lemma bind_Ok {A B : Type} (c : result A) (k : A -> result B) (b : B) :
  bind c k = Ok b -> exists a, c = Ok a /\ k a = Ok b.
Proof. destruct c as [a|e]; simpl; [eauto | discriminate]. Qed.

(** Splits a successful sequence of binds into its successful steps. *)
Ltac bind_inv H :=
  let a := fresh "a" in
  let Ha := fresh "Ha" in
  apply bind_Ok in H as (a & Ha & H).

Lemma keys_update_entity s i u :
  keys (entities (update_entity s i u)) = keys (entities s).
Proof.
  unfold update_entity. destruct (get (entities s) i) as [data|] eqn:Hg; auto.
  simpl. rewrite keys_setitem. unfold contains. now rewrite Hg.
Qed.

Lemma next_update_entity s i u :
  _next_entity_id (update_entity s i u) = _next_entity_id s.
Proof. unfold update_entity. now destruct (get (entities s) i). Qed.

Section Movement.
Variable config : Config.

Lemma move_entity_updates st entity_id data st' :
  move_entity config st entity_id data = Ok st' ->
  exists u, st' = update_entity st entity_id u.
Proof.
  unfold move_entity. intros Hm.
  do 5 bind_inv Hm.
  apply bind_Ok in Hm as ([grid_col ?] & _ & Hm).
  apply bind_Ok in Hm as ([? grid_row] & _ & Hm).
  injection Hm as <-. eauto.
Qed.

Lemma move_entities_keys items st st' :
  move_entities config items st = Ok st' ->
  keys (entities st') = keys (entities st) /\
  _next_entity_id st' = _next_entity_id st.
Proof.
  revert st. induction items as [|[i data] items IH]; intros st; simpl.
  - intros [= <-]. auto.
  - intros Hm. bind_inv Hm.
    apply move_entity_updates in Ha as [u ->].
    apply IH in Hm as [Hk Hn].
    now rewrite Hk, Hn, keys_update_entity, next_update_entity.
Qed.

Lemma update_Ok fps r r' :
  update config fps r = Ok r' ->
  exists st,
    move_entities config (entities (state r)) (state r) = Ok st /\
    state r' = st /\
    frame_count r' = frame_count r + 1 /\
    selected_entity_id r' = selected_entity_id r /\
    is_running r' = is_running r /\
    global_metrics r' =
      setitem
        (setitem
           (setitem (global_metrics r) "Frame Count" (VInt (frame_count r + 1)))
           "Current FPS" (VFloat fps))
        "Total Entities" (VInt (len (entities st))) /\
    monitor r' =
      match monitor r with
      | None => None
      | Some m =>
          let m1 :=
            if (frame_count r + 1) mod 60 =? 0
            then VariableMonitor.update_entity_list m (get_entity_ids st)
            else m in
          Some
            (if (frame_count r + 1) mod 15 =? 0
             then
               VariableMonitor.update_data m1
                 match selected_entity_id r with
                 | None => global_metrics r'
                 | Some entity_id => get_entity_data st entity_id
                 end
             else m1)
      end.
Proof.
  unfold update. intros Hu. bind_inv Hu. injection Hu as <-.
  exists a.
  cbn [state frame_count set_frame_count] in Ha.
  unfold send_data, send_entity_list, update_global_metrics, with_state,
    with_monitor, set_frame_count.
  cbn [state frame_count selected_entity_id is_running global_metrics monitor].
  split; [exact Ha|].
  destruct (monitor r) as [m|].
  - destruct ((frame_count r + 1) mod 60 =? 0);
      cbn [state frame_count selected_entity_id is_running global_metrics
           monitor];
      destruct ((frame_count r + 1) mod 15 =? 0);
      cbn [state frame_count selected_entity_id is_running global_metrics
           monitor];
      repeat (split; [reflexivity|]); reflexivity.
  - cbn [state frame_count selected_entity_id is_running global_metrics
         monitor].
    repeat (split; [reflexivity|]); reflexivity.
Qed.

Lemma metrics_shape_update gm frames fps total :
  metrics_shape gm ->
  setitem
    (setitem (setitem gm "Frame Count" frames) "Current FPS" fps)
    "Total Entities" total
  = [ ("Frame Count", frames); ("Current FPS", fps);
      ("Total Entities", total); ("System Status", VStr "Running") ].
Proof. intros (f0 & r0 & t0 & ->). reflexivity. Qed.

Lemma reachable_metrics_shape r :
  reachable config r -> metrics_shape (global_metrics r).
Proof.
  induction 1 as [mon gs | r fps r' Hr IH Hu | | | |]; simpl; auto.
  - now exists (VInt 0), (VFloat zero), (VInt 0).
  - apply update_Ok in Hu as (st & _ & _ & _ & _ & _ & Hgm & _).
    rewrite Hgm, (metrics_shape_update _ _ _ _ IH).
    now eexists _, _, _.
Qed.
End Movement.

Lemma snapshots_app q1 q2 :
  VariableMonitor.snapshots (q1 ++ q2) =
  VariableMonitor.snapshots q1 ++ VariableMonitor.snapshots q2.
Proof.
  induction q1 as [|[ids|d] q1 IH]; simpl; auto. now rewrite IH.
Qed.

Lemma snapshots_update_entity_list m ids :
  VariableMonitor.snapshots
    (VariableMonitor.after_queue (VariableMonitor.update_entity_list m ids))
  = VariableMonitor.snapshots (VariableMonitor.after_queue m).
Proof.
  unfold VariableMonitor.update_entity_list.
  destruct (_ && _); simpl; auto.
  rewrite snapshots_app. simpl. apply app_nil_r.
Qed.

Lemma monitor_up_update_entity_list m ids :
  monitor_up m -> monitor_up (VariableMonitor.update_entity_list m ids).
Proof.
  intros [Hr Ht]. unfold VariableMonitor.update_entity_list.
  rewrite Hr, Ht. simpl. now split.
Qed.

Lemma snapshots_update_data m d :
  monitor_up m ->
  VariableMonitor.snapshots
    (VariableMonitor.after_queue (VariableMonitor.update_data m d))
  = VariableMonitor.snapshots (VariableMonitor.after_queue m) ++ [d].
Proof.
  intros [Hr Ht]. unfold VariableMonitor.update_data.
  rewrite Hr, Ht. simpl. now rewrite snapshots_app.
Qed.

Lemma monitor_up_update_data m d :
  monitor_up m -> monitor_up (VariableMonitor.update_data m d).
Proof.
  intros [Hr Ht]. unfold VariableMonitor.update_data.
  rewrite Hr, Ht. simpl. now split.
Qed.

(** What [update] hands to a running monitor on a publishing frame. *)
Lemma update_publishes config fps r r' m :
  update config fps r = Ok r' ->
  monitor r = Some m -> monitor_up m ->
  (frame_count r + 1) mod 15 = 0 ->
  exists m',
    monitor r' = Some m' /\ monitor_up m' /\
    VariableMonitor.snapshots (VariableMonitor.after_queue m') =
      VariableMonitor.snapshots (VariableMonitor.after_queue m) ++
      [ match selected_entity_id r with
        | None => global_metrics r'
        | Some entity_id => get_entity_data (state r') entity_id
        end ].
Proof.
  intros Hu Hm Hup H15.
  apply update_Ok in Hu as (st & _ & Hst & _ & _ & _ & _ & Hmon).
  rewrite Hm in Hmon. apply Z.eqb_eq in H15. rewrite H15 in Hmon.
  eexists. split; [exact Hmon|]. subst st.
  destruct ((frame_count r + 1) mod 60 =? 0).
  - split.
    + now apply monitor_up_update_data, monitor_up_update_entity_list.
    + rewrite snapshots_update_data
        by now apply monitor_up_update_entity_list.
      now rewrite snapshots_update_entity_list.
  - split.
    + now apply monitor_up_update_data.
    + now rewrite snapshots_update_data.
Qed.

End RendererFacts.

(* ================================================================== *)
(** * Properties of the published snapshot *)

Section SnapshotProperties.
Import PyFloat PyVal PyDict PyDictFacts State PygameRenderer.
Import RendererSpec RendererFacts.
Open Scope string_scope.
Open Scope list_scope.
Open Scope Z_scope.

(** C8: on a publishing frame with nothing selected, [update] hands
    the monitor the metrics cache, which holds, in this order, the
    frame count just reached, the rate read from the clock, the number
    of entities in the store and the status string. *)
Theorem aggregate_snapshot_published
    (config : Config) (fps : float) (r r' : t) (m : VariableMonitor.t) :
  reachable config r ->
  selected_entity_id r = None ->
  monitor r = Some m -> monitor_up m ->
  (frame_count r + 1) mod 15 = 0 ->
  update config fps r = Ok r' ->
  global_metrics r' = aggregate_snapshot fps r' /\
  keys (global_metrics r') =
    ["Frame Count"; "Current FPS"; "Total Entities"; "System Status"] /\
  exists m',
    monitor r' = Some m' /\
    VariableMonitor.snapshots (VariableMonitor.after_queue m') =
      VariableMonitor.snapshots (VariableMonitor.after_queue m) ++
      [global_metrics r'].
Proof.
  intros Hreach Hsel Hm Hup H15 Hu.
  assert (Hgm : global_metrics r' = aggregate_snapshot fps r').
  { pose proof (reachable_metrics_shape _ _ Hreach) as Hshape.
    apply update_Ok in Hu as (st & _ & Hst & Hf & _ & _ & Hgm & _).
    rewrite Hgm, (metrics_shape_update _ _ _ _ Hshape).
    unfold aggregate_snapshot. now rewrite Hst, Hf. }
  split; [exact Hgm|]. split; [now rewrite Hgm|].
  destruct (update_publishes _ _ _ _ _ Hu Hm Hup H15) as (m' & Hm' & _ & Hq).
  rewrite Hsel in Hq. eauto.
Qed.

(** C1, as the code has it: on a publishing frame with an entity
    selected that is not in the store, [update] hands the monitor the
    empty dictionary [get_entity_data] returns, and leaves the
    selection on that entity. *)
Theorem stale_selection_snapshot_is_empty
    (config : Config) (fps : float) (r r' : t) (m : VariableMonitor.t)
    (entity_id : Z) :
  selected_entity_id r = Some entity_id ->
  get (entities (state r)) entity_id = None ->
  monitor r = Some m -> monitor_up m ->
  (frame_count r + 1) mod 15 = 0 ->
  update config fps r = Ok r' ->
  selected_entity_id r' = Some entity_id /\
  get (entities (state r')) entity_id = None /\
  exists m',
    monitor r' = Some m' /\
    VariableMonitor.snapshots (VariableMonitor.after_queue m') =
      VariableMonitor.snapshots (VariableMonitor.after_queue m) ++ [empty].
Proof.
  intros Hsel Habs Hm Hup H15 Hu.
  assert (Habs' : get (entities (state r')) entity_id = None).
  { pose proof Hu as Hu'.
    apply update_Ok in Hu' as (st & Hmove & Hst & _).
    apply move_entities_keys in Hmove as [Hk _].
    rewrite get_None_iff in *. now rewrite Hst, Hk. }
  split; [|split; [exact Habs'|]].
  - apply update_Ok in Hu as (st & _ & _ & _ & Hs & _). now rewrite Hs.
  - destruct (update_publishes _ _ _ _ _ Hu Hm Hup H15) as (m' & Hm' & _ & Hq).
    rewrite Hsel in Hq. unfold get_entity_data in Hq. rewrite Habs' in Hq.
    eauto.
Qed.

End SnapshotProperties.

(* ================================================================== *)
(** * The grid conversions *)

Module GridFacts.
Import PyFloat PyFloatSpec PyFloatFacts PyVal Grid.

Lemma pow53_split : 2 ^ 53 = 2 * 2 ^ 52.
Proof. reflexivity. Qed.

(** [v // c] then [int], for a half-integer float [v] and an integer
    cell size [c]. *)
Lemma floordiv_int_halves c k :
  0 < c -> c < 2 ^ 53 -> - 2 ^ 52 <= k < 2 ^ 53 ->
  (q <- py_floordiv_num (VFloat (halves k)) (NInt c) ;; num_int q)
  = Ok (k / (2 * c)).
Proof.
  intros Hc Hc53 Hk.
  unfold py_floordiv_num, as_num, num_floordiv, to_float. cbn [bind].
  rewrite float_of_int_halves by (unfold small; lia). cbn [bind].
  rewrite float_floor_div_halves by lia. cbn [bind num_int].
  apply float_to_int_halves.
Qed.

Lemma screen_to_grid_halves c kx ky :
  0 < c -> c < 2 ^ 53 ->
  - 2 ^ 52 <= kx < 2 ^ 53 -> - 2 ^ 52 <= ky < 2 ^ 53 ->
  screen_to_grid (NInt c) (VFloat (halves kx)) (VFloat (halves ky))
  = Ok (kx / (2 * c), ky / (2 * c)).
Proof.
  intros Hc Hc53 Hx Hy. unfold screen_to_grid.
  pose proof (floordiv_int_halves c kx Hc Hc53 Hx) as Ex.
  pose proof (floordiv_int_halves c ky Hc Hc53 Hy) as Ey.
  destruct (py_floordiv_num (VFloat (halves kx)) (NInt c)) as [qx|]; [|discriminate].
  cbn [bind] in *. rewrite Ex. cbn [bind].
  destruct (py_floordiv_num (VFloat (halves ky)) (NInt c)) as [qy|]; [|discriminate].
  cbn [bind] in *. rewrite Ey. reflexivity.
Qed.

Lemma cell_center_halves c col :
  0 < c -> 0 <= col -> (2 * col + 1) * c < 2 ^ 53 ->
  cell_center (NInt c) col = Ok (NFloat (halves ((2 * col + 1) * c))).
Proof.
  intros Hc Hcol Hb. unfold cell_center, num_mul, num_truediv. cbn [bind].
  rewrite int_true_div_two by (unfold small; nia). cbn [bind].
  unfold num_add, to_float.
  rewrite float_of_int_halves by (unfold small; nia). cbn [bind].
  rewrite add_halves by (unfold small; nia).
  do 3 f_equal. ring.
Qed.

Lemma center_div c col :
  0 < c -> (2 * col + 1) * c / (2 * c) = col.
Proof.
  intros Hc. symmetry. apply Z.div_unique with (r := c); lia.
Qed.
End GridFacts.

(* ================================================================== *)
(** * Rounding: how far a rounded value is from the exact one *)

Module RoundFacts.
Import PyFloat PyFloatSpec PyFloatFacts.

(** The nearest integer is within half a unit. *)
Lemma div_half_even_near p q :
  0 <= p -> 0 < q ->
  0 <= div_half_even p q /\ 2 * Z.abs (div_half_even p q * q - p) <= q.
Proof.
  intros Hp Hq. unfold div_half_even.
  pose proof (Z.div_mod p q ltac:(lia)) as Hdm.
  pose proof (Z.mod_pos_bound p q Hq) as Hm.
  pose proof (Z.div_pos p q Hp Hq) as Hk.
  set (k := p / q) in *. set (r := p mod q) in *.
  assert (Hkq : k * q = p - r) by lia. clearbody k r.
  destruct (Z.compare_spec (2 * r) q) as [He|Hl|Hg].
  - destruct (Z.even k).
    + split; [lia|]. rewrite Hkq. lia.
    + split; [lia|]. replace ((k + 1) * q) with (k * q + q) by ring. lia.
  - split; [lia|]. rewrite Hkq. lia.
  - split; [lia|]. replace ((k + 1) * q) with (k * q + q) by ring. lia.
Qed.

(** Half a unit below [2^53] units, and a relative error of [2^-53]
    from [2^52] units on. *)
Lemma round_mag_near p q :
  0 <= p -> 0 < q ->
  0 <= round_mag p q /\
  (p < 2 ^ 53 * q -> 2 * Z.abs (round_mag p q * q - p) <= q) /\
  (2 ^ 52 * q <= p -> 2 ^ 53 * Z.abs (round_mag p q * q - p) <= p).
Proof.
  intros Hp Hq. unfold round_mag.
  pose proof (Z.div_pos p q Hp Hq) as Hk.
  pose proof (Z.mul_div_le p q Hq) as Hle.
  destruct (Z_lt_le_dec (p / q) (2 ^ 53)) as [Hsmall|Hbig].
  - assert (Hs : Z.max 0 (Z.log2 (p / q) - 52) = 0).
    { destruct (Z.eq_dec (p / q) 0) as [->|Hne]; [reflexivity|].
      assert (Z.log2 (p / q) < 53) by (apply Z.log2_lt_pow2; lia). lia. }
    rewrite Hs. change (2 ^ 0) with 1. rewrite !Z.mul_1_r.
    destruct (div_half_even_near p q Hp Hq) as [H0 Hn].
    split; [exact H0|]. split; [intros _; exact Hn|]. intros H52. lia.
  - assert (Hpos : 0 < p / q) by lia.
    destruct (Z.log2_spec (p / q) Hpos) as [Hlo _].
    assert (HL : 53 <= Z.log2 (p / q)).
    { apply Z.log2_le_pow2; lia. }
    set (L := Z.log2 (p / q)) in *.
    assert (Hs : Z.max 0 (L - 52) = L - 52) by lia.
    rewrite Hs. set (s := L - 52) in *.
    assert (Hps : 0 < 2 ^ s) by (apply Z.pow_pos_nonneg; lia).
    assert (HpL : 2 ^ L = 2 ^ 52 * 2 ^ s).
    { replace L with (52 + s) by lia. apply Z.pow_add_r; lia. }
    destruct (div_half_even_near p (q * 2 ^ s) Hp) as [H0 Hn]; [nia|].
    set (k := div_half_even p (q * 2 ^ s)) in *.
    replace (k * 2 ^ s * q) with (k * (q * 2 ^ s)) by ring.
    assert (Hqs : 2 ^ 52 * (q * 2 ^ s) <= p).
    { replace (2 ^ 52 * (q * 2 ^ s)) with (q * 2 ^ L) by (rewrite HpL; ring).
      nia. }
    split; [nia|]. split.
    + intros Hlt. exfalso.
      assert (p / q < 2 ^ 53) by (apply Z.div_lt_upper_bound; lia). lia.
    + intros _. lia.
Qed.

(** [round_ne] of a value that is not negative and does not overflow. *)
Lemma round_ne_near n d :
  0 <= n -> 0 < d -> n < 2 ^ 2097 * d ->
  exists r,
    round_ne n d = Fin r /\ 0 <= r /\
    (n < 2 ^ 53 * d -> 2 * Z.abs (r * d - n) <= d) /\
    (2 ^ 52 * d <= n -> 2 ^ 53 * Z.abs (r * d - n) <= n).
Proof.
  intros Hn Hd Hov. unfold round_ne. rewrite (Z.abs_eq n) by lia.
  destruct (round_mag_near n d Hn Hd) as (H0 & Hs & Hb).
  set (m := round_mag n d) in *.
  assert (Hh : m < huge).
  { unfold huge. destruct (Z_lt_le_dec n (2 ^ 53 * d)) as [Hlt|Hge].
    - specialize (Hs Hlt).
      assert (m * d < (2 ^ 53 + 1) * d) by lia.
      assert (m < 2 ^ 53 + 1) by nia. lia.
    - assert (H52 : 2 ^ 52 * d <= n) by lia. specialize (Hb H52).
      assert (m * d < 2 ^ 2098 * d) by lia. nia. }
  apply Z.leb_gt in Hh. rewrite Hh.
  destruct (Z.eq_dec n 0) as [->|Hne].
  - exists 0. cbn [Z.sgn]. rewrite Z.mul_0_l.
    split; [reflexivity|]. split; [lia|]. split; intros; lia.
  - rewrite Z.sgn_pos by lia. rewrite Z.mul_1_l. exists m. auto.
Qed.

(** An integer number of units below [2^53] is not rounded. *)
Lemma round_ne_int n :
  0 <= n -> n < 2 ^ 53 -> round_ne n 1 = Fin n.
Proof.
  intros Hn Hlt.
  destruct (round_ne_near n 1 Hn) as (r & Hr & H0 & Hs & _); [lia|lia|].
  rewrite Hr. f_equal. specialize (Hs ltac:(lia)). lia.
Qed.

(** In units, whatever the size: the relative form. *)
Lemma round_ne_int_near n :
  0 <= n -> n < 2 ^ 2097 ->
  exists r,
    round_ne n 1 = Fin r /\ 0 <= r /\ 2 ^ 53 * Z.abs (r - n) <= n.
Proof.
  intros Hn Hov.
  destruct (round_ne_near n 1 Hn) as (r & Hr & H0 & Hs & Hb); [lia|lia|].
  exists r. split; [exact Hr|]. split; [exact H0|].
  destruct (Z_lt_le_dec n (2 ^ 53)) as [Hlt|Hge].
  - specialize (Hs ltac:(lia)). lia.
  - specialize (Hb ltac:(lia)). lia.
Qed.

Lemma one_u_pos : 0 < one_u.
Proof. unfold one_u. now apply Z.pow_pos_nonneg. Qed.

Lemma one_u_big : 2 ^ 1074 = one_u.
Proof. reflexivity. Qed.

Lemma float_of_int_small z :
  0 <= z < 2 ^ 53 -> float_of_int z = Ok (Fin (z * one_u)).
Proof.
  intros Hz. rewrite float_of_int_halves by (unfold small; lia).
  unfold halves. rewrite one_u_halves. do 2 f_equal. ring.
Qed.

Lemma sub_Fin a r : sub (Fin a) (Fin r) = round_ne (a - r) 1.
Proof. unfold sub, neg, add. now rewrite Z.add_opp_r. Qed.

Lemma div_Fin_pos x b :
  0 < b -> div (Fin x) (Fin b) = round_ne (x * one_u) b.
Proof.
  intros Hb. unfold div.
  assert (Hbz : (b =? 0) = false) by (apply Z.eqb_neq; lia).
  rewrite Hbz, Z.sgn_pos, Z.abs_eq, Z.mul_1_r by lia. reflexivity.
Qed.

(** The last step of [_float_div_mod]: the floor of the quotient,
    one more when the quotient fell just below an integer. *)
Lemma floor_fix y q :
  1 <= q <= 2 ^ 50 -> 8 * Z.abs (y - q * one_u) <= 3 * one_u ->
  (if nonzero (Fin y)
   then if ltb half (sub (Fin y) (floor (Fin y)))
        then add (floor (Fin y)) one else floor (Fin y)
   else zero) = Fin (q * one_u).
Proof.
  intros Hq Hy. pose proof one_u_pos as HU.
  assert (HUv : one_u = 2 ^ 1074) by reflexivity.
  assert (HUe : one_u = 8 * 2 ^ 1071) by reflexivity.
  assert (Hh : 2 ^ 1073 = 4 * 2 ^ 1071) by reflexivity.
  assert (Hp : 2 ^ 53 < 2 ^ 1071) by reflexivity.
  assert (Hbig : one_u < 2 ^ 2040) by reflexivity.
  assert (Hbig2 : 2 ^ 2040 * 2 ^ 52 < 2 ^ 2097) by reflexivity.
  set (W := 2 ^ 1071) in *.
  unfold nonzero, floor, half, one.
  assert (Hyne : (y =? 0) = false) by (apply Z.eqb_neq; nia).
  rewrite Hyne. cbn [negb]. rewrite sub_Fin. rewrite Hh.
  destruct (Z_lt_le_dec y (q * one_u)) as [Hbelow|Habove].
  - assert (Hfl : y / one_u = q - 1).
    { symmetry.
      apply (Z.div_unique y one_u (q - 1) (y - (q - 1) * one_u));
        [left; nia | ring]. }
    rewrite Hfl.
    destruct (round_ne_int_near (y - (q - 1) * one_u))
      as (t & Ht & Ht0 & Htr); [nia | nia |].
    rewrite Ht. unfold ltb.
    assert (Hgt : (4 * W <? t) = true) by (apply Z.ltb_lt; nia).
    rewrite Hgt. unfold add.
    replace ((q - 1) * one_u + one_u) with (q * one_u * 1) by ring.
    apply round_ne_exact; [lia|].
    exists q, 1074. rewrite HUv. repeat split; lia.
  - assert (Hfl : y / one_u = q).
    { symmetry. apply (Z.div_unique y one_u q (y - q * one_u));
        [left; nia | ring]. }
    rewrite Hfl.
    destruct (round_ne_int_near (y - q * one_u))
      as (t & Ht & Ht0 & Htr); [nia | nia |].
    rewrite Ht. unfold ltb.
    assert (Hle : (4 * W <? t) = false) by (apply Z.ltb_ge; nia).
    rewrite Hle. reflexivity.
Qed.

(** [a // b] for floats is the exact floor of the quotient when that
    floor is at most [2^50]. *)
Lemma float_floor_div_exact a b q :
  0 < b -> 0 <= q <= 2 ^ 50 -> q * b <= a < (q + 1) * b ->
  q * b < 2 ^ 2097 ->
  float_floor_div (Fin a) (Fin b) = Ok (Fin (q * one_u)).
Proof.
  intros Hb Hq Ha Hov. pose proof one_u_pos as HU.
  assert (HUv : one_u = 2 ^ 1074) by reflexivity.
  assert (HT : 2 ^ 2097 = 2 ^ 1023 * one_u) by reflexivity.
  assert (H51 : 2 ^ 51 < 2 ^ 1023) by reflexivity.
  assert (H53U : 2 ^ 53 <= one_u) by (rewrite HUv; apply Z.pow_le_mono_r; lia).
  unfold float_floor_div, nonzero.
  assert (Hbz : (b =? 0) = false) by (apply Z.eqb_neq; lia).
  rewrite Hbz. cbn [negb]. f_equal.
  unfold float_div_mod, fmod. rewrite Hbz.
  assert (Hrem : Z.rem a b = a - q * b).
  { symmetry. apply (Z.rem_unique a b q); [nia | nia | ring]. }
  rewrite Hrem. set (r := a - q * b) in *.
  destruct (round_ne_near (q * b) 1) as (x & Hx & Hx0 & Hxs & Hxb);
    [nia | lia | lia |].
  assert (Hsub : sub (Fin a) (Fin r) = Fin x).
  { rewrite sub_Fin. replace (a - r) with (q * b) by (unfold r; ring).
    exact Hx. }
  rewrite Hsub.
  assert (Hxrel : 2 ^ 53 * Z.abs (x - q * b) <= q * b).
  { destruct (Z_lt_le_dec (q * b) (2 ^ 53)) as [Hlt|Hge].
    - specialize (Hxs ltac:(lia)). lia.
    - specialize (Hxb ltac:(lia)). lia. }
  assert (HqbU : q * b * one_u <= 2 ^ 50 * (b * one_u)).
  { replace (q * b * one_u) with (q * (b * one_u)) by ring.
    apply Z.mul_le_mono_nonneg_r; nia. }
  assert (HxqU : Z.abs (x * one_u - q * b * one_u)
                 = Z.abs (x - q * b) * one_u).
  { replace (x * one_u - q * b * one_u) with ((x - q * b) * one_u) by ring.
    rewrite Z.abs_mul, (Z.abs_eq one_u); lia. }
  assert (H1 : 2 ^ 53 * Z.abs (x * one_u - q * b * one_u) <= q * b * one_u).
  { rewrite HxqU.
    replace (2 ^ 53 * (Z.abs (x - q * b) * one_u))
      with (2 ^ 53 * Z.abs (x - q * b) * one_u) by ring.
    apply Z.mul_le_mono_nonneg_r; lia. }
  assert (HbU : 0 < b * one_u) by nia.
  assert (HxU : x * one_u < 2 ^ 2097 * b).
  { rewrite HT. replace (2 ^ 1023 * one_u * b) with (2 ^ 1023 * (b * one_u))
      by ring. lia. }
  assert (Hx0U : 0 <= x * one_u) by nia.
  destruct (round_ne_near (x * one_u) b Hx0U Hb HxU)
    as (y & Hy & Hy0 & Hys & Hyb).
  assert (Hdiv : div (Fin x) (Fin b) = Fin y)
    by (rewrite div_Fin_pos by lia; exact Hy).
  rewrite Hdiv.
  assert (Hlt0 : ltb (Fin b) zero = false)
    by (unfold ltb, zero; apply Z.ltb_ge; lia).
  assert (Hlt1 : ltb (Fin r) zero = false)
    by (unfold ltb, zero; apply Z.ltb_ge; unfold r; lia).
  rewrite Hlt0, Hlt1. cbn [Bool.eqb negb].
  assert (Hgoal :
    (if negb (y =? 0)
     then if ltb half (sub (Fin y) (floor (Fin y)))
          then add (floor (Fin y)) one else floor (Fin y)
     else zero) = Fin (q * one_u)).
  { destruct (Z.eq_dec q 0) as [Hq0|Hq0].
    - subst q. rewrite Z.mul_0_l in *.
      assert (x = 0) by lia. subst x. rewrite Z.mul_0_l in *.
      assert (y = 0).
      { assert (Hlt : 0 < 2 ^ 53 * b) by lia. specialize (Hys Hlt).
        rewrite Z.sub_0_r in Hys.
        rewrite Z.abs_mul, (Z.abs_eq b) in Hys by lia.
        destruct (Z.eq_dec y 0) as [|Hne]; [assumption|].
        assert (1 <= Z.abs y) by lia. nia. }
      subst y. reflexivity.
    - apply (floor_fix y q); [lia|].
      assert (Hyrel : 2 ^ 53 * Z.abs (y * b - x * one_u) <= x * one_u).
      { apply Hyb.
        assert (b <= q * b) by nia.
        assert (2 * x >= q * b) by lia.
        assert ((x * 2) * 2 ^ 53 <= (x * 2) * one_u)
          by (apply Z.mul_le_mono_nonneg_l; lia).
        lia. }
      assert (H4 : 8 * Z.abs (y * b - q * b * one_u) <= 3 * (b * one_u))
        by lia.
      assert (H5 : Z.abs (y * b - q * b * one_u)
                   = Z.abs (y - q * one_u) * b).
      { replace (y * b - q * b * one_u) with ((y - q * one_u) * b) by ring.
        rewrite Z.abs_mul, (Z.abs_eq b); lia. }
      rewrite H5 in H4.
      assert (H6 : 8 * Z.abs (y - q * one_u) * b <= 3 * one_u * b) by lia.
      apply Z.mul_le_mono_pos_r in H6; lia. }
  destruct (nonzero (Fin r)); cbn [fst]; exact Hgoal.
Qed.

End RoundFacts.

(* ================================================================== *)
(** * The centre of a cell, whatever the cell size *)

Module CenterFacts.
Import PyFloat PyFloatSpec PyFloatFacts PyVal Grid GridFacts RoundFacts GridSpec.

(** Rounding an integer value [k], given as [k * d / d]. *)
Lemma round_ne_mul_near k d :
  0 <= k -> 0 < d -> k < 2 ^ 2097 ->
  exists r,
    round_ne (k * d) d = Fin r /\ 0 <= r /\
    (k < 2 ^ 53 -> r = k) /\ 2 ^ 53 * Z.abs (r - k) <= k.
Proof.
  intros Hk Hd Hov.
  destruct (round_ne_near (k * d) d) as (r & Hr & H0 & Hs & Hb);
    [apply Z.mul_nonneg_nonneg; lia | lia
    | apply Z.mul_lt_mono_pos_r; lia |].
  exists r. split; [exact Hr|]. split; [exact H0|].
  assert (He : Z.abs (r * d - k * d) = Z.abs (r - k) * d).
  { replace (r * d - k * d) with ((r - k) * d) by ring.
    rewrite Z.abs_mul, (Z.abs_eq d); lia. }
  rewrite He in Hs, Hb.
  assert (Hsmall : k < 2 ^ 53 -> r = k).
  { intros Hlt.
    assert (Hl : k * d < 2 ^ 53 * d) by (apply Z.mul_lt_mono_pos_r; lia).
    specialize (Hs Hl).
    destruct (Z.eq_dec r k) as [|Hne]; [assumption|].
    assert (1 * d <= Z.abs (r - k) * d)
      by (apply Z.mul_le_mono_nonneg_r; lia).
    lia. }
  split; [exact Hsmall|].
  destruct (Z_lt_le_dec k (2 ^ 53)) as [Hlt|Hge].
  - rewrite (Hsmall Hlt), Z.sub_diag. cbn [Z.abs]. lia.
  - assert (Hl : 2 ^ 52 * d <= k * d)
      by (apply Z.mul_le_mono_nonneg_r; lia).
    specialize (Hb Hl).
    assert (2 ^ 53 * Z.abs (r - k) * d <= k * d) by lia.
    apply Z.mul_le_mono_pos_r in H; lia.
Qed.

(** Half of [b] units. *)
Lemma half_near b :
  0 < b -> b < 2 ^ 2097 ->
  exists h,
    round_ne (b * one_u) (2 * one_u) = Fin h /\ 0 <= h /\
    (b = 1 -> h = 0) /\
    (b < 2 ^ 54 -> Z.abs (2 * h - b) <= 1) /\
    2 ^ 53 * Z.abs (2 * h - b) <= b + 2 ^ 53.
Proof.
  intros Hb Hov. pose proof one_u_pos as HU.
  assert (HbU : b * one_u < 2 ^ 2097 * one_u)
    by (apply Z.mul_lt_mono_pos_r; lia).
  destruct (round_ne_near (b * one_u) (2 * one_u)) as (h & Hh & H0 & Hs & Hl);
    [apply Z.mul_nonneg_nonneg; lia | lia | lia |].
  exists h. split; [exact Hh|]. split; [exact H0|].
  assert (He : Z.abs (h * (2 * one_u) - b * one_u)
               = Z.abs (2 * h - b) * one_u).
  { replace (h * (2 * one_u) - b * one_u) with ((2 * h - b) * one_u) by ring.
    rewrite Z.abs_mul, (Z.abs_eq one_u); lia. }
  rewrite He in Hs, Hl.
  assert (Hsmall : b < 2 ^ 54 -> Z.abs (2 * h - b) <= 1).
  { intros Hlt.
    assert (Hc' : b * one_u < 2 ^ 54 * one_u)
      by (apply Z.mul_lt_mono_pos_r; lia).
    assert (Hc : b * one_u < 2 ^ 53 * (2 * one_u)) by lia.
    specialize (Hs Hc).
    assert (H : Z.abs (2 * h - b) * one_u <= 1 * one_u) by lia.
    apply Z.mul_le_mono_pos_r in H; lia. }
  split.
  { intros ->. rewrite Z.mul_1_l in Hh.
    assert (Hc : round_ne one_u (2 * one_u) = Fin 0)
      by (vm_compute; reflexivity).
    congruence. }
  split; [exact Hsmall|].
  destruct (Z_lt_le_dec b (2 ^ 54)) as [Hlt|Hge].
  - specialize (Hsmall Hlt). lia.
  - assert (Hc' : 2 ^ 53 * one_u <= b * one_u)
      by (apply Z.mul_le_mono_nonneg_r; lia).
    assert (Hc : 2 ^ 52 * (2 * one_u) <= b * one_u) by lia.
    specialize (Hl Hc).
    assert (H : 2 ^ 53 * Z.abs (2 * h - b) * one_u <= b * one_u) by lia.
    apply Z.mul_le_mono_pos_r in H; lia.
Qed.

(** The centre of a cell whose size is a float lies in the cell. *)
Lemma cell_center_float b col :
  0 < b -> 0 <= col < 2 ^ 50 -> (col + 1) * b < 2 ^ 2097 ->
  exists a,
    cell_center (NFloat (Fin b)) col = Ok (NFloat (Fin a)) /\
    col * b <= a < (col + 1) * b.
Proof.
  intros Hb Hcol Hov. pose proof one_u_pos as HU.
  assert (HP : (col + 1) * b = col * b + b) by ring.
  rewrite HP in *.
  assert (HP0 : 0 <= col * b) by nia.
  assert (HPle : col * b + b <= 2 ^ 50 * b).
  { rewrite <- HP. apply Z.mul_le_mono_nonneg_r; lia. }
  set (P := col * b) in *.
  unfold cell_center, num_mul, num_truediv, to_float.
  rewrite !float_of_int_small by lia. cbn [bind].
  unfold float_true_div, nonzero.
  assert (H2 : (2 * one_u =? 0) = false) by (apply Z.eqb_neq; lia).
  rewrite H2. cbn [negb bind]. rewrite div_Fin_pos by lia.
  unfold mul.
  replace (col * one_u * b) with (P * one_u) by (unfold P; ring).
  destruct (round_ne_mul_near P one_u) as (r1 & Hr1 & Hr0 & Hrs & Hrb);
    [lia | lia | lia |].
  rewrite Hr1.
  destruct (half_near b) as (h & Hh & Hh0 & Hh1 & Hhs & Hhb); [lia | lia |].
  rewrite Hh. unfold num_add, to_float. cbn [bind]. unfold add.
  destruct (Z_lt_le_dec (P + b) (2 ^ 53)) as [Hsmall|Hbig].
  - assert (r1 = P) by (apply Hrs; lia). subst r1.
    assert (Hhh : Z.abs (2 * h - b) <= 1) by (apply Hhs; lia).
    assert (Hhb' : h < b).
    { destruct (Z.eq_dec b 1) as [E|E]; [rewrite (Hh1 E); lia | lia]. }
    rewrite round_ne_int by lia.
    exists (P + h). split; [reflexivity | lia].
  - assert (Hb8 : 8 <= b) by lia.
    destruct (round_ne_int_near (r1 + h)) as (a & Ha & Ha0 & Har);
      [lia | lia |].
    rewrite Ha. exists a. split; [reflexivity | lia].
Qed.

(** The centre of a cell whose size is an integer lies in the cell
    that division by [float(cell_size)] makes. *)
Lemma cell_center_int z col :
  0 < z -> 0 <= col < 2 ^ 50 -> (col + 1) * (z * one_u) < 2 ^ 2097 ->
  exists a b,
    cell_center (NInt z) col = Ok (NFloat (Fin a)) /\
    float_of_int z = Ok (Fin b) /\ 0 < b /\
    col * b <= a < (col + 1) * b /\ col * b < 2 ^ 2097.
Proof.
  intros Hz Hcol Hov. pose proof one_u_pos as HU.
  assert (HUv : one_u = 2 ^ 1074) by reflexivity.
  assert (HB : one_u <= z * one_u) by nia.
  set (B := z * one_u) in *.
  assert (HP : (col + 1) * B = col * B + B) by ring.
  rewrite HP in Hov.
  assert (HP0 : 0 <= col * B) by nia.
  assert (HPle : col * B + B <= 2 ^ 50 * B).
  { rewrite <- HP. apply Z.mul_le_mono_nonneg_r; lia. }
  set (P := col * B) in *.
  (* half the cell *)
  destruct (round_ne_near B 2) as (h & Hh & Hh0 & _ & Hhb); [lia | lia | lia |].
  assert (Hhrel : 2 ^ 53 * Z.abs (h * 2 - B) <= B) by (apply Hhb; lia).
  (* the corner, as a float *)
  destruct (round_ne_int_near P) as (r1 & Hr1 & Hr0 & Hrrel); [lia | lia |].
  (* the sum *)
  destruct (round_ne_int_near (r1 + h)) as (a & Ha & Ha0 & Harel);
    [lia | lia |].
  (* the divisor *)
  destruct (round_ne_int_near B) as (b & Hb & Hb0 & Hbrel); [lia | lia |].
  exists a, b.
  assert (HQ : 2 ^ 53 * Z.abs (col * b - P) <= P).
  { replace (col * b - P) with (col * (b - B)) by (unfold P; ring).
    rewrite Z.abs_mul, (Z.abs_eq col) by lia.
    replace (2 ^ 53 * (col * Z.abs (b - B)))
      with (col * (2 ^ 53 * Z.abs (b - B))) by ring.
    unfold P. apply Z.mul_le_mono_nonneg_l; lia. }
  assert (HQ1 : (col + 1) * b = col * b + b) by ring.
  rewrite HQ1. set (Q := col * b) in *.
  split.
  { unfold cell_center, num_mul, num_truediv, int_true_div. cbn [bind].
    change (2 =? 0) with false. cbv iota.
    change (Z.sgn 2) with 1. change (Z.abs 2) with 2.
    rewrite Z.mul_1_r. fold B. rewrite Hh. cbn [bind].
    unfold num_add, to_float, float_of_int.
    replace (col * z * one_u * 1) with P by (unfold P, B; ring).
    replace (col * z * one_u) with P by (unfold P, B; ring).
    rewrite Hr1. cbn [bind]. unfold add. rewrite Ha. reflexivity. }
  split.
  { unfold float_of_int. fold B. rewrite Hb. reflexivity. }
  split; [lia|]. split; lia.
Qed.

(** One coordinate: the centre, and the index it comes back to. *)
Lemma coordinate_round_trip c index :
  round_trip_range c index ->
  exists center,
    cell_center c index = Ok center /\
    exists q,
      py_floordiv_num (of_num center) c = Ok q /\ num_int q = Ok index.
Proof.
  intros [H0 [(u & Hc & Hi & Hov) | (z & -> & Hz & Hb)]].
  - pose proof one_u_pos as HU.
    destruct c as [z | [b| | |]]; cbn [positive_cell] in Hc; try tauto.
    + destruct Hc as [Hz ->].
      destruct (cell_center_int z index Hz) as (a & b & Hcen & Hf & Hb & Ha & Hq);
        [lia | exact Hov |].
      exists (NFloat (Fin a)). split; [exact Hcen|].
      exists (NFloat (Fin (index * one_u))).
      unfold py_floordiv_num, of_num, as_num, num_floordiv, to_float.
      cbn [bind]. rewrite Hf. cbn [bind].
      rewrite (float_floor_div_exact a b index) by (try assumption; lia).
      cbn [bind num_int]. split; [reflexivity|].
      unfold float_to_int. f_equal. apply Z.quot_mul. lia.
    + destruct Hc as [Hb ->].
      destruct (cell_center_float b index Hb) as (a & Hcen & Ha);
        [lia | exact Hov |].
      exists (NFloat (Fin a)). split; [exact Hcen|].
      exists (NFloat (Fin (index * one_u))).
      unfold py_floordiv_num, of_num, as_num, num_floordiv, to_float.
      cbn [bind].
      rewrite (float_floor_div_exact a b index) by (try assumption; nia).
      cbn [bind num_int]. split; [reflexivity|].
      unfold float_to_int. f_equal. apply Z.quot_mul. lia.
  - exists (NFloat (halves ((2 * index + 1) * z))).
    split; [now apply cell_center_halves|].
    pose proof pow53_split.
    pose proof (floordiv_int_halves z ((2 * index + 1) * z) Hz) as Hf.
    rewrite center_div in Hf by assumption.
    cbn [of_num].
    destruct (py_floordiv_num _ (NInt z)) as [q|e].
    + exists q. split; [reflexivity|]. apply Hf; nia.
    + exfalso. assert (Raise e = Ok index) by (apply Hf; nia). discriminate.
Qed.

End CenterFacts.

(* ================================================================== *)
(** * Properties of the grid conversions *)

Section GridProperties.
Import PyFloat PyFloatSpec PyFloatFacts PyVal Grid GridFacts.
Import GridSpec CenterFacts.

(** C10, as the code has it: for every positive cell size, an
    integer or a float, and indices [col], [row] that are not negative
    and lie in the range of the round trip -- below [2^50] with
    [(index + 1) * cell_size] below [2^1023], or, for an integer cell
    size, with [(2 * index + 1) * cell_size] below [2^53] --
    [grid_to_screen_center] returns and [screen_to_grid] of the centre
    gives [(col, row)] back. *)
Theorem grid_round_trip (c : num) (col row : Z) :
  round_trip_range c col -> round_trip_range c row ->
  exists center_x center_y,
    grid_to_screen_center c col row = Ok (center_x, center_y) /\
    screen_to_grid c (of_num center_x) (of_num center_y) = Ok (col, row).
Proof.
  intros Hcol Hrow.
  destruct (coordinate_round_trip c col Hcol) as (cx & Hcx & qx & Hqx & Hix).
  destruct (coordinate_round_trip c row Hrow) as (cy & Hcy & qy & Hqy & Hiy).
  exists cx, cy. unfold grid_to_screen_center, screen_to_grid.
  rewrite Hcx, Hcy. cbn [bind]. split; [reflexivity|].
  rewrite Hqx. cbn [bind]. rewrite Hix. cbn [bind].
  rewrite Hqy. cbn [bind]. rewrite Hiy. reflexivity.
Qed.

(** With cells of one pixel, the centre of column [2^52 + 1] is not a
    binary64 number: it rounds up, and comes back as column
    [2^52 + 2]. *)
Lemma grid_round_trip_breaks_on_large_index :
  (centre <- grid_to_screen_center (NInt 1) (2 ^ 52 + 1) 0 ;;
   screen_to_grid (NInt 1) (of_num (fst centre)) (of_num (snd centre)))
  = Ok (2 ^ 52 + 2, 0)
  /\ (2 ^ 52 + 2, 0) <> (2 ^ 52 + 1, 0).
Proof. split; [vm_compute; reflexivity | discriminate]. Qed.

End GridProperties.

(* ================================================================== *)
(** * The main loop on the entities of [main] *)

Module ScenarioFacts.
Import PyFloat PyFloatSpec PyFloatFacts PyVal PyDict PyDictFacts State.
Import PygameRenderer RendererSpec RendererFacts GridFacts.
Open Scope string_scope.
Open Scope list_scope.
Open Scope Z_scope.

Lemma movable_update d kx ky gc gr :
  Z.abs kx <= 2 ^ 51 -> Z.abs ky <= 2 ^ 51 ->
  movable
    (PyDict.update d [ ("x", VFloat (halves kx)); ("y", VFloat (halves ky));
                ("grid_col", VInt gc); ("grid_row", VInt gr) ]).
Proof.
  intros Hx Hy. exists kx, ky.
  assert (Hwf : wf [ ("x", VFloat (halves kx)); ("y", VFloat (halves ky));
                     ("grid_col", VInt gc); ("grid_row", VInt gr) ]).
  { unfold wf. simpl. repeat constructor; simpl; intuition discriminate. }
  rewrite !get_update by exact Hwf. auto.
Qed.

Lemma Forall_setitem {K V : Type} `{EqKey K} (P : V -> Prop)
    (d : dict K V) (k : K) (v : V) :
  Forall (fun item => P (snd item)) d -> P v ->
  Forall (fun item => P (snd item)) (setitem d k v).
Proof.
  intros Hd Hv. induction Hd as [|[k0 v0] d Hp Hd IH]; simpl.
  - repeat constructor. exact Hv.
  - destruct (keqb k k0); constructor; auto.
Qed.

Lemma all_movable_update_entity st entity_id u :
  all_movable st -> (forall d, movable (PyDict.update d u)) ->
  all_movable (update_entity st entity_id u).
Proof.
  intros Hst Hu. unfold all_movable, update_entity.
  destruct (get (entities st) entity_id); auto.
  simpl. now apply Forall_setitem.
Qed.

Lemma len_keys {K V : Type} (d : dict K V) :
  len d = Z.of_nat (List.length (keys d)).
Proof. unfold len, keys. now rewrite length_map. Qed.

Lemma forallb_firstn {A : Type} (f : A -> bool) (k : nat) (l : list A) :
  forallb f l = true -> forallb f (firstn k l) = true.
Proof.
  revert l. induction k as [|k IH]; intros [|a l]; simpl; auto.
  intros Hl. apply andb_prop in Hl as [Ha Hl]. rewrite Ha. simpl. auto.
Qed.

Lemma div15_step f :
  (f + 1) / 15 - f / 15 = if (f + 1) mod 15 =? 0 then 1 else 0.
Proof.
  destruct ((f + 1) mod 15 =? 0) eqn:Hm.
  - apply Z.eqb_eq in Hm. Z.div_mod_to_equations. lia.
  - apply Z.eqb_neq in Hm. Z.div_mod_to_equations. lia.
Qed.

Lemma update_snapshot_count config fps r r' m :
  update config fps r = Ok r' ->
  monitor r = Some m -> monitor_up m ->
  exists m',
    monitor r' = Some m' /\ monitor_up m' /\
    snaps m' = snaps m + (if (frame_count r + 1) mod 15 =? 0 then 1 else 0).
Proof.
  intros Hu Hm Hup. unfold snaps.
  destruct ((frame_count r + 1) mod 15 =? 0) eqn:H15.
  - apply Z.eqb_eq in H15.
    destruct (update_publishes _ _ _ _ _ Hu Hm Hup H15) as (m' & Hm' & Hup' & Hq).
    exists m'. split; [exact Hm'|]. split; [exact Hup'|].
    rewrite Hq, length_app, Nat2Z.inj_add. reflexivity.
  - apply update_Ok in Hu as (st & _ & _ & _ & _ & _ & _ & Hmon).
    rewrite Hm, H15 in Hmon. eexists. split; [exact Hmon|].
    destruct ((frame_count r + 1) mod 60 =? 0).
    + split; [now apply monitor_up_update_entity_list|].
      rewrite snapshots_update_entity_list. lia.
    + split; [assumption | lia].
Qed.

Section Scenario.
Variables c w : Z.
Hypothesis Hc : 0 < c < 2 ^ 40.
Hypothesis Hw : - 2 ^ 40 < w < 2 ^ 40.

Lemma pow_facts :
  2 ^ 40 = 1099511627776 /\ 2 ^ 51 = 2251799813685248 /\
  2 ^ 52 = 4503599627370496 /\ 2 ^ 53 = 9007199254740992.
Proof. repeat split. Qed.

Lemma move_entity_ok st entity_id data :
  movable data ->
  exists kx ky gc gr,
    Z.abs kx <= 2 ^ 51 /\ Z.abs ky <= 2 ^ 51 /\
    move_entity (pixel_config c w) st entity_id data =
      Ok (update_entity st entity_id
            [ ("x", VFloat (halves kx)); ("y", VFloat (halves ky));
              ("grid_col", VInt gc); ("grid_row", VInt gr) ]).
Proof.
  intros (kx & ky & Hx & Hy & Bx & By).
  destruct pow_facts as (P40 & P51 & P52 & P53).
  pose proof pow1073_pos as HP. pose proof one_u_halves as Hu.
  unfold move_entity, getitem. rewrite Hx, Hy.
  cbn [bind pixel_config GAME_SCREEN_WIDTH CELL_SIZE num_sub
       py_lt_num as_num].
  set (below := num_lt (NFloat (halves kx)) (NInt (w - c))).
  assert (Hnew : exists kx',
             Z.abs kx' <= 2 ^ 51 /\
             (if below
              then py_add_num (VFloat (halves kx)) move_speed
              else num_add (NInt 0) move_speed)
             = Ok (NFloat (halves kx'))).
  { destruct below eqn:Hb.
    - exists (kx + 3). subst below.
      unfold num_lt, halves in Hb. apply Z.ltb_lt in Hb.
      assert (kx < 2 * (w - c)) by nia.
      split; [lia|].
      cbn [bind py_add_num as_num num_add move_speed to_float].
      change one_and_half with (halves 3).
      rewrite add_halves by (unfold small; lia). reflexivity.
    - exists 3. split; [lia|].
      cbn [num_add move_speed to_float].
      rewrite float_of_int_halves by (unfold small; lia). cbn [bind].
      change one_and_half with (halves 3).
      rewrite add_halves by (unfold small; lia). reflexivity. }
  destruct Hnew as (kx' & Bx' & Hnew).
  exists kx', ky, (kx' / (2 * c)), (ky / (2 * c)).
  split; [exact Bx'|]. split; [exact By|].
  rewrite Hnew. cbn [bind of_num].
  rewrite screen_to_grid_halves by lia. reflexivity.
Qed.

Lemma move_entities_ok items st :
  Forall (fun item => movable (snd item)) items ->
  all_movable st ->
  exists st', move_entities (pixel_config c w) items st = Ok st' /\ all_movable st'.
Proof.
  intros Hitems. revert st.
  induction Hitems as [|[entity_id data] items Hd Hitems IH]; intros st Hst.
  - exists st. auto.
  - cbn [move_entities].
    destruct (move_entity_ok st entity_id data Hd)
      as (kx & ky & gc & gr & Bx & By & ->).
    cbn [bind]. apply IH.
    apply all_movable_update_entity; auto.
    intros d. now apply movable_update.
Qed.

Section Loop.
Variable parse_int : string -> result Z.

Lemma draw_ok r :
  all_movable (state r) -> draw (pixel_config c w) parse_int r = Ok tt.
Proof.
  unfold draw, all_movable.
  induction 1 as [|[entity_id data] items (kx & ky & Hx & Hy & _) _ IH];
    [reflexivity|].
  cbn [draw_entities]. unfold draw_entity, getitem.
  cbn [snd] in Hx, Hy. rewrite Hx, Hy.
  cbn [bind pixel_config CELL_SIZE num_floordiv Z.eqb py_int].
  unfold halves, float_to_int. cbn [bind]. exact IH.
Qed.

Lemma frame_ok e r m :
  ready r m -> no_quit e = true ->
  exists r' m',
    frame (pixel_config c w) parse_int e r = Ok r' /\ ready r' m' /\
    frame_count r' = frame_count r + 1 /\
    len (entities (state r')) = len (entities (state r)) /\
    get (global_metrics r') "Total Entities"
      = Some (VInt (len (entities (state r')))) /\
    snaps m' = snaps m + (if (frame_count r + 1) mod 15 =? 0 then 1 else 0).
Proof.
  intros (Hmov & Hrun & Hm & Hup & Hshape) Hq.
  unfold frame.
  set (r1 := handle_events (events e) r).
  assert (Hr1 : is_running r1 = true).
  { subst r1. unfold no_quit in Hq. cbn [handle_events is_running].
    now destruct (existsb is_quit (events e)). }
  destruct (move_entities_ok (entities (state r1)) (state r1) Hmov Hmov)
    as (st & Hmove & Hst).
  destruct (update (pixel_config c w) (fps e) r1) as [r2|err] eqn:Hu.
  2:{ unfold update in Hu. cbn [state set_frame_count] in Hu.
    rewrite Hmove in Hu. discriminate. }
  pose proof (update_Ok _ _ _ _ Hu)
    as (st' & Hmove' & Hst' & Hf & _ & Hrun2 & Hgm & _).
  rewrite Hmove in Hmove'. injection Hmove' as <-.
  destruct (update_snapshot_count _ _ _ _ m Hu Hm Hup)
    as (m' & Hm' & Hup' & Hsn).
  rewrite (metrics_shape_update _ _ _ _ Hshape) in Hgm.
  cbn [bind]. rewrite draw_ok by now rewrite Hst'. cbn [bind].
  exists r2, m'. split; [reflexivity|].
  split; [|split; [exact Hf|split; [|split; [|exact Hsn]]]].
  - split; [now rewrite Hst'|]. split; [now rewrite Hrun2|].
    split; [exact Hm'|]. split; [exact Hup'|].
    rewrite Hgm. now eexists _, _, _.
  - apply move_entities_keys in Hmove as [Hk _].
    now rewrite Hst', !len_keys, Hk.
  - rewrite Hgm, Hst'. reflexivity.
Qed.

Lemma run_ok envs r m :
  ready r m -> forallb no_quit envs = true ->
  exists r' m',
    run (pixel_config c w) parse_int envs r = Ok r' /\ ready r' m' /\
    frame_count r' = frame_count r + Z.of_nat (List.length envs) /\
    len (entities (state r')) = len (entities (state r)) /\
    (envs <> [] ->
     get (global_metrics r') "Total Entities"
       = Some (VInt (len (entities (state r'))))) /\
    snaps m' =
      snaps m + ((frame_count r + Z.of_nat (List.length envs)) / 15
                 - frame_count r / 15).
Proof.
  revert r m. induction envs as [|e envs IH]; intros r m Hready Hq.
  - exists r, m. cbn [run List.length Z.of_nat].
    rewrite Z.add_0_r, Z.sub_diag, Z.add_0_r.
    split; [reflexivity|]. split; [exact Hready|].
    split; [reflexivity|]. split; [reflexivity|].
    split; [intros Hne; now contradiction Hne | reflexivity].
  - cbn [forallb] in Hq. apply andb_prop in Hq as [Hqe Hq].
    cbn [run]. destruct Hready as (Hmov & Hrun & Hrest).
    rewrite Hrun.
    destruct (frame_ok e r m (conj Hmov (conj Hrun Hrest)) Hqe)
      as (r1 & m1 & -> & Hready1 & Hf1 & Hl1 & Hg1 & Hs1).
    cbn [bind].
    destruct (IH r1 m1 Hready1 Hq)
      as (r' & m' & Hrun' & Hready' & Hf' & Hl' & Hg' & Hs').
    exists r', m'. split; [exact Hrun'|]. split; [exact Hready'|].
    rewrite <- (div15_step (frame_count r)) in Hs1.
    cbn [List.length]. rewrite Nat2Z.inj_succ.
    split; [lia|]. split; [lia|]. split.
    + intros _. destruct envs as [|e' envs'].
      * cbn [run] in Hrun'. injection Hrun' as <-. exact Hg1.
      * apply Hg'. discriminate.
    + rewrite Hs', Hs1, Hf1.
      replace (frame_count r + 1 + Z.of_nat (List.length envs))
        with (frame_count r + Z.succ (Z.of_nat (List.length envs))) by lia.
      lia.
Qed.
End Loop.

Lemma populate_ok :
  exists s,
    Main.populate (pixel_config c w) initial = Ok (s, (1, 2)) /\
    all_movable s /\ len (entities s) = 2.
Proof.
  destruct pow_facts as (P40 & P51 & P52 & P53).
  unfold Main.populate, Main.get_center_coords.
  cbn [pixel_config CELL_SIZE].
  rewrite !cell_center_halves by lia.
  set (x1 := halves ((2 * 3 + 1) * c)). set (y1 := halves ((2 * 5 + 1) * c)).
  set (x2 := halves ((2 * 10 + 1) * c)). set (y2 := halves ((2 * 8 + 1) * c)).
  cbn [bind of_num]. unfold add_entity. cbn [_next_entity_id initial entities].
  eexists. split; [reflexivity|]. split; [|reflexivity].
  repeat constructor; cbn [snd].
  - exists ((2 * 3 + 1) * c), ((2 * 5 + 1) * c).
    repeat split; try reflexivity; lia.
  - exists ((2 * 10 + 1) * c), ((2 * 8 + 1) * c).
    repeat split; try reflexivity; lia.
Qed.

Lemma setup_ok s :
  all_movable s ->
  ready (init (Some VariableMonitor.started) s) VariableMonitor.started.
Proof.
  intros Hmov. split; [exact Hmov|]. split; [reflexivity|].
  split; [reflexivity|]. split; [now split|]. now eexists _, _, _.
Qed.
End Scenario.
End ScenarioFacts.

(* ================================================================== *)
(** * Properties of the start-up scenario *)

Section ScenarioProperties.
Import PyFloat PyVal PyDict State PygameRenderer RendererSpec ScenarioFacts.
Open Scope string_scope.
Open Scope list_scope.
Open Scope Z_scope.

End ScenarioProperties.

(* ================================================================== *)
(** * The properties on sample inputs *)

Section Witnesses.
Import PyFloat PyVal PyDict PyDictFacts State StateSpec.
Import PygameRenderer RendererSpec RendererFacts Samples.
Open Scope string_scope.
Open Scope list_scope.
Open Scope Z_scope.

Lemma update_keeps_other_attributes_witness :
  get (entities store_one) 1 = Some (PyDict.update (template 1) probe) /\
  ~ In "name" (keys [ ("x", VInt 5) ]) /\
  get (get_entity_data (update_entity store_one 1 [ ("x", VInt 5) ]) 1) "name"
  = get (PyDict.update (template 1) probe) "name".
Proof.
  assert (H1 : get (entities store_one) 1
               = Some (PyDict.update (template 1) probe)) by reflexivity.
  assert (H2 : ~ In "name" (keys [ ("x", VInt 5) ]))
    by (simpl; intuition discriminate).
  split; [exact H1|]. split; [exact H2|].
  exact (update_keeps_other_attributes
           store_one 1 _ [ ("x", VInt 5) ] "name" H1 H2).
Defined.

Lemma add_entity_merges_over_template_witness :
  wf probe /\
  exists E,
    get (entities (fst (add_entity initial probe))) 1 = Some E /\
    forall k,
      get E k =
        match get probe k with
        | Some v => Some v
        | None => get (template 1) k
        end.
Proof.
  assert (Hwf : wf probe).
  { unfold wf. simpl. repeat constructor. simpl. tauto. }
  split; [exact Hwf|].
  destruct (add_entity_merges_over_template initial probe Hwf)
    as (_ & _ & _ & HE).
  exact HE.
Defined.

Lemma stored_identity_stable_witness :
  forallb keeps_id plain_calls = true /\
  (forall i E,
      get (entities (fst (State.run initial plain_calls))) i = Some E ->
      get E "id" = Some (VInt i)) /\
  (forall i,
      In i (snd (State.run initial plain_calls)) ->
      ~ In (Remove i) plain_calls ->
      contains (entities (fst (State.run initial plain_calls))) i = true).
Proof.
  split; [reflexivity|].
  apply (stored_identity_stable plain_calls). reflexivity.
Defined.

Lemma get_absent_is_empty_witness :
  removed_after_issue removal_calls 1 /\
  get_entity_data (fst (State.run initial removal_calls)) 1 = empty.
Proof.
  assert (Hr : removed_after_issue removal_calls 1).
  { exists [ Add [] ], [ Add [] ]. split; [reflexivity|]. simpl. auto. }
  split; [exact Hr|].
  apply (get_absent_is_empty removal_calls 1). right. exact Hr.
Defined.

Lemma update_absent_is_noop_witness :
  contains (entities store_one) 5 = false /\
  update_entity store_one 5 [ ("x", VInt 1) ] = store_one.
Proof.
  split; [reflexivity|].
  apply (update_absent_is_noop store_one 5 [ ("x", VInt 1) ]). reflexivity.
Defined.

Lemma reachable_updates config n fps r r' :
  reachable config r -> updates config n fps r = Ok r' ->
  reachable config r'.
Proof.
  revert r. induction n as [|n IH]; intros r Hr; simpl.
  - now intros [= <-].
  - destruct (update config fps r) as [r1|] eqn:Hu; simpl; [|discriminate].
    apply IH. eapply reach_update; eauto.
Qed.

Lemma before_publish_reachable : reachable sample_config before_publish.
Proof.
  apply (reachable_updates sample_config 14 zero
           (init (Some VariableMonitor.started) initial)).
  - apply reach_init.
  - vm_compute. reflexivity.
Qed.

Lemma aggregate_snapshot_published_witness :
  reachable sample_config before_publish /\
  selected_entity_id before_publish = None /\
  monitor before_publish = Some VariableMonitor.started /\
  monitor_up VariableMonitor.started /\
  (frame_count before_publish + 1) mod 15 = 0 /\
  update sample_config zero before_publish = Ok published /\
  global_metrics published = aggregate_snapshot zero published /\
  keys (global_metrics published) =
    ["Frame Count"; "Current FPS"; "Total Entities"; "System Status"] /\
  exists m',
    monitor published = Some m' /\
    VariableMonitor.snapshots (VariableMonitor.after_queue m') =
      VariableMonitor.snapshots
        (VariableMonitor.after_queue VariableMonitor.started) ++
      [global_metrics published].
Proof.
  assert (Hup : monitor_up VariableMonitor.started) by (split; reflexivity).
  assert (Hu : update sample_config zero before_publish = Ok published)
    by (vm_compute; reflexivity).
  split; [exact before_publish_reachable|].
  split; [reflexivity|]. split; [reflexivity|]. split; [exact Hup|].
  split; [reflexivity|]. split; [exact Hu|].
  exact (aggregate_snapshot_published
           sample_config zero before_publish published VariableMonitor.started
           before_publish_reachable eq_refl eq_refl Hup eq_refl Hu).
Defined.

(** The stale selection, run: entity 1 is selected and removed, and
    the fifteenth frame publishes the empty dictionary -- not the
    metrics -- with entity 1 still selected. *)
Lemma stale_selection_publishes_empty :
  exists r' m',
    updates sample_config 15 zero stale_start = Ok r' /\
    monitor r' = Some m' /\
    VariableMonitor.snapshots (VariableMonitor.after_queue m') = [empty] /\
    empty <> global_metrics r' /\
    selected_entity_id r' = Some 1.
Proof.
  exists stale_published. eexists.
  split; [vm_compute; reflexivity|].
  split; [reflexivity|]. split; [reflexivity|].
  split; [discriminate | reflexivity].
Qed.

Lemma stale_selection_snapshot_is_empty_witness :
  selected_entity_id stale_before_publish = Some 1 /\
  get (entities (state stale_before_publish)) 1 = None /\
  monitor stale_before_publish = Some VariableMonitor.started /\
  monitor_up VariableMonitor.started /\
  (frame_count stale_before_publish + 1) mod 15 = 0 /\
  update sample_config zero stale_before_publish = Ok stale_published /\
  selected_entity_id stale_published = Some 1 /\
  get (entities (state stale_published)) 1 = None /\
  exists m',
    monitor stale_published = Some m' /\
    VariableMonitor.snapshots (VariableMonitor.after_queue m') =
      VariableMonitor.snapshots
        (VariableMonitor.after_queue VariableMonitor.started) ++ [empty].
Proof.
  assert (Hup : monitor_up VariableMonitor.started) by (split; reflexivity).
  assert (Hu : update sample_config zero stale_before_publish
               = Ok stale_published) by (vm_compute; reflexivity).
  split; [reflexivity|]. split; [reflexivity|]. split; [reflexivity|].
  split; [exact Hup|]. split; [reflexivity|]. split; [exact Hu|].
  exact (stale_selection_snapshot_is_empty
           sample_config zero stale_before_publish stale_published
           VariableMonitor.started 1
           eq_refl eq_refl eq_refl Hup eq_refl Hu).
Defined.

(** A creation that carries "id" stores that value, not the identity
    returned; an update that carries "id" replaces it again. *)
Lemma identity_field_overwritten :
  let created := add_entity initial [ ("id", VInt 99) ] in
  snd created = 1 /\
  get (get_entity_data (fst created) 1) "id" = Some (VInt 99) /\
  get (get_entity_data
         (update_entity (fst created) 1 [ ("id", VInt 7) ]) 1) "id"
  = Some (VInt 7) /\
  VInt 99 <> VInt 1 /\ VInt 7 <> VInt 99.
Proof.
  cbv zeta. split; [reflexivity|]. split; [reflexivity|].
  split; [reflexivity|]. split; discriminate.
Qed.


Lemma grid_round_trip_witness :
  GridSpec.round_trip_range (NFloat (of_hex 0x1999999999999a (-56))) 3 /\
  GridSpec.round_trip_range (NFloat (of_hex 0x1999999999999a (-56))) 5 /\
  exists center_x center_y,
    Grid.grid_to_screen_center (NFloat (of_hex 0x1999999999999a (-56))) 3 5
    = Ok (center_x, center_y) /\
    Grid.screen_to_grid (NFloat (of_hex 0x1999999999999a (-56)))
      (of_num center_x) (of_num center_y)
    = Ok (3, 5).
Proof.
  assert (H1 : GridSpec.round_trip_range
                 (NFloat (of_hex 0x1999999999999a (-56))) 3).
  { split; [discriminate|]. left.
    exists (0x1999999999999a * 2 ^ (-56 + 1074)).
    split; [split; reflexivity|]. split; reflexivity. }
  assert (H2 : GridSpec.round_trip_range
                 (NFloat (of_hex 0x1999999999999a (-56))) 5).
  { split; [discriminate|]. left.
    exists (0x1999999999999a * 2 ^ (-56 + 1074)).
    split; [split; reflexivity|]. split; reflexivity. }
  split; [exact H1|]. split; [exact H2|].
  exact (grid_round_trip (NFloat (of_hex 0x1999999999999a (-56))) 3 5 H1 H2).
Defined.

End Witnesses.

(* ================================================================== *)
(** * More on dictionaries and the store *)

Module StoreFacts.
Import PyVal PyDict PyDictFacts State StateSpec StateFacts StoreShape FrameSpec.
Open Scope string_scope.
Open Scope list_scope.
Open Scope Z_scope.

Section Dict.
Context {K V : Type} `{EqKey K}.
Implicit Types (d u : dict K V) (k : K) (v : V).

Lemma contains_setitem_other d k k' v :
  k <> k' -> contains (setitem d k v) k' = contains d k'.
Proof. intros Hne. unfold contains. now rewrite get_setitem_other. Qed.

Lemma In_keys_setitem d k k' v :
  In k' (keys d) -> In k' (keys (setitem d k v)).
Proof.
  rewrite keys_setitem. destruct (contains d k); auto.
  rewrite in_app_iff. auto.
Qed.

Lemma In_keys_update d u k : In k (keys d) -> In k (keys (update d u)).
Proof.
  unfold update. revert d. induction u as [|[k0 v0] u IH]; intros d Hin; simpl; auto.
  apply IH. now apply In_keys_setitem.
Qed.

(** The keys after [update]: those of [d] where they were, then the
    keys of [u] that [d] did not have, in the order of [u]. *)
Lemma keys_update d u :
  wf u ->
  keys (update d u) =
    keys d ++ filter (fun k => negb (contains d k)) (keys u).
Proof.
  unfold update, wf. revert d.
  induction u as [|[k0 v0] u IH]; intros d Hwf; simpl.
  - now rewrite app_nil_r.
  - inversion Hwf as [|? ? Hout Hwf']; subst.
    rewrite IH by assumption. rewrite keys_setitem.
    assert (Hf : filter (fun k => negb (contains (setitem d k0 v0) k)) (keys u)
                 = filter (fun k => negb (contains d k)) (keys u)).
    { apply filter_ext_in. intros k Hk.
      rewrite contains_setitem_other; auto. intros ->. auto. }
    rewrite Hf. destruct (contains d k0); simpl; auto.
    now rewrite <- app_assoc.
Qed.

Lemma setitem_same d k v : get d k = Some v -> setitem d k v = d.
Proof.
  induction d as [|[k0 v0] d IH]; simpl; [discriminate|].
  destruct (keqb_spec k k0) as [->|Hne].
  - now intros [= ->].
  - intros Hg. now rewrite IH.
Qed.

Lemma update_fixed d u :
  (forall k v, In (k, v) u -> get d k = Some v) -> update d u = d.
Proof.
  unfold update. induction u as [|[k0 v0] u IH]; intros Hall; simpl; auto.
  rewrite setitem_same by (apply Hall; now left).
  apply IH. intros k v Hin. apply Hall. now right.
Qed.

Lemma get_In d k v : wf d -> In (k, v) d -> get d k = Some v.
Proof.
  unfold wf. induction d as [|[k0 v0] d IH]; simpl; [tauto|].
  intros Hwf [Heq|Hin]; inversion Hwf as [|? ? Hout Hwf']; subst.
  - injection Heq as -> ->. now rewrite keqb_refl.
  - destruct (keqb_spec k k0) as [->|Hne]; auto.
    exfalso. apply Hout. change k0 with (fst (k0, v)). now apply in_map.
Qed.

Lemma In_get d k v : get d k = Some v -> In (k, v) d.
Proof.
  induction d as [|[k0 v0] d IH]; simpl; [discriminate|].
  destruct (keqb_spec k k0) as [->|Hne]; [intros [= ->]|]; auto.
Qed.

Lemma update_idempotent d u : wf u -> update (update d u) u = update d u.
Proof.
  intros Hwf. apply update_fixed. intros k v Hin.
  rewrite get_update by assumption. now rewrite (get_In u k v Hwf Hin).
Qed.

Lemma keys_delitem_sorted (R : K -> K -> Prop) d k :
  StronglySorted R (keys d) -> StronglySorted R (keys (delitem d k)).
Proof.
  induction d as [|[k0 v0] d IH]; simpl; auto.
  intros Hs. inversion Hs as [|? ? Hs' Hall]; subst.
  destruct (keqb k k0); simpl; auto.
  constructor; auto.
  rewrite Forall_forall in *. intros x Hx. apply Hall.
  eapply keys_delitem_incl; eauto.
Qed.
End Dict.

Lemma sorted_app_last (l : list Z) (z : Z) :
  StronglySorted Z.lt l -> (forall k, In k l -> k < z) ->
  StronglySorted Z.lt (l ++ [z]).
Proof.
  induction 1 as [|a l Hs IH Hall]; intros Hlt; simpl.
  - repeat constructor.
  - constructor.
    + apply IH. intros k Hk. apply Hlt. now right.
    + rewrite Forall_forall in *. intros x Hx.
      apply in_app_iff in Hx as [Hx|[<-|[]]]; auto.
      apply Hlt. now left.
Qed.

Lemma fresh_not_contained s :
  store_inv s -> contains (entities s) (_next_entity_id s) = false.
Proof.
  intros (_ & _ & Hb).
  destruct (contains (entities s) (_next_entity_id s)) eqn:Hc; auto.
  apply contains_true_iff in Hc. apply Hb in Hc. lia.
Qed.

Lemma ids_sorted_step s o :
  store_inv s -> ids_sorted s -> ids_sorted (fst (step s o)).
Proof.
  unfold ids_sorted, get_entity_ids. intros Hinv Hs.
  destruct o as [a|i u|i]; simpl.
  - rewrite keys_setitem, fresh_not_contained by assumption.
    apply sorted_app_last; auto.
    intros k Hk. destruct Hinv as (_ & _ & Hb). apply Hb in Hk. lia.
  - unfold update_entity. destruct (get (entities s) i) as [data|] eqn:Hg; auto.
    simpl. rewrite keys_setitem. unfold contains. now rewrite Hg.
  - now apply keys_delitem_sorted.
Qed.

Lemma ids_sorted_run s ops :
  store_inv s -> ids_sorted s -> ids_sorted (fst (run s ops)).
Proof.
  revert s. induction ops as [|o ops IH]; intros s Hinv Hs; auto.
  rewrite run_cons. simpl.
  apply IH; auto using store_inv_step, ids_sorted_step.
Qed.

Lemma has_template_step s o :
  store_inv s -> has_template s -> has_template (fst (step s o)).
Proof.
  intros Hinv Ht i E k. destruct o as [a|j u|j]; simpl.
  - destruct (Z.eq_dec (_next_entity_id s) i) as [->|Hne].
    + rewrite get_setitem_same. intros [= <-] Hk.
      apply In_keys_update. exact Hk.
    + rewrite get_setitem_other by assumption. apply Ht.
  - unfold update_entity. destruct (get (entities s) j) as [data|] eqn:Hg.
    + simpl. destruct (Z.eq_dec j i) as [->|Hne].
      * rewrite get_setitem_same. intros [= <-] Hk.
        apply In_keys_update. eapply Ht; eauto.
      * rewrite get_setitem_other by assumption. apply Ht.
    + apply Ht.
  - destruct (Z.eq_dec j i) as [->|Hne].
    + rewrite get_delitem_same; [discriminate | apply Hinv].
    + rewrite get_delitem_other by assumption. apply Ht.
Qed.

Lemma has_template_run s ops :
  store_inv s -> has_template s -> has_template (fst (run s ops)).
Proof.
  revert s. induction ops as [|o ops IH]; intros s Hinv Ht; auto.
  rewrite run_cons. simpl.
  apply IH; auto using store_inv_step, has_template_step.
Qed.

(** [n] creations in a row. *)
Lemma run_adds s (l : list EntityData) :
  store_inv s ->
  snd (run s (map Add l)) =
    map (fun n => _next_entity_id s + Z.of_nat n) (seq 0 (List.length l)) /\
  get_entity_ids (fst (run s (map Add l))) =
    get_entity_ids s ++
    map (fun n => _next_entity_id s + Z.of_nat n) (seq 0 (List.length l)) /\
  _next_entity_id (fst (run s (map Add l)))
    = _next_entity_id s + Z.of_nat (List.length l).
Proof.
  revert s. induction l as [|a l IH]; intros s Hinv.
  - simpl. rewrite app_nil_r. repeat split; lia.
  - cbn [map]. rewrite run_cons. cbn [step add_entity fst snd List.length seq map].
    set (s1 := {| entities := _; _next_entity_id := _ |}).
    assert (Hinv1 : store_inv s1) by apply (store_inv_step s (Add a) Hinv).
    destruct (IH s1 Hinv1) as (Hids & Hkeys & Hnext).
    assert (Hshift :
      map (fun n => _next_entity_id s1 + Z.of_nat n) (seq 0 (List.length l))
      = map (fun n => _next_entity_id s + Z.of_nat n) (seq 1 (List.length l))).
    { rewrite <- seq_shift, map_map. apply map_ext. intros n.
      subst s1. simpl. lia. }
    rewrite Hids, Hkeys, Hnext, Hshift.
    split; [|split].
    + f_equal. lia.
    + subst s1. unfold get_entity_ids. cbn [entities].
      rewrite keys_setitem, fresh_not_contained by assumption.
      rewrite <- app_assoc. simpl. do 3 f_equal. lia.
    + subst s1. simpl. lia.
Qed.
End StoreFacts.

(* ================================================================== *)
(** * More on the grid *)

Module GridDrawFacts.
Import PyFloat PyFloatSpec PyFloatFacts PyVal Grid GridFacts GridDraw.
Open Scope list_scope.
Open Scope Z_scope.

Lemma screen_to_grid_ints c x y :
  c <> 0 ->
  screen_to_grid (NInt c) (VInt x) (VInt y) = Ok (x / c, y / c).
Proof.
  intros Hc. unfold screen_to_grid, py_floordiv_num, as_num, num_floordiv.
  cbn [bind]. apply Z.eqb_neq in Hc. rewrite Hc. reflexivity.
Qed.

Lemma div_eq_iff x c q : 0 < c -> x / c = q <-> q * c <= x < q * c + c.
Proof.
  intros Hc. split.
  - intros <-. pose proof (Z.div_mod x c ltac:(lia)).
    pose proof (Z.mod_pos_bound x c Hc). nia.
  - intros Hx. symmetry. apply Z.div_unique with (r := x - q * c); lia.
Qed.

(** The centre of a cell, for any sign of the index. *)
Lemma cell_center_halves_any c col :
  0 < c -> - 2 ^ 52 <= (2 * col + 1) * c < 2 ^ 53 ->
  cell_center (NInt c) col = Ok (NFloat (halves ((2 * col + 1) * c))).
Proof.
  intros Hc Hb. pose proof pow53_split as H53.
  assert (0 < 2 ^ 52) by reflexivity.
  assert (Hcc : Z.abs c < 2 ^ 53 /\ Z.abs (col * c) < 2 ^ 53).
  { destruct (Z_le_gt_dec 0 col); split; nia. }
  destruct Hcc as [Hsc Hscol].
  unfold cell_center, num_mul, num_truediv. cbn [bind].
  rewrite int_true_div_two by exact Hsc. cbn [bind].
  unfold num_add, to_float.
  rewrite float_of_int_halves by exact Hscol. cbn [bind].
  rewrite add_halves by (unfold small; nia).
  do 3 f_equal. ring.
Qed.

Section Draw.
Variable color : Type.
Variables GRID_COLOR_1 GRID_COLOR_2 : color.
Variables GRID_WIDTH GRID_HEIGHT : Z.
Variable c : Z.

Lemma draw_cols_int row cols :
  draw_cols color GRID_COLOR_1 GRID_COLOR_2 (NInt c) row cols
  = Ok (map (square color GRID_COLOR_1 GRID_COLOR_2 c row) cols).
Proof.
  induction cols as [|col cols IH]; [reflexivity|].
  cbn [draw_cols draw_cell num_mul bind map]. rewrite IH. reflexivity.
Qed.

Lemma draw_rows_int rows :
  draw_rows color GRID_COLOR_1 GRID_COLOR_2 GRID_WIDTH (NInt c) rows
  = Ok (flat_map
          (fun row =>
             map (square color GRID_COLOR_1 GRID_COLOR_2 c row)
                 (range GRID_WIDTH))
          rows).
Proof.
  induction rows as [|row rows IH]; [reflexivity|].
  cbn [draw_rows flat_map]. rewrite draw_cols_int, IH. reflexivity.
Qed.
End Draw.

Lemma length_range n : List.length (range n) = Z.to_nat n.
Proof. unfold range. now rewrite length_map, length_seq. Qed.

Lemma nth_error_range n i :
  0 <= i < n -> nth_error (range n) (Z.to_nat i) = Some i.
Proof.
  intros Hi. unfold range. rewrite nth_error_map, nth_error_seq.
  destruct (Nat.ltb_spec (Z.to_nat i) (Z.to_nat n)); [|lia].
  simpl. f_equal. lia.
Qed.

Lemma nth_error_flat_map {A B : Type} (f : A -> list B) (w : nat)
    (l : list A) (i j : nat) (a : A) :
  (forall x, List.length (f x) = w) ->
  nth_error l i = Some a -> (j < w)%nat ->
  nth_error (flat_map f l) (i * w + j) = nth_error (f a) j.
Proof.
  intros Hw. revert i. induction l as [|x l IH]; intros i Hi Hj.
  - destruct i; discriminate.
  - destruct i as [|i]; simpl in *.
    + injection Hi as ->. rewrite nth_error_app1; auto. rewrite Hw. exact Hj.
    + rewrite nth_error_app2 by (rewrite Hw; lia).
      rewrite Hw. replace (w + i * w + j - w)%nat with (i * w + j)%nat by lia.
      now apply IH.
Qed.

Lemma length_flat_map_uniform {A B : Type} (f : A -> list B) (w : nat)
    (l : list A) :
  (forall x, List.length (f x) = w) ->
  List.length (flat_map f l) = (List.length l * w)%nat.
Proof.
  intros Hw. induction l as [|x l IH]; simpl; auto.
  rewrite length_app, Hw, IH. lia.
Qed.
End GridDrawFacts.

(* ================================================================== *)
(** * More on the frame *)

Module FrameFacts.
Import PyFloat PyFloatSpec PyFloatFacts PyVal PyDict PyDictFacts State.
Import StateSpec StateFacts PygameRenderer RendererSpec RendererFacts.
Import StoreShape FrameSpec StoreFacts.
Open Scope string_scope.
Open Scope list_scope.
Open Scope Z_scope.

Lemma get_app_notin {K V : Type} `{EqKey K} (l1 l2 : dict K V) (k : K) :
  ~ In k (keys l1) -> get (l1 ++ l2) k = get l2 k.
Proof.
  induction l1 as [|[k0 v0] l1 IH]; simpl; auto.
  intros Hout. rewrite keqb_neq by (intros ->; tauto). apply IH. tauto.
Qed.

Lemma setitem_app_notin {K V : Type} `{EqKey K}
    (l1 l2 : dict K V) (k : K) (v v' : V) :
  ~ In k (keys l1) ->
  setitem (l1 ++ (k, v) :: l2) k v' = l1 ++ (k, v') :: l2.
Proof.
  induction l1 as [|[k0 v0] l1 IH]; simpl.
  - now rewrite keqb_refl.
  - intros Hout. rewrite keqb_neq by (intros ->; tauto). f_equal. apply IH. tauto.
Qed.

Section Frame.
Variable config : Config.

Lemma move_entity_moved st entity_id data st1 :
  move_entity config st entity_id data = Ok st1 ->
  exists u,
    st1 = update_entity st entity_id u /\
    moved config data (PyDict.update data u).
Proof.
  unfold move_entity. intros Hm.
  apply bind_Ok in Hm as (x & Hx & Hm).
  apply bind_Ok in Hm as (limit & Hlimit & Hm).
  apply bind_Ok in Hm as (below & Hbelow & Hm).
  apply bind_Ok in Hm as (new_x & Hnew & Hm).
  apply bind_Ok in Hm as (y & Hy & Hm).
  apply bind_Ok in Hm as ([grid_col g2] & Hg1 & Hm).
  apply bind_Ok in Hm as ([g1 grid_row] & Hg2 & Hm).
  injection Hm as <-.
  rewrite Hg1 in Hg2. injection Hg2 as <- <-.
  eexists. split; [reflexivity|].
  unfold getitem in Hx, Hy.
  destruct (get data "x") as [x0|] eqn:Ex; [|discriminate].
  destruct (get data "y") as [y0|] eqn:Ey; [|discriminate].
  injection Hx as ->. injection Hy as ->.
  exists x, y, limit, below, new_x, grid_col, g2.
  repeat (split; [assumption || reflexivity|]).
  split; [|split; [assumption | reflexivity]].
  destruct below; [|exact Hnew].
  unfold getitem in Hnew. rewrite Ex in Hnew. exact Hnew.
Qed.

Lemma move_entities_moved done rem st st' :
  entities st = done ++ rem ->
  NoDup (keys (done ++ rem)) ->
  move_entities config rem st = Ok st' ->
  exists rem',
    entities st' = done ++ rem' /\
    Forall2 (fun o n => fst o = fst n /\ moved config (snd o) (snd n)) rem rem' /\
    _next_entity_id st' = _next_entity_id st.
Proof.
  revert done st. induction rem as [|[entity_id data] rem IH];
    intros done st Hst Hnd Hm.
  - cbn [move_entities] in Hm. injection Hm as <-.
    exists []. auto.
  - cbn [move_entities] in Hm.
    apply bind_Ok in Hm as (st1 & Hmove & Hm).
    apply move_entity_moved in Hmove as (u & -> & Hmoved).
    assert (Hout : ~ In entity_id (keys done)).
    { unfold keys in *. rewrite map_app in Hnd.
      apply NoDup_remove_2 in Hnd. intros Hin. apply Hnd.
      apply in_or_app. now left. }
    assert (Hget : get (entities st) entity_id = Some data).
    { rewrite Hst, get_app_notin by exact Hout. cbn [get].
      now rewrite keqb_refl. }
    assert (Hst1 : entities (update_entity st entity_id u)
                   = (done ++ [(entity_id, PyDict.update data u)]) ++ rem).
    { unfold update_entity. rewrite Hget. cbn [entities].
      rewrite Hst, setitem_app_notin by exact Hout.
      now rewrite <- app_assoc. }
    destruct (IH _ _ Hst1) with (2 := Hm) as (rem' & Hst' & Hall & Hnext).
    { unfold keys in *. rewrite <- app_assoc. cbn [app].
      rewrite map_app in *. exact Hnd. }
    exists ((entity_id, PyDict.update data u) :: rem').
    split; [|split].
    + rewrite Hst', <- app_assoc. reflexivity.
    + constructor; auto.
    + rewrite Hnext. apply next_update_entity.
Qed.

Lemma update_all_moved fps r r' :
  wf (entities (state r)) ->
  update config fps r = Ok r' ->
  all_moved config (state r) (state r').
Proof.
  intros Hwf Hu. apply update_Ok in Hu as (st & Hmove & -> & _).
  destruct (move_entities_moved [] _ _ _ eq_refl Hwf Hmove)
    as (rem' & Hst & Hall & Hnext).
  split; [|exact Hnext]. now rewrite Hst.
Qed.

Lemma moved_get old new k :
  moved config old new ->
  k <> "x" -> k <> "grid_col" -> k <> "grid_row" ->
  get new k = get old k.
Proof.
  intros (x & y & limit & below & new_x & gc & gr &
          Hx & Hy & _ & _ & _ & _ & ->) Hk1 Hk2 Hk3.
  destruct (string_dec k "y") as [->|Hky].
  - rewrite get_update by
      (unfold wf; simpl; repeat constructor; simpl; intuition discriminate).
    simpl. now rewrite Hy.
  - apply get_update_other. simpl. intuition congruence.
Qed.

Lemma moved_lookup (l l' : dict Z EntityData) i :
  Forall2 (fun o n => fst o = fst n /\ moved config (snd o) (snd n)) l l' ->
  match get l i, get l' i with
  | Some E, Some E' => moved config E E'
  | None, None => True
  | _, _ => False
  end.
Proof.
  induction 1 as [|[k d] [k' d'] l l' [Hk Hm] Hall IH]; cbn [get]; auto.
  cbn [fst snd] in Hk, Hm. subst k'. destruct (keqb i k); auto.
Qed.

Lemma all_moved_lookup old new i E' :
  all_moved config old new ->
  get (entities new) i = Some E' ->
  exists E, get (entities old) i = Some E /\ moved config E E'.
Proof.
  intros [Hall _] HE'. pose proof (moved_lookup _ _ i Hall) as Hl.
  rewrite HE' in Hl. destruct (get (entities old) i); [eauto | contradiction].
Qed.

Lemma all_moved_lookup_old old new i E :
  all_moved config old new ->
  get (entities old) i = Some E ->
  exists E', get (entities new) i = Some E' /\ moved config E E'.
Proof.
  intros [Hall _] HE. pose proof (moved_lookup _ _ i Hall) as Hl.
  rewrite HE in Hl. destruct (get (entities new) i); [eauto | contradiction].
Qed.

Lemma moved_keys_eq (l l' : dict Z EntityData) :
  Forall2 (fun o n => fst o = fst n /\ moved config (snd o) (snd n)) l l' ->
  keys l' = keys l.
Proof.
  induction 1 as [|[k d] [k' d'] l l' [Hk Hm] Hall IH]; simpl; auto.
  simpl in Hk. congruence.
Qed.

Lemma all_moved_keys old new :
  all_moved config old new -> get_entity_ids new = get_entity_ids old.
Proof. intros [Hall _]. now apply moved_keys_eq. Qed.
End Frame.

Lemma moved_keys_wf (a b c d : pyval) :
  wf [ ("x", a); ("y", b); ("grid_col", c); ("grid_row", d) ].
Proof. unfold wf. simpl. repeat constructor; simpl; intuition discriminate. Qed.

Section Frame.
Variable config : Config.

(** A successful movement loop has found two numbers in every item. *)
Lemma move_entities_numeric items st st' :
  move_entities config items st = Ok st' ->
  Forall (fun item =>
            exists x y a b,
              get (snd item) "x" = Some x /\ as_num x = Ok a /\
              get (snd item) "y" = Some y /\ as_num y = Ok b)
         items.
Proof.
  revert st. induction items as [|[entity_id data] items IH]; intros st Hm.
  - constructor.
  - cbn [move_entities] in Hm.
    apply bind_Ok in Hm as (st1 & Hmove & Hm).
    constructor; [|eapply IH; eauto].
    apply move_entity_moved in Hmove as (u & _ & Hmoved).
    destruct Hmoved as (x & y & limit & below & new_x & gc & gr &
                        Hx & Hy & _ & Hlt & _ & Hgrid & _).
    cbn [snd]. exists x, y.
    unfold py_lt_num in Hlt. apply bind_Ok in Hlt as (a & Ha & _).
    unfold Grid.screen_to_grid in Hgrid.
    apply bind_Ok in Hgrid as (qx & _ & Hgrid).
    apply bind_Ok in Hgrid as (gx & _ & Hgrid).
    apply bind_Ok in Hgrid as (qy & Hqy & _).
    unfold py_floordiv_num in Hqy. apply bind_Ok in Hqy as (b & Hb & _).
    exists a, b. auto.
Qed.

Lemma moved_grid old new :
  moved config old new ->
  exists x y gc gr,
    get new "x" = Some x /\ get new "y" = Some y /\
    get new "grid_col" = Some (VInt gc) /\
    get new "grid_row" = Some (VInt gr) /\
    Grid.screen_to_grid (CELL_SIZE config) x y = Ok (gc, gr).
Proof.
  intros (x & y & limit & below & new_x & gc & gr &
          _ & _ & _ & _ & _ & Hgrid & ->).
  exists (of_num new_x), y, gc, gr.
  rewrite !get_update by apply moved_keys_wf. auto.
Qed.
End Frame.

Lemma moved_exact c w old new x kx :
  0 < c < 2 ^ 40 -> - 2 ^ 40 < w < 2 ^ 40 ->
  moved (pixel_config c w) old new ->
  get old "x" = Some x -> at_half_pixels x kx -> Z.abs kx <= 2 ^ 51 ->
  get new "x" =
    Some (VFloat (halves (if kx <? 2 * (w - c) then kx + 3 else 3))).
Proof.
  intros Hc Hw (x0 & y & limit & below & new_x & gc & gr &
                Hx & _ & Hlimit & Hlt & Hnew & _ & ->) Hx' Hat Hb.
  rewrite Hx in Hx'. injection Hx' as ->.
  rewrite get_update by apply moved_keys_wf. cbn [get keqb EqKey_string String.eqb Ascii.eqb Bool.eqb].
  cbn [pixel_config GAME_SCREEN_WIDTH CELL_SIZE num_sub] in Hlimit.
  injection Hlimit as <-.
  assert (P40 : 2 ^ 40 = 1099511627776) by reflexivity.
  assert (P51 : 2 ^ 51 = 2251799813685248) by reflexivity.
  assert (P53 : 2 ^ 53 = 9007199254740992) by reflexivity.
  pose proof pow1073_pos as HP. pose proof one_u_halves as Hu.
  do 2 f_equal.
  destruct Hat as [->|(z & -> & ->)].
  - assert (Hbelow : below = (kx <? 2 * (w - c))).
    { cbn [py_lt_num as_num bind] in Hlt.
      assert (Hl : num_lt (NFloat (halves kx)) (NInt (w - c)) = below)
        by congruence.
      rewrite <- Hl. unfold num_lt, halves.
      destruct (kx <? 2 * (w - c)) eqn:Hk.
      - apply Z.ltb_lt in Hk. apply Z.ltb_lt. nia.
      - apply Z.ltb_ge in Hk. apply Z.ltb_ge. nia. }
    rewrite Hbelow in Hnew.
    destruct (kx <? 2 * (w - c)) eqn:Hk.
    + apply Z.ltb_lt in Hk.
      cbn [py_add_num as_num bind num_add move_speed to_float] in Hnew.
      change one_and_half with (halves 3) in Hnew.
      rewrite add_halves in Hnew by (unfold small; lia).
      now injection Hnew as <-.
    + cbn [num_add move_speed to_float] in Hnew.
      rewrite float_of_int_halves in Hnew by (unfold small; lia).
      cbn [bind] in Hnew. change one_and_half with (halves 3) in Hnew.
      rewrite add_halves in Hnew by (unfold small; lia).
      now injection Hnew as <-.
  - assert (Hbelow : below = (2 * z <? 2 * (w - c))).
    { cbn [py_lt_num as_num bind num_lt] in Hlt.
      assert (Hl : (z <? w - c) = below) by congruence.
      rewrite <- Hl.
      destruct (2 * z <? 2 * (w - c)) eqn:Hk.
      - apply Z.ltb_lt in Hk. apply Z.ltb_lt. lia.
      - apply Z.ltb_ge in Hk. apply Z.ltb_ge. lia. }
    rewrite Hbelow in Hnew.
    destruct (2 * z <? 2 * (w - c)) eqn:Hk.
    + apply Z.ltb_lt in Hk.
      cbn [py_add_num as_num bind num_add move_speed to_float] in Hnew.
      rewrite float_of_int_halves in Hnew by (unfold small; lia).
      cbn [bind] in Hnew. change one_and_half with (halves 3) in Hnew.
      rewrite add_halves in Hnew by (unfold small; lia).
      now injection Hnew as <-.
    + cbn [num_add move_speed to_float] in Hnew.
      rewrite float_of_int_halves in Hnew by (unfold small; lia).
      cbn [bind] in Hnew. change one_and_half with (halves 3) in Hnew.
      rewrite add_halves in Hnew by (unfold small; lia).
      now injection Hnew as <-.
Qed.

(** The calls [update] appends to the queue of a monitor that is up. *)
Lemma update_queue config fps r r' m :
  PygameRenderer.monitor r = Some m -> RendererSpec.monitor_up m ->
  PygameRenderer.update config fps r = Ok r' ->
  exists m',
    PygameRenderer.monitor r' = Some m' /\
    VariableMonitor.is_running m' = true /\
    VariableMonitor.root m' = true /\
    VariableMonitor.after_queue m' =
      VariableMonitor.after_queue m ++
      (if (PygameRenderer.frame_count r + 1) mod 60 =? 0
       then [VariableMonitor.ApplyEntityListUpdate
               (get_entity_ids (PygameRenderer.state r'))]
       else []) ++
      (if (PygameRenderer.frame_count r + 1) mod 15 =? 0
       then [VariableMonitor.PopulateVariables
               match PygameRenderer.selected_entity_id r with
               | None => PygameRenderer.global_metrics r'
               | Some entity_id =>
                   get_entity_data (PygameRenderer.state r') entity_id
               end]
       else []).
Proof.
  intros Hm [Hr Ht] Hu.
  apply RendererFacts.update_Ok in Hu as (st & _ & Hst & _ & _ & _ & _ & Hmon).
  rewrite Hm in Hmon. eexists. split; [exact Hmon|]. subst st.
  unfold VariableMonitor.update_data, VariableMonitor.update_entity_list.
  destruct ((PygameRenderer.frame_count r + 1) mod 60 =? 0);
    destruct ((PygameRenderer.frame_count r + 1) mod 15 =? 0);
    cbn [VariableMonitor.is_running VariableMonitor.root
         VariableMonitor.schedule VariableMonitor.after_queue];
    rewrite ?Hr, ?Ht;
    cbn [andb VariableMonitor.is_running VariableMonitor.root
         VariableMonitor.schedule VariableMonitor.after_queue];
    rewrite ?Hr, ?Ht;
    cbn [andb VariableMonitor.is_running VariableMonitor.root
         VariableMonitor.schedule VariableMonitor.after_queue];
    rewrite <- ?app_assoc, ?app_nil_r; auto.
Qed.
End FrameFacts.

(* ================================================================== *)
(** * Labels: [str], [isdigit], [int] and [sorted] *)

Module PyStrFacts.
Import DecimalString DecimalZ DecimalPos DecimalFacts.
Import PyStr.
Open Scope string_scope.
Open Scope list_scope.
Open Scope Z_scope.

Lemma all_digits_uint d : all_digits (NilEmpty.string_of_uint d) = true.
Proof. induction d; simpl; auto. Qed.

Lemma string_of_uint_nonempty d : NilZero.string_of_uint d <> "".
Proof. destruct d; discriminate. Qed.

Lemma isdigit_uint d : isdigit (NilZero.string_of_uint d) = true.
Proof.
  destruct d; try reflexivity;
    unfold NilZero.string_of_uint; cbn [NilEmpty.string_of_uint isdigit all_digits];
    rewrite all_digits_uint; reflexivity.
Qed.

Lemma uint_of_string_of_uint d :
  d <> Decimal.Nil ->
  NilEmpty.uint_of_string (NilZero.string_of_uint d) = Some d.
Proof.
  intros Hd. pose proof (NilZero.usu d Hd) as Hu.
  unfold NilZero.uint_of_string in Hu.
  destruct (NilZero.string_of_uint d) eqn:Hs; [|exact Hu].
  now apply string_of_uint_nonempty in Hs.
Qed.

Lemma digits_of_nonnil z : digits_of z <> Decimal.Nil.
Proof.
  destruct z; simpl; try discriminate; apply Unsigned.to_uint_nonnil.
Qed.

Lemma of_uint_digits_of z : 0 <= z -> Z.of_uint (digits_of z) = z.
Proof.
  intros Hz. pose proof (DecimalZ.of_to z) as H.
  destruct z; try reflexivity; [exact H | lia].
Qed.

Section Limit.
Variable int_max_str_digits : Z.

Lemma str_int_Ok z label :
  str_int int_max_str_digits z = Ok label ->
  label = NilZero.string_of_int (Z.to_int z) /\
  over_limit int_max_str_digits
    (String.length (NilZero.string_of_uint (digits_of z))) = false.
Proof.
  unfold str_int.
  assert (Hd : match Z.to_int z with
               | Decimal.Pos d | Decimal.Neg d => NilZero.string_of_uint d
               end = NilZero.string_of_uint (digits_of z))
    by (destruct z; reflexivity).
  rewrite Hd.
  destruct (over_limit _ _); [discriminate|]. now intros [= <-].
Qed.

Lemma str_int_nonneg z label :
  0 <= z -> str_int int_max_str_digits z = Ok label ->
  label = NilZero.string_of_uint (digits_of z).
Proof.
  intros Hz Hs. apply str_int_Ok in Hs as [-> _].
  destruct z; try reflexivity. lia.
Qed.

(** [int(str(z)) == z] for the labels of identities that are not
    negative, and these labels are what [isdigit] accepts. *)
Lemma label_round_trip z label :
  0 <= z -> str_int int_max_str_digits z = Ok label ->
  isdigit label = true /\ int_of_digits int_max_str_digits label = Ok z.
Proof.
  intros Hz Hs. pose proof (str_int_nonneg z label Hz Hs) as ->.
  apply str_int_Ok in Hs as [_ Hlim].
  split; [apply isdigit_uint|].
  unfold int_of_digits. rewrite Hlim.
  rewrite uint_of_string_of_uint by apply digits_of_nonnil.
  now rewrite of_uint_digits_of.
Qed.

Lemma label_negative z label :
  z < 0 -> str_int int_max_str_digits z = Ok label ->
  isdigit label = false /\ label <> "Game Metrics".
Proof.
  intros Hz Hs. apply str_int_Ok in Hs as [-> _].
  destruct z; try lia. split; [reflexivity | discriminate].
Qed.

Lemma to_int_parses z :
  NilZero.int_of_string (NilZero.string_of_int (Z.to_int z)) = Some (Z.to_int z).
Proof.
  apply NilZero.isi; destruct z; simpl; try discriminate;
    intros [= H]; now apply Unsigned.to_uint_nonnil in H.
Qed.

Lemma str_int_inj a b label :
  str_int int_max_str_digits a = Ok label ->
  str_int int_max_str_digits b = Ok label ->
  a = b.
Proof.
  intros Ha Hb. apply str_int_Ok in Ha as [-> _]. apply str_int_Ok in Hb as [Hb _].
  apply DecimalZ.to_int_inj.
  pose proof (to_int_parses a) as Pa. pose proof (to_int_parses b) as Pb.
  rewrite Hb in Pa. congruence.
Qed.

Lemma str_int_not_metrics z label :
  str_int int_max_str_digits z = Ok label -> label <> "Game Metrics".
Proof.
  intros Hs ->. apply str_int_Ok in Hs as [Hs _].
  pose proof (to_int_parses z) as P. rewrite <- Hs in P. discriminate.
Qed.
End Limit.

Lemma map_result_Ok {A B : Type} (f : A -> result B) (l : list A) (bs : list B) :
  map_result f l = Ok bs -> Forall2 (fun a b => f a = Ok b) l bs.
Proof.
  revert bs. induction l as [|a l IH]; intros bs; simpl.
  - intros [= <-]. constructor.
  - destruct (f a) as [b|] eqn:Hb; simpl; [|discriminate].
    destruct (map_result f l) as [bs'|]; simpl; [|discriminate].
    intros [= <-]. constructor; auto.
Qed.

Lemma In_insert z x l : In x (insert z l) <-> x = z \/ In x l.
Proof.
  induction l as [|y l IH]; simpl; [intuition|].
  destruct (z <=? y); simpl; [intuition|]. rewrite IH. intuition.
Qed.

Lemma In_sorted x l : In x (sorted l) <-> In x l.
Proof.
  induction l as [|y l IH]; simpl; [tauto|].
  rewrite In_insert, IH. intuition.
Qed.

Lemma insert_sorted z l :
  StronglySorted Z.le l -> StronglySorted Z.le (insert z l).
Proof.
  induction 1 as [|y l Hs IH Hall]; simpl.
  - repeat constructor.
  - destruct (z <=? y) eqn:Hzy.
    + apply Z.leb_le in Hzy. constructor; [constructor; auto|].
      constructor; auto. rewrite Forall_forall in *. intros x Hx.
      specialize (Hall x Hx). lia.
    + apply Z.leb_gt in Hzy. constructor; auto.
      rewrite Forall_forall in *. intros x Hx.
      apply In_insert in Hx as [->|Hx]; [lia | auto].
Qed.

Lemma sorted_sorted l : StronglySorted Z.le (sorted l).
Proof. induction l; simpl; [constructor | now apply insert_sorted]. Qed.

Lemma insert_perm z l : Permutation (insert z l) (z :: l).
Proof.
  induction l as [|y l IH]; simpl; auto.
  destruct (z <=? y); auto.
  rewrite IH. apply perm_swap.
Qed.

Lemma sorted_perm l : Permutation (sorted l) l.
Proof.
  induction l as [|y l IH]; simpl; auto.
  rewrite insert_perm. now constructor.
Qed.

(** Two sorted lists with the same elements are the same list. *)
Lemma sorted_unique l l' :
  StronglySorted Z.le l -> StronglySorted Z.le l' ->
  Permutation l l' -> l = l'.
Proof.
  intros Hl. revert l'. induction Hl as [|a l Hs IH Ha]; intros l' Hl' Hp.
  - now apply Permutation_nil in Hp.
  - destruct Hl' as [|b l' Hs' Hb].
    + symmetry in Hp. now apply Permutation_nil in Hp.
    + rewrite Forall_forall in Ha, Hb.
      assert (a = b).
      { assert (Hina : In a (b :: l'))
          by (eapply Permutation_in; [exact Hp | now left]).
        assert (Hinb : In b (a :: l))
          by (eapply Permutation_in; [symmetry; exact Hp | now left]).
        destruct Hina as [->|Hina]; auto.
        destruct Hinb as [->|Hinb]; auto.
        specialize (Ha _ Hinb). specialize (Hb _ Hina). lia. }
      subst b. f_equal. apply IH; auto.
      eapply Permutation_cons_inv; eauto.
Qed.

Lemma sorted_permutation l l' : Permutation l l' -> sorted l = sorted l'.
Proof.
  intros Hp. apply sorted_unique; auto using sorted_sorted.
  rewrite !sorted_perm. exact Hp.
Qed.

Lemma list_eqb_spec a b : list_eqb a b = true <-> a = b.
Proof.
  revert b. induction a as [|x a IH]; intros [|y b]; simpl;
    try (split; [discriminate | discriminate]); [tauto|].
  rewrite andb_true_iff, String.eqb_eq, IH.
  split; [intros [-> ->]; reflexivity | intros [= -> ->]; auto].
Qed.

Lemma mem_spec x l : mem x l = true <-> In x l.
Proof.
  unfold mem. rewrite existsb_exists. split.
  - intros (y & Hy & Heq). apply String.eqb_eq in Heq. now subst.
  - intros Hin. exists x. split; auto. apply String.eqb_refl.
Qed.
End PyStrFacts.

(* ================================================================== *)
(** * The monitor on the Tk thread *)

Module MonitorGuiFacts.
Import PyVal PyDict PyDictFacts PyStr PyStrFacts MonitorGui State.
Open Scope string_scope.
Open Scope list_scope.
Open Scope Z_scope.

Section Gui.
Variable int_max_str_digits : Z.

Lemma on_select_label g label z :
  entity_var g = Some label ->
  str_int int_max_str_digits z = Ok label ->
  on_entity_select int_max_str_digits g =
    Ok (if select_callback g
        then Some (if 0 <=? z then Some z else None)
        else None).
Proof.
  intros Hv Hs. unfold on_entity_select, current_selection. rewrite Hv.
  destruct (0 <=? z) eqn:Hz.
  - apply Z.leb_le in Hz.
    destruct (label_round_trip _ z label Hz Hs) as [-> ->]. reflexivity.
  - apply Z.leb_gt in Hz.
    destruct (label_negative _ z label Hz Hs) as [-> Hne].
    apply String.eqb_neq in Hne. rewrite Hne. reflexivity.
Qed.

Lemma on_select_metrics g :
  current_selection g = "Game Metrics" ->
  on_entity_select int_max_str_digits g =
    Ok (if select_callback g then Some None else None).
Proof. intros Hv. unfold on_entity_select. rewrite Hv. reflexivity. Qed.

Lemma set_entity_var_metrics g :
  set_entity_var int_max_str_digits g "Game Metrics" =
    ({| entity_var := Some "Game Metrics";
        entity_menu := entity_menu g;
        entity_ids := entity_ids g;
        select_callback := select_callback g;
        content_frame := content_frame g;
        variable_labels := variable_labels g |},
     if select_callback g then Some None else None).
Proof. unfold set_entity_var. now rewrite on_select_metrics. Qed.

(** What [_apply_entity_list_update] does when it returns. *)
Lemma apply_Ok g ids g' call :
  entity_menu g = true ->
  apply_entity_list_update int_max_str_digits g ids = Ok (g', call) ->
  exists labels,
    Forall2 (fun z label => str_int int_max_str_digits z = Ok label)
            (sorted ids) labels /\
    if list_eqb ("Game Metrics" :: labels) (entity_ids g)
    then g' = g /\ call = None
    else
      entity_ids g' = "Game Metrics" :: labels /\
      entity_menu g' = true /\
      select_callback g' = select_callback g /\
      match entity_var g with
      | None => entity_var g' = None /\ call = None
      | Some current =>
          if mem current ("Game Metrics" :: labels)
          then entity_var g' = Some current /\ call = None
          else entity_var g' = Some "Game Metrics" /\
               call = (if select_callback g then Some None else None)
      end.
Proof.
  intros Hmenu. unfold apply_entity_list_update. rewrite Hmenu. cbn [negb].
  destruct (map_result _ _) as [labels|] eqn:Hl; cbn [bind]; [|discriminate].
  intros Ha. exists labels. split; [now apply map_result_Ok|].
  destruct (list_eqb _ _); [now injection Ha as <- <-|].
  cbn [set_entity_ids entity_var entity_ids current_selection] in Ha.
  destruct (entity_var g) as [current|] eqn:Hv.
  - assert (Hcur : current_selection (set_entity_ids g ("Game Metrics" :: labels))
                   = current).
    { unfold current_selection. cbn [set_entity_ids entity_var]. now rewrite Hv. }
    rewrite Hcur in Ha.
    destruct (mem current ("Game Metrics" :: labels)).
    + injection Ha as <- <-.
      cbn [set_entity_ids entity_var entity_ids entity_menu select_callback].
      auto.
    + cbn [hd] in Ha. rewrite set_entity_var_metrics in Ha.
      injection Ha as <- <-.
      cbn [set_entity_ids entity_var entity_ids entity_menu select_callback].
      auto.
  - injection Ha as <- <-.
    cbn [set_entity_ids entity_var entity_ids entity_menu select_callback].
    auto.
Qed.

Lemma label_not_in ids labels z label :
  Forall2 (fun z label => str_int int_max_str_digits z = Ok label) ids labels ->
  str_int int_max_str_digits z = Ok label ->
  ~ In z ids -> ~ In label labels.
Proof.
  induction 1 as [|a b ids labels Hab Hall IH]; simpl; [tauto|].
  intros Hs Hout [<-|Hin].
  - apply Hout. left. eapply str_int_inj; eauto.
  - apply IH; auto.
Qed.

(** A selected identity that the new list does not have. *)
Lemma apply_stale g ids g' call z label :
  entity_menu g = true ->
  entity_var g = Some label ->
  str_int int_max_str_digits z = Ok label ->
  In label (entity_ids g) ->
  ~ In z ids ->
  apply_entity_list_update int_max_str_digits g ids = Ok (g', call) ->
  entity_var g' = Some "Game Metrics" /\
  call = (if select_callback g then Some None else None) /\
  ~ In label (entity_ids g').
Proof.
  intros Hmenu Hv Hs Hin Hout Ha.
  destruct (apply_Ok _ _ _ _ Hmenu Ha) as (labels & Hl & Hcase).
  assert (Hnot : ~ In label ("Game Metrics" :: labels)).
  { intros [Heq|Hin'].
    - symmetry in Heq. revert Heq. eapply str_int_not_metrics; eauto.
    - revert Hin'. eapply label_not_in; eauto.
      now rewrite In_sorted. }
  destruct (list_eqb _ _) eqn:Heq.
  - apply list_eqb_spec in Heq. rewrite <- Heq in Hin. contradiction.
  - destruct Hcase as (Hids & _ & _ & Hcase). rewrite Hv in Hcase.
    destruct (mem label _) eqn:Hmem.
    + apply mem_spec in Hmem. contradiction.
    + destruct Hcase as [-> ->]. rewrite Hids. auto.
Qed.

Lemma selection_valid_apply g ids g' call :
  selection_valid g ->
  apply_entity_list_update int_max_str_digits g ids = Ok (g', call) ->
  selection_valid g'.
Proof.
  intros Hvalid Ha. destruct (entity_menu g) eqn:Hmenu.
  2:{ unfold apply_entity_list_update in Ha. rewrite Hmenu in Ha.
      now injection Ha as <- _. }
  destruct (apply_Ok _ _ _ _ Hmenu Ha) as (labels & _ & Hcase).
  destruct (list_eqb _ _); [now destruct Hcase as [-> _]|].
  destruct Hcase as (Hids & _ & _ & Hcase).
  unfold selection_valid, current_selection in *. rewrite Hids.
  destruct (entity_var g) as [current|].
  - destruct (mem current _) eqn:Hmem; destruct Hcase as [-> _].
    + now apply mem_spec.
    + now left.
  - destruct Hcase as [-> _]. now left.
Qed.
End Gui.

Lemma apply_returns int_max_str_digits g ids labels :
  map_result (str_int int_max_str_digits) (sorted ids) = Ok labels ->
  exists g' call,
    apply_entity_list_update int_max_str_digits g ids = Ok (g', call).
Proof.
  intros Hl. unfold apply_entity_list_update.
  destruct (entity_menu g); cbn [negb]; [|eauto].
  rewrite Hl. cbn [bind]. destruct (list_eqb _ _); [eauto|].
  destruct (entity_var _); [|eauto]. destruct (mem _ _); [eauto|].
  destruct (set_entity_var _ _ _); eauto.
Qed.

Lemma setitem_fresh {K V : Type} `{EqKey K} (d : dict K V) (k : K) (v : V) :
  ~ In k (keys d) -> setitem d k v = d ++ [(k, v)].
Proof.
  induction d as [|[k0 v0] d IH]; simpl; auto.
  intros Hout. rewrite keqb_neq by (intros ->; tauto). f_equal. apply IH. tauto.
Qed.

(** The loop over items whose texts can all be made. *)
Lemma populate_items_app int_max_str_digits float_str
    (shown rest : list (string * pyval)) (texts : list string)
    (acc : dict string string) :
  NoDup (keys acc ++ keys shown) ->
  map_result (py_str int_max_str_digits float_str) (map snd shown)
    = Ok texts ->
  populate_items int_max_str_digits float_str acc (shown ++ rest)
  = populate_items int_max_str_digits float_str
      (acc ++ combine (keys shown) texts) rest.
Proof.
  revert acc texts.
  induction shown as [|[k v] shown IH]; intros acc texts Hnd Ht.
  - cbn [map map_result] in Ht. injection Ht as <-.
    cbn [app keys map combine]. now rewrite app_nil_r.
  - cbn [map map_result snd] in Ht.
    destruct (py_str int_max_str_digits float_str v) as [text|] eqn:Hv;
      cbn [bind] in Ht; [|discriminate].
    destruct (map_result _ (map snd shown)) as [more|] eqn:Hm;
      cbn [bind] in Ht; [|discriminate].
    injection Ht as <-.
    cbn [app populate_items]. rewrite Hv.
    assert (Hout : ~ In k (keys acc)).
    { cbn [keys map fst] in Hnd. apply NoDup_remove_2 in Hnd. intros Hin.
      apply Hnd. apply in_or_app. now left. }
    rewrite setitem_fresh by exact Hout.
    rewrite (IH (acc ++ [(k, text)]) more).
    + cbn [keys map fst combine]. now rewrite <- app_assoc.
    + unfold keys in *. rewrite map_app, <- app_assoc. exact Hnd.
    + reflexivity.
Qed.

Lemma populate_variables_keeps int_max_str_digits float_str g data :
  entity_var (fst (populate_variables int_max_str_digits float_str g data))
    = entity_var g /\
  entity_ids (fst (populate_variables int_max_str_digits float_str g data))
    = entity_ids g.
Proof.
  unfold populate_variables. destruct (content_frame g); [|auto].
  destruct (populate_items _ _ _ _). auto.
Qed.

End MonitorGuiFacts.

(* ================================================================== *)
(** * Further properties of the entity store *)

Section MoreStoreProperties.
Import PyVal PyDict PyDictFacts State StateSpec StateFacts StoreShape FrameSpec StoreFacts.
Open Scope string_scope.
Open Scope list_scope.
Open Scope Z_scope.

(** X1: whatever calls were made, every entity in the store has the
    five keys of the template, "x" and "y" among them. *)
Theorem live_entities_keep_template_keys
    (ops : list op) (entity_id : Z) (E : EntityData) (k : string) :
  get (entities (fst (run initial ops))) entity_id = Some E ->
  In k template_keys ->
  contains E k = true.
Proof.
  intros HE Hk. apply contains_true_iff.
  eapply (has_template_run initial ops store_inv_initial); eauto.
  intros i E' k'. discriminate.
Qed.

(** X2: [get_entity_ids] lists the live identities in strictly
    increasing order, the order of creation. *)
Theorem entity_ids_increasing (ops : list op) :
  StronglySorted Z.lt (get_entity_ids (fst (run initial ops))).
Proof.
  apply (ids_sorted_run initial ops store_inv_initial). constructor.
Qed.

(** X3: [n] creations on a fresh store return 1, ..., n, whatever the
    attributes; the store then lists exactly these identities and
    counts [n] entities. *)
Theorem creations_count_from_one (l : list EntityData) :
  let s := fst (run initial (map Add l)) in
  let ids := map Z.of_nat (seq 1 (List.length l)) in
  snd (run initial (map Add l)) = ids /\
  get_entity_ids s = ids /\
  len (entities s) = Z.of_nat (List.length l).
Proof.
  cbv zeta.
  destruct (run_adds initial l store_inv_initial) as (Hids & Hkeys & _).
  assert (Hseq : map (fun n => _next_entity_id initial + Z.of_nat n)
                     (seq 0 (List.length l))
                 = map Z.of_nat (seq 1 (List.length l))).
  { rewrite <- seq_shift, map_map. apply map_ext. intros n.
    cbn [_next_entity_id initial]. lia. }
  rewrite Hseq in *. cbn [get_entity_ids initial entities empty keys map app] in Hkeys.
  split; [exact Hids|]. split; [exact Hkeys|].
  unfold len. rewrite <- (length_map fst). fold (keys (entities (fst (run initial (map Add l))))).
  unfold get_entity_ids in Hkeys. rewrite Hkeys.
  now rewrite length_map, length_seq.
Qed.

(** X4: [update_entity] on one identity leaves every other entity, the
    list of identities and the counter as they were. *)
Theorem update_entity_touches_one
    (s : GameState) (entity_id other : Z) (u : EntityData) :
  other <> entity_id ->
  get_entity_data (update_entity s entity_id u) other = get_entity_data s other /\
  get_entity_ids (update_entity s entity_id u) = get_entity_ids s /\
  _next_entity_id (update_entity s entity_id u) = _next_entity_id s.
Proof.
  intros Hne. unfold get_entity_data, get_entity_ids, update_entity.
  destruct (get (entities s) entity_id) as [data|] eqn:Hg; auto.
  simpl. rewrite get_setitem_other by congruence.
  rewrite keys_setitem. unfold contains. rewrite Hg. auto.
Qed.

(** X5: after [update_entity(id, u)] on a live [id], every key of [u]
    reads the value [u] gives it. *)
Theorem update_entity_writes
    (s : GameState) (entity_id : Z) (E u : EntityData) (k : string) (v : pyval) :
  get (entities s) entity_id = Some E ->
  wf u ->
  get u k = Some v ->
  get (get_entity_data (update_entity s entity_id u) entity_id) k = Some v.
Proof.
  intros HE Hwf Hk. unfold get_entity_data, update_entity. rewrite HE. simpl.
  rewrite get_setitem_same, get_update by assumption. now rewrite Hk.
Qed.

(** X6: [update_entity] keeps the keys an entity has in the order
    they are in, and puts the keys that are new after them, in the
    order of the update. *)
Theorem update_entity_key_order
    (s : GameState) (entity_id : Z) (E u : EntityData) :
  get (entities s) entity_id = Some E ->
  wf u ->
  keys (get_entity_data (update_entity s entity_id u) entity_id) =
    keys E ++ filter (fun k => negb (contains E k)) (keys u).
Proof.
  intros HE Hwf. unfold get_entity_data, update_entity. rewrite HE. simpl.
  rewrite get_setitem_same. now apply keys_update.
Qed.

(** X7: a created entity has the template's keys first, in the
    template's order, then the caller's other keys in the caller's
    order. *)
Theorem add_entity_key_order (s : GameState) (a : EntityData) :
  wf a ->
  keys (get_entity_data (fst (add_entity s a)) (snd (add_entity s a))) =
    template_keys ++
    filter (fun k => negb (existsb (String.eqb k) template_keys)) (keys a).
Proof.
  intros Hwf. unfold get_entity_data, add_entity. cbn [fst snd entities].
  rewrite get_setitem_same, keys_update by assumption.
  f_equal. apply filter_ext. intros k. f_equal.
  unfold contains, template, template_keys. cbn [get existsb keqb EqKey_string].
  destruct (k =? "id")%string; [reflexivity|].
  destruct (k =? "x")%string; [reflexivity|].
  destruct (k =? "y")%string; [reflexivity|].
  destruct (k =? "status")%string; [reflexivity|].
  destruct (k =? "brain_active")%string; reflexivity.
Qed.

(** X8: the same update made twice is the update made once. *)
Theorem update_entity_idempotent
    (s : GameState) (entity_id : Z) (u : EntityData) :
  wf u ->
  update_entity (update_entity s entity_id u) entity_id u
  = update_entity s entity_id u.
Proof.
  intros Hwf. unfold update_entity.
  destruct (get (entities s) entity_id) as [data|] eqn:Hg.
  - cbn [entities _next_entity_id]. rewrite get_setitem_same.
    rewrite update_idempotent by assumption.
    f_equal. apply setitem_same. apply get_setitem_same.
  - now rewrite Hg.
Qed.

(** X9: in a store reached from the initial one, [add_entity] puts
    the new identity last in [get_entity_ids] and leaves every other
    entity as it was. *)
Theorem add_entity_appends (ops : list op) (a : EntityData) :
  let s := fst (run initial ops) in
  let s' := fst (add_entity s a) in
  get_entity_ids s' = get_entity_ids s ++ [snd (add_entity s a)] /\
  forall other,
    other <> snd (add_entity s a) ->
    get_entity_data s' other = get_entity_data s other.
Proof.
  cbv zeta. pose proof (store_inv_run initial ops store_inv_initial) as Hinv.
  unfold add_entity, get_entity_ids, get_entity_data. cbn [fst snd entities].
  split.
  - now rewrite keys_setitem, fresh_not_contained.
  - intros other Hne. rewrite get_setitem_other by congruence. reflexivity.
Qed.

End MoreStoreProperties.

(* ================================================================== *)
(** * Further properties of the grid *)

Section MoreGridProperties.
Import PyFloat PyFloatSpec PyFloatFacts PyVal Grid GridFacts GridDraw GridDrawFacts.
Open Scope list_scope.
Open Scope Z_scope.

(** X10: with a positive integer cell size, the rectangle [Grid.draw]
    draws for cell [(col, row)] is exactly the set of integer pixels
    that [screen_to_grid] sends to [(col, row)], negative pixels
    included. *)
Theorem drawn_cell_is_preimage
    (color : Type) (c1 c2 : color) (c row col x y : Z) :
  0 < c ->
  draw_cell color c1 c2 (NInt c) row col = Ok (square color c1 c2 c row col) /\
  (screen_to_grid (NInt c) (VInt x) (VInt y) = Ok (col, row) <->
   col * c <= x < col * c + c /\ row * c <= y < row * c + c).
Proof.
  intros Hc. split; [reflexivity|].
  rewrite screen_to_grid_ints by lia. split.
  - intros [= Hx Hy]. apply div_eq_iff in Hx, Hy; auto.
  - intros [Hx Hy]. apply div_eq_iff in Hx, Hy; auto. now rewrite Hx, Hy.
Qed.

(** X11: for a float position that is a whole number of half pixels
    [kx / 2], [ky / 2] inside the exact range, and a positive integer
    cell size, [screen_to_grid] returns the cell that contains it:
    the floor of the quotient, also left of and above the origin. *)
Theorem screen_to_grid_floors_half_pixels (c kx ky col row : Z) :
  0 < c < 2 ^ 53 ->
  - 2 ^ 52 <= kx < 2 ^ 53 -> - 2 ^ 52 <= ky < 2 ^ 53 ->
  (screen_to_grid (NInt c) (VFloat (halves kx)) (VFloat (halves ky))
   = Ok (col, row)
   <-> 2 * c * col <= kx < 2 * c * (col + 1) /\
       2 * c * row <= ky < 2 * c * (row + 1)).
Proof.
  intros Hc Hx Hy. rewrite screen_to_grid_halves by lia. split.
  - intros Heq.
    assert (Ex : kx / (2 * c) = col) by congruence.
    assert (Ey : ky / (2 * c) = row) by congruence.
    apply div_eq_iff in Ex; [|lia]. apply div_eq_iff in Ey; [|lia].
    split; nia.
  - intros [Ex Ey].
    assert (kx / (2 * c) = col) by (apply div_eq_iff; [lia | nia]).
    assert (ky / (2 * c) = row) by (apply div_eq_iff; [lia | nia]).
    congruence.
Qed.

(** X12: with a cell size of 0, [screen_to_grid] raises
    ZeroDivisionError on every number, and TypeError when the first
    coordinate is no number. *)
Theorem screen_to_grid_zero_cell (x y : pyval) :
  screen_to_grid (NInt 0) x y =
    Raise match as_num x with
          | Ok _ => ZeroDivisionError
          | Raise e => e
          end.
Proof.
  unfold screen_to_grid, py_floordiv_num.
  destruct (as_num x) as [[z|f]|e]; cbn [bind]; reflexivity.
Qed.

(** X13: the round trip through the centre also holds for cells left
    of or above the origin: for a positive integer cell size and any
    integer indices with [(2 * index + 1) * cell_size] between
    [-2^52] and [2^53]. *)
Theorem grid_round_trip_any_sign (c col row : Z) :
  0 < c ->
  - 2 ^ 52 <= (2 * col + 1) * c < 2 ^ 53 ->
  - 2 ^ 52 <= (2 * row + 1) * c < 2 ^ 53 ->
  exists center_x center_y,
    grid_to_screen_center (NInt c) col row = Ok (center_x, center_y) /\
    center_x = NFloat (halves ((2 * col + 1) * c)) /\
    center_y = NFloat (halves ((2 * row + 1) * c)) /\
    screen_to_grid (NInt c) (of_num center_x) (of_num center_y)
    = Ok (col, row).
Proof.
  intros Hc Hbc Hbr. pose proof pow53_split as H53.
  assert (0 < 2 ^ 52) by reflexivity.
  exists (NFloat (halves ((2 * col + 1) * c))),
         (NFloat (halves ((2 * row + 1) * c))).
  unfold grid_to_screen_center.
  rewrite !cell_center_halves_any by assumption. cbn [bind of_num].
  split; [reflexivity|]. split; [reflexivity|]. split; [reflexivity|].
  assert (c < 2 ^ 53) by (destruct (Z_le_gt_dec 0 col); nia).
  rewrite screen_to_grid_halves by lia.
  now rewrite !center_div.
Qed.

(** X14: with an integer cell size, [Grid.draw] draws one rectangle
    per cell, row by row: [width * height] of them, the one at
    position [row * width + col] being the square of side
    [cell_size] at [(col * cell_size, row * cell_size)]. *)
Theorem draw_covers_grid
    (color : Type) (c1 c2 : color) (width height c : Z) :
  exists calls,
    draw color c1 c2 width height (NInt c) = Ok calls /\
    List.length calls = (Z.to_nat height * Z.to_nat width)%nat /\
    forall row col,
      0 <= row < height -> 0 <= col < width ->
      nth_error calls (Z.to_nat (row * width + col)) =
        Some (square color c1 c2 c row col).
Proof.
  eexists. unfold draw. rewrite draw_rows_int. split; [reflexivity|].
  assert (Hlen : forall row : Z,
    List.length (map (square color c1 c2 c row) (range width))
    = Z.to_nat width).
  { intros row. now rewrite length_map, length_range. }
  split.
  - rewrite (length_flat_map_uniform _ (Z.to_nat width)) by exact Hlen.
    now rewrite length_range.
  - intros row col Hrow Hcol.
    replace (Z.to_nat (row * width + col))
      with (Z.to_nat row * Z.to_nat width + Z.to_nat col)%nat by nia.
    rewrite (nth_error_flat_map _ (Z.to_nat width) _ _ _ row Hlen)
      by (try apply nth_error_range; lia).
    rewrite nth_error_map, nth_error_range by lia. reflexivity.
Qed.

(** X15: the colours form a checkerboard: the cell to the right of a
    cell and the cell below it have the other colour. *)
Theorem checkerboard_alternates
    (color : Type) (c1 c2 : color) (row col : Z) :
  let colour := cell_color color c1 c2 in
  (colour row col = c1 /\ colour row (col + 1) = c2 /\
   colour (row + 1) col = c2) \/
  (colour row col = c2 /\ colour row (col + 1) = c1 /\
   colour (row + 1) col = c1).
Proof.
  cbv zeta. unfold cell_color.
  replace (row + 1 + col) with (row + (col + 1)) by ring.
  destruct ((row + col) mod 2 =? 0) eqn:H0;
    destruct ((row + (col + 1)) mod 2 =? 0) eqn:H1.
  - exfalso. apply Z.eqb_eq in H0, H1. Z.div_mod_to_equations. lia.
  - left. repeat split.
  - right. repeat split.
  - exfalso. apply Z.eqb_neq in H0, H1. Z.div_mod_to_equations. lia.
Qed.

End MoreGridProperties.

(* ================================================================== *)
(** * Further properties of the frame *)

Section MoreFrameProperties.
Import PyFloat PyFloatSpec PyFloatFacts PyVal PyDict PyDictFacts State.
Import StateSpec StateFacts PygameRenderer RendererSpec RendererFacts.
Import StoreShape FrameSpec StoreFacts FrameFacts.
Open Scope string_scope.
Open Scope list_scope.
Open Scope Z_scope.

(** X16: a successful [update] applies the movement rule once to
    every entity, in place: the store lists the same identities in the
    same order, each entity is its old self updated with the new "x",
    its own "y" and the grid indices of that position; the identity
    counter, the selection and the running flag are untouched and the
    frame counter has advanced by one. *)
Theorem update_moves_every_entity
    (config : Config) (fps : float) (r r' : t) :
  wf (entities (state r)) ->
  update config fps r = Ok r' ->
  all_moved config (state r) (state r') /\
  frame_count r' = frame_count r + 1 /\
  selected_entity_id r' = selected_entity_id r /\
  is_running r' = is_running r.
Proof.
  intros Hwf Hu. split; [eapply update_all_moved; eauto|].
  apply update_Ok in Hu as (st & _ & _ & Hf & Hs & Hr & _). auto.
Qed.

(** X17: a successful [update] changes no attribute of any entity
    other than "x", "grid_col" and "grid_row" -- "y" included -- and
    neither adds nor removes an entity. *)
Theorem movement_keeps_other_attributes
    (config : Config) (fps : float) (r r' : t)
    (entity_id : Z) (E : EntityData) :
  wf (entities (state r)) ->
  update config fps r = Ok r' ->
  get (entities (state r)) entity_id = Some E ->
  get_entity_ids (state r') = get_entity_ids (state r) /\
  exists E',
    get (entities (state r')) entity_id = Some E' /\
    forall k,
      k <> "x" -> k <> "grid_col" -> k <> "grid_row" ->
      get E' k = get E k.
Proof.
  intros Hwf Hu HE.
  pose proof (update_all_moved _ _ _ _ Hwf Hu) as Hall.
  split; [exact (all_moved_keys config _ _ Hall)|].
  destruct (all_moved_lookup_old _ _ _ _ _ Hall HE) as (E' & HE' & Hm).
  exists E'. split; [exact HE'|].
  intros k. exact (moved_get config E E' k Hm).
Qed.

(** X18: after a successful [update], the "grid_col" and "grid_row"
    of every entity are the cell [screen_to_grid] gives for the "x"
    and "y" the entity now has. *)
Theorem grid_index_matches_position
    (config : Config) (fps : float) (r r' : t)
    (entity_id : Z) (E' : EntityData) :
  wf (entities (state r)) ->
  update config fps r = Ok r' ->
  get (entities (state r')) entity_id = Some E' ->
  exists x y grid_col grid_row,
    get E' "x" = Some x /\ get E' "y" = Some y /\
    get E' "grid_col" = Some (VInt grid_col) /\
    get E' "grid_row" = Some (VInt grid_row) /\
    Grid.screen_to_grid (CELL_SIZE config) x y = Ok (grid_col, grid_row).
Proof.
  intros Hwf Hu HE'.
  pose proof (update_all_moved _ _ _ _ Hwf Hu) as Hall.
  destruct (all_moved_lookup _ _ _ _ _ Hall HE') as (E & _ & Hm).
  eapply moved_grid; eauto.
Qed.

(** X19: with whole-pixel sizes in the configuration, an entity whose
    "x" is [k / 2] pixels -- stored as a float or as an integer --
    moves without rounding: a successful [update] leaves it at
    [(k + 3) / 2] when it was left of [GAME_SCREEN_WIDTH - CELL_SIZE],
    and at 1.5 otherwise, as a float. *)
Theorem movement_is_exact
    (cell_size screen_width : Z) (fps : float) (r r' : t)
    (entity_id : Z) (E : EntityData) (x : pyval) (k : Z) :
  0 < cell_size < 2 ^ 40 ->
  - 2 ^ 40 < screen_width < 2 ^ 40 ->
  wf (entities (state r)) ->
  update (pixel_config cell_size screen_width) fps r = Ok r' ->
  get (entities (state r)) entity_id = Some E ->
  get E "x" = Some x -> at_half_pixels x k -> Z.abs k <= 2 ^ 51 ->
  get (get_entity_data (state r') entity_id) "x" =
    Some (VFloat (halves (if k <? 2 * (screen_width - cell_size)
                          then k + 3 else 3))).
Proof.
  intros Hc Hw Hwf Hu HE Hx Hat Hk.
  pose proof (update_all_moved _ _ _ _ Hwf Hu) as Hall.
  destruct (all_moved_lookup_old _ _ _ _ _ Hall HE) as (E' & HE' & Hm).
  unfold get_entity_data. rewrite HE'.
  eapply moved_exact; eauto.
Qed.

(** X20: on a publishing frame with an entity selected that is in the
    store, [update] hands the monitor that entity's dictionary as the
    movement of this very frame left it. *)
Theorem selected_entity_snapshot
    (config : Config) (fps : float) (r r' : t) (m : VariableMonitor.t)
    (entity_id : Z) (E : EntityData) :
  wf (entities (state r)) ->
  selected_entity_id r = Some entity_id ->
  get (entities (state r)) entity_id = Some E ->
  monitor r = Some m -> monitor_up m ->
  (frame_count r + 1) mod 15 = 0 ->
  update config fps r = Ok r' ->
  exists E' m',
    get (entities (state r')) entity_id = Some E' /\
    moved config E E' /\
    monitor r' = Some m' /\
    VariableMonitor.snapshots (VariableMonitor.after_queue m') =
      VariableMonitor.snapshots (VariableMonitor.after_queue m) ++ [E'].
Proof.
  intros Hwf Hsel HE Hm Hup H15 Hu.
  pose proof (update_all_moved _ _ _ _ Hwf Hu) as Hall.
  destruct (all_moved_lookup_old _ _ _ _ _ Hall HE) as (E' & HE' & Hmoved).
  destruct (update_publishes _ _ _ _ _ Hu Hm Hup H15) as (m' & Hm' & _ & Hq).
  rewrite Hsel in Hq. unfold get_entity_data in Hq. rewrite HE' in Hq.
  exists E', m'. auto.
Qed.

(** X21: without a monitor, or with one that is not running or has no
    window, a successful [update] schedules nothing: the monitor is
    left as it was. *)
Theorem update_without_listener
    (config : Config) (fps : float) (r r' : t) :
  update config fps r = Ok r' ->
  match monitor r with
  | None => monitor r' = None
  | Some m =>
      VariableMonitor.is_running m && VariableMonitor.root m = false ->
      monitor r' = Some m
  end.
Proof.
  intros Hu. apply update_Ok in Hu as (st & _ & _ & _ & _ & _ & _ & Hmon).
  destruct (monitor r) as [m|]; [|exact Hmon].
  intros Hdown. rewrite Hmon.
  unfold VariableMonitor.update_data, VariableMonitor.update_entity_list.
  rewrite Hdown. destruct (_ =? 0); destruct (_ =? 0); try rewrite Hdown; reflexivity.
Qed.

(** X22: what a successful [update] schedules on a monitor that is
    up: nothing on a frame whose number is no multiple of 15; the data
    of the monitored target on a multiple of 15; and on a multiple of
    60 the list of identities first, then the data. *)
Theorem update_schedule
    (config : Config) (fps : float) (r r' : t) (m : VariableMonitor.t) :
  monitor r = Some m -> monitor_up m ->
  update config fps r = Ok r' ->
  let data :=
    match selected_entity_id r with
    | None => global_metrics r'
    | Some entity_id => get_entity_data (state r') entity_id
    end in
  exists m',
    monitor r' = Some m' /\
    VariableMonitor.after_queue m' =
      VariableMonitor.after_queue m ++
      (if (frame_count r + 1) mod 60 =? 0
       then [VariableMonitor.ApplyEntityListUpdate (get_entity_ids (state r'))]
       else []) ++
      (if (frame_count r + 1) mod 15 =? 0
       then [VariableMonitor.PopulateVariables data]
       else []).
Proof.
  intros Hm Hup Hu. cbv zeta.
  destruct (update_queue _ _ _ _ _ Hm Hup Hu) as (m' & Hm' & _ & _ & Hq).
  exists m'. split; assumption.
Qed.

(** X23: [update] only succeeds when every entity of the store has an
    "x" and a "y" that are numbers; with an entity that lacks one, or
    holds a string or [None] there, it raises. *)
Theorem update_needs_numeric_positions
    (config : Config) (fps : float) (r r' : t)
    (entity_id : Z) (E : EntityData) :
  update config fps r = Ok r' ->
  In (entity_id, E) (entities (state r)) ->
  exists x y a b,
    get E "x" = Some x /\ as_num x = Ok a /\
    get E "y" = Some y /\ as_num y = Ok b.
Proof.
  intros Hu Hin. apply update_Ok in Hu as (st & Hmove & _).
  apply move_entities_numeric in Hmove.
  rewrite Forall_forall in Hmove. apply (Hmove _ Hin).
Qed.

(** X24: a QUIT event does not cut the turn short: the turn that
    receives it still updates and draws, and it is the last one --
    whatever inputs follow are not looked at. *)
Theorem quit_ends_the_loop_after_the_turn
    (config : Config) (parse_int : string -> result Z)
    (e : frame_env) (rest : list frame_env) (r : t) :
  is_running r = true ->
  existsb is_quit (events e) = true ->
  run config parse_int (e :: rest) r = frame config parse_int e r /\
  forall r', frame config parse_int e r = Ok r' -> is_running r' = false.
Proof.
  intros Hrun Hq.
  assert (Hstop : forall r', frame config parse_int e r = Ok r' ->
                             is_running r' = false).
  { intros r' Hf. unfold frame in Hf.
    apply bind_Ok in Hf as (r2 & Hu & Hf).
    apply bind_Ok in Hf as (u & _ & Hf). injection Hf as <-.
    apply update_Ok in Hu as (st & _ & _ & _ & _ & Hr & _).
    rewrite Hr. cbn [handle_events is_running]. now rewrite Hq. }
  split; [|exact Hstop].
  cbn [run]. rewrite Hrun.
  destruct (frame config parse_int e r) as [r'|err] eqn:Hf; [|reflexivity].
  cbn [bind]. specialize (Hstop r' eq_refl).
  destruct rest; cbn [run]; [reflexivity|]. now rewrite Hstop.
Qed.

End MoreFrameProperties.

(* ================================================================== *)
(** * Properties of the monitor on the Tk thread *)

Section MonitorGuiProperties.
Import PyVal PyDict PyDictFacts PyStr PyStrFacts MonitorGui MonitorGuiFacts.
Import State PygameRenderer FrameFacts.
Open Scope string_scope.
Open Scope list_scope.
Open Scope Z_scope.

(** X25: choosing the menu entry made for an identity that is not
    negative calls the callback with that identity; the entry of a
    negative identity begins with a minus sign, is no digit string,
    and calls it with [None], as "Game Metrics" does. *)
Theorem selecting_a_label_reports_its_identity
    (int_max_str_digits : Z) (g : MonitorGui.t) (z : Z) (label : string) :
  select_callback g = true ->
  str_int int_max_str_digits z = Ok label ->
  snd (set_entity_var int_max_str_digits g label)
    = Some (if 0 <=? z then Some z else None) /\
  snd (set_entity_var int_max_str_digits g "Game Metrics") = Some None.
Proof.
  intros Hcb Hs. split.
  - unfold set_entity_var.
    rewrite (on_select_label _ _ label z) by (cbn; auto).
    cbn [select_callback snd]. now rewrite Hcb.
  - rewrite set_entity_var_metrics. cbn [snd]. now rewrite Hcb.
Qed.

(** X26: when the list of identities is refreshed and the selected
    identity is no longer in it, the monitor puts the variable back on
    "Game Metrics" and calls the callback with [None]; the stale entry
    is gone from the menu. *)
Theorem stale_selection_falls_back
    (int_max_str_digits : Z) (g g' : MonitorGui.t) (new_entity_ids : list Z)
    (call : option (option Z)) (z : Z) (label : string) :
  entity_menu g = true ->
  select_callback g = true ->
  entity_var g = Some label ->
  str_int int_max_str_digits z = Ok label ->
  In label (entity_ids g) ->
  ~ In z new_entity_ids ->
  apply_entity_list_update int_max_str_digits g new_entity_ids = Ok (g', call) ->
  entity_var g' = Some "Game Metrics" /\
  call = Some None /\
  ~ In label (entity_ids g').
Proof.
  intros Hmenu Hcb Hv Hs Hin Hout Ha.
  destruct (apply_stale _ _ _ _ _ _ _ Hmenu Hv Hs Hin Hout Ha) as (H1 & H2 & H3).
  rewrite Hcb in H2. auto.
Qed.

(** X27: the variable always holds one of the entries of the menu:
    whatever scheduled call the Tk thread runs, and whether or not it
    raises, a selection that was an entry before is one after. *)
Theorem selection_stays_in_menu
    (int_max_str_digits : Z) (float_str : PyFloat.float -> string)
    (g : MonitorGui.t) (c : VariableMonitor.tk_call) :
  selection_valid g ->
  selection_valid (fst (run_call int_max_str_digits float_str g c)).
Proof.
  intros Hvalid. destruct c as [ids|data]; cbn [run_call].
  - destruct (apply_entity_list_update int_max_str_digits g ids)
      as [[g' call]|e] eqn:Ha; cbn [fst]; auto.
    eapply selection_valid_apply; eauto.
  - cbn [fst].
    destruct (populate_variables_keeps int_max_str_digits float_str g data)
      as [Hv Hi].
    unfold selection_valid, current_selection in *. now rewrite Hv, Hi.
Qed.

(** X28: a refresh with the identities the menu already shows, in any
    order, changes nothing and calls nothing. *)
Theorem unchanged_list_is_ignored
    (int_max_str_digits : Z) (g g1 : MonitorGui.t) (ids ids' : list Z)
    (call : option (option Z)) :
  entity_menu g = true ->
  apply_entity_list_update int_max_str_digits g ids = Ok (g1, call) ->
  Permutation ids ids' ->
  apply_entity_list_update int_max_str_digits g1 ids' = Ok (g1, None).
Proof.
  intros Hmenu Ha Hp.
  assert (Hl : exists labels,
             map_result (str_int int_max_str_digits) (sorted ids) = Ok labels /\
             entity_ids g1 = "Game Metrics" :: labels /\
             entity_menu g1 = true).
  { unfold apply_entity_list_update in Ha. rewrite Hmenu in Ha. cbn [negb] in Ha.
    destruct (map_result _ _) as [labels|] eqn:Hl; cbn [bind] in Ha;
      [|discriminate].
    exists labels. split; [reflexivity|].
    destruct (list_eqb _ _) eqn:Heq.
    - injection Ha as <- _. apply list_eqb_spec in Heq. auto.
    - cbn [set_entity_ids entity_var entity_ids] in Ha.
      destruct (entity_var g); [destruct (mem _ _)|];
        injection Ha as <- _; auto. }
  destruct Hl as (labels & Hl & Hids & Hmenu1).
  unfold apply_entity_list_update. rewrite Hmenu1. cbn [negb].
  rewrite <- (sorted_permutation ids ids' Hp), Hl. cbn [bind].
  rewrite Hids.
  assert (Heq : list_eqb ("Game Metrics" :: labels) ("Game Metrics" :: labels)
                = true) by now apply list_eqb_spec.
  now rewrite Heq.
Qed.

(** X29: the way a stale selection ends.  The selected entity is gone
    from the store; on the next frame whose number is a multiple of
    60, [update] schedules the list of identities, and when the Tk
    thread runs that call the callback puts the renderer's selection
    back on the metrics; the empty snapshot of that frame is still
    waiting in the queue. *)
Theorem stale_selection_recovers_at_refresh
    (config : Config) (fps : PyFloat.float) (int_max_str_digits : Z)
    (float_str : PyFloat.float -> string)
    (r r' : PygameRenderer.t) (m : VariableMonitor.t) (g : MonitorGui.t)
    (entity_id : Z) (label : string) (labels : list string) :
  selected_entity_id r = Some entity_id ->
  get (entities (state r)) entity_id = None ->
  monitor r = Some m -> RendererSpec.monitor_up m ->
  VariableMonitor.after_queue m = [] ->
  (frame_count r + 1) mod 60 = 0 ->
  update config fps r = Ok r' ->
  entity_menu g = true -> select_callback g = true ->
  entity_var g = Some label ->
  str_int int_max_str_digits entity_id = Ok label ->
  In label (entity_ids g) ->
  map_result (str_int int_max_str_digits)
             (sorted (get_entity_ids (state r'))) = Ok labels ->
  selected_entity_id (snd (tk_step int_max_str_digits float_str g r')) = None /\
  entity_var (fst (tk_step int_max_str_digits float_str g r'))
    = Some "Game Metrics" /\
  exists m1,
    monitor (snd (tk_step int_max_str_digits float_str g r')) = Some m1 /\
    VariableMonitor.after_queue m1 = [VariableMonitor.PopulateVariables empty].
Proof.
  intros Hsel Habs Hm Hup Hq H60 Hu Hmenu Hcb Hv Hs Hin Hl.
  assert (Habs' : get (entities (state r')) entity_id = None).
  { pose proof Hu as Hu'.
    apply RendererFacts.update_Ok in Hu' as (st & Hmove & Hst & _).
    apply RendererFacts.move_entities_keys in Hmove as [Hk _].
    rewrite get_None_iff in *. now rewrite Hst, Hk. }
  destruct (update_queue _ _ _ _ _ Hm Hup Hu) as (m' & Hm' & _ & _ & Hq').
  assert (H15 : (frame_count r + 1) mod 15 = 0)
    by (Z.div_mod_to_equations; lia).
  apply Z.eqb_eq in H60, H15. rewrite H60, H15, Hq, Hsel in Hq'.
  unfold get_entity_data in Hq'. rewrite Habs' in Hq'. cbn [app] in Hq'.
  destruct (apply_returns int_max_str_digits g _ _ Hl) as (g' & call & Ha).
  assert (Hout : ~ In entity_id (get_entity_ids (state r')))
    by now apply get_None_iff.
  destruct (apply_stale _ _ _ _ _ _ _ Hmenu Hv Hs Hin Hout Ha)
    as (Hv' & Hcall & _).
  rewrite Hcb in Hcall. subst call.
  unfold tk_step. rewrite Hm', Hq'. cbn [run_call]. rewrite Ha.
  cbn [fst snd set_selected_entity with_monitor selected_entity_id monitor].
  split; [reflexivity|]. split; [exact Hv'|].
  eexists. split; reflexivity.
Qed.

(** X30: [_populate_variables] rebuilds the labels from the data it is
    given.  Without a content frame it changes nothing.  With one,
    if [str] succeeds on every value, the labels are exactly one per
    item, in the order of the items, with the text of the value, and
    nothing of what was shown before; if [str] raises on a value (an
    integer with more digits than the limit allows), the exception
    propagates and the labels are those of the items before it. *)
Theorem populate_variables_rows
    (int_max_str_digits : Z) (float_str : PyFloat.float -> string)
    (g : MonitorGui.t) (data : dict string pyval) :
  wf data ->
  (content_frame g = false ->
   populate_variables int_max_str_digits float_str g data = (g, None)) /\
  (content_frame g = true ->
   (forall texts,
       map_result (py_str int_max_str_digits float_str) (map snd data)
         = Ok texts ->
       populate_variables int_max_str_digits float_str g data
       = (set_variable_labels g (combine (keys data) texts), None)) /\
   (forall shown key value rest texts e,
       data = shown ++ (key, value) :: rest ->
       map_result (py_str int_max_str_digits float_str) (map snd shown)
         = Ok texts ->
       py_str int_max_str_digits float_str value = Raise e ->
       populate_variables int_max_str_digits float_str g data
       = (set_variable_labels g (combine (keys shown) texts), Some e))).
Proof.
  intros Hwf. unfold populate_variables. split.
  - intros ->. reflexivity.
  - intros ->. split.
    + intros texts Ht.
      pose proof (populate_items_app int_max_str_digits float_str
                    data [] texts [] Hwf Ht) as Hp.
      rewrite app_nil_r in Hp. rewrite Hp. reflexivity.
    + intros shown key value rest texts e -> Ht He.
      assert (Hnd : NoDup (keys (@nil (string * string)) ++ keys shown)).
      { unfold wf, keys in Hwf. rewrite map_app in Hwf.
        apply NoDup_app_remove_r in Hwf. exact Hwf. }
      rewrite (populate_items_app int_max_str_digits float_str
                 shown ((key, value) :: rest) texts [] Hnd Ht).
      cbn [app populate_items]. rewrite He. reflexivity.
Qed.

End MonitorGuiProperties.

(* ================================================================== *)
(** * The further properties at sample inputs *)

Section MoreWitnesses.
Import PyFloat PyFloatSpec PyVal PyDict PyDictFacts State StateSpec.
Import PygameRenderer RendererSpec RendererFacts Samples.
Import StoreShape FrameSpec PyStr GridDraw FrameSamples.
Open Scope string_scope.
Open Scope list_scope.
Open Scope Z_scope.

Ltac wf_keys := unfold wf; simpl; repeat constructor; simpl; intuition discriminate.

Lemma wf_store_one : wf (entities store_one).
Proof. wf_keys. Qed.

Lemma moved_once_eq : update sample_config zero moving_start = Ok moved_once.
Proof. vm_compute. reflexivity. Qed.

Lemma live_entities_keep_template_keys_witness :
  get (entities (fst (State.run initial plain_calls))) 2 = Some (template 2) /\
  In "y" template_keys /\
  contains (template 2) "y" = true.
Proof.
  assert (H1 : get (entities (fst (State.run initial plain_calls))) 2
               = Some (template 2)) by reflexivity.
  assert (H2 : In "y" template_keys) by (simpl; tauto).
  split; [exact H1|]. split; [exact H2|].
  exact (live_entities_keep_template_keys plain_calls 2 (template 2) "y" H1 H2).
Defined.

Lemma update_entity_touches_one_witness :
  2 <> 1 /\
  get_entity_data
    (update_entity (fst (State.run initial plain_calls)) 1 [ ("x", VInt 5) ]) 2
  = get_entity_data (fst (State.run initial plain_calls)) 2 /\
  get_entity_ids
    (update_entity (fst (State.run initial plain_calls)) 1 [ ("x", VInt 5) ])
  = get_entity_ids (fst (State.run initial plain_calls)) /\
  _next_entity_id
    (update_entity (fst (State.run initial plain_calls)) 1 [ ("x", VInt 5) ])
  = _next_entity_id (fst (State.run initial plain_calls)).
Proof.
  assert (H1 : 2 <> 1) by discriminate.
  split; [exact H1|].
  exact (update_entity_touches_one
           (fst (State.run initial plain_calls)) 1 2 [ ("x", VInt 5) ] H1).
Defined.

Lemma update_entity_writes_witness :
  get (entities store_one) 1 = Some probe_entity /\
  wf [ ("x", VInt 5); ("speed", VInt 2) ] /\
  get [ ("x", VInt 5); ("speed", VInt 2) ] "speed" = Some (VInt 2) /\
  get (get_entity_data
         (update_entity store_one 1 [ ("x", VInt 5); ("speed", VInt 2) ]) 1)
      "speed"
  = Some (VInt 2).
Proof.
  assert (H1 : get (entities store_one) 1 = Some probe_entity) by reflexivity.
  assert (H2 : wf [ ("x", VInt 5); ("speed", VInt 2) ]) by wf_keys.
  assert (H3 : get [ ("x", VInt 5); ("speed", VInt 2) ] "speed"
               = Some (VInt 2)) by reflexivity.
  split; [exact H1|]. split; [exact H2|]. split; [exact H3|].
  exact (update_entity_writes store_one 1 probe_entity _ "speed" (VInt 2)
           H1 H2 H3).
Defined.

Lemma update_entity_key_order_witness :
  get (entities store_one) 1 = Some probe_entity /\
  wf [ ("speed", VInt 2); ("x", VInt 5) ] /\
  keys (get_entity_data
          (update_entity store_one 1 [ ("speed", VInt 2); ("x", VInt 5) ]) 1)
  = keys probe_entity ++
    filter (fun k => negb (contains probe_entity k))
           (keys [ ("speed", VInt 2); ("x", VInt 5) ]).
Proof.
  assert (H1 : get (entities store_one) 1 = Some probe_entity) by reflexivity.
  assert (H2 : wf [ ("speed", VInt 2); ("x", VInt 5) ]) by wf_keys.
  split; [exact H1|]. split; [exact H2|].
  exact (update_entity_key_order store_one 1 probe_entity _ H1 H2).
Defined.

Lemma add_entity_key_order_witness :
  wf [ ("name", VStr "probe"); ("x", VInt 7) ] /\
  keys (get_entity_data
          (fst (add_entity initial [ ("name", VStr "probe"); ("x", VInt 7) ]))
          (snd (add_entity initial [ ("name", VStr "probe"); ("x", VInt 7) ])))
  = template_keys ++
    filter (fun k => negb (existsb (String.eqb k) template_keys))
           (keys [ ("name", VStr "probe"); ("x", VInt 7) ]).
Proof.
  assert (H1 : wf [ ("name", VStr "probe"); ("x", VInt 7) ]) by wf_keys.
  split; [exact H1|].
  exact (add_entity_key_order initial _ H1).
Defined.

Lemma update_entity_idempotent_witness :
  wf [ ("x", VInt 5) ] /\
  update_entity (update_entity store_one 1 [ ("x", VInt 5) ]) 1 [ ("x", VInt 5) ]
  = update_entity store_one 1 [ ("x", VInt 5) ].
Proof.
  assert (H1 : wf [ ("x", VInt 5) ]) by wf_keys.
  split; [exact H1|].
  exact (update_entity_idempotent store_one 1 _ H1).
Defined.

Lemma drawn_cell_is_preimage_witness :
  0 < 40 /\
  draw_cell bool true false (NInt 40) 1 2
  = Ok (square bool true false 40 1 2) /\
  (Grid.screen_to_grid (NInt 40) (VInt 85) (VInt 41) = Ok (2, 1) <->
   2 * 40 <= 85 < 2 * 40 + 40 /\ 1 * 40 <= 41 < 1 * 40 + 40).
Proof.
  assert (H1 : 0 < 40) by reflexivity.
  split; [exact H1|].
  exact (drawn_cell_is_preimage bool true false 40 1 2 85 41 H1).
Defined.

Lemma screen_to_grid_floors_half_pixels_witness :
  0 < 40 < 2 ^ 53 /\
  - 2 ^ 52 <= -3 < 2 ^ 53 /\ - 2 ^ 52 <= 83 < 2 ^ 53 /\
  (Grid.screen_to_grid (NInt 40) (VFloat (halves (-3))) (VFloat (halves 83))
   = Ok (-1, 1)
   <-> 2 * 40 * -1 <= -3 < 2 * 40 * (-1 + 1) /\
       2 * 40 * 1 <= 83 < 2 * 40 * (1 + 1)).
Proof.
  assert (H1 : 0 < 40 < 2 ^ 53) by (split; reflexivity).
  assert (H2 : - 2 ^ 52 <= -3 < 2 ^ 53) by (split; [discriminate|reflexivity]).
  assert (H3 : - 2 ^ 52 <= 83 < 2 ^ 53) by (split; [discriminate|reflexivity]).
  split; [exact H1|]. split; [exact H2|]. split; [exact H3|].
  exact (screen_to_grid_floors_half_pixels 40 (-3) 83 (-1) 1 H1 H2 H3).
Defined.

Lemma grid_round_trip_any_sign_witness :
  0 < 40 /\
  - 2 ^ 52 <= (2 * -3 + 1) * 40 < 2 ^ 53 /\
  - 2 ^ 52 <= (2 * -1 + 1) * 40 < 2 ^ 53 /\
  exists center_x center_y,
    Grid.grid_to_screen_center (NInt 40) (-3) (-1) = Ok (center_x, center_y) /\
    center_x = NFloat (halves ((2 * -3 + 1) * 40)) /\
    center_y = NFloat (halves ((2 * -1 + 1) * 40)) /\
    Grid.screen_to_grid (NInt 40) (of_num center_x) (of_num center_y)
    = Ok (-3, -1).
Proof.
  assert (H1 : 0 < 40) by reflexivity.
  assert (H2 : - 2 ^ 52 <= (2 * -3 + 1) * 40 < 2 ^ 53)
    by (split; [discriminate|reflexivity]).
  assert (H3 : - 2 ^ 52 <= (2 * -1 + 1) * 40 < 2 ^ 53)
    by (split; [discriminate|reflexivity]).
  split; [exact H1|]. split; [exact H2|]. split; [exact H3|].
  exact (grid_round_trip_any_sign 40 (-3) (-1) H1 H2 H3).
Defined.

Lemma update_moves_every_entity_witness :
  wf (entities (state moving_start)) /\
  update sample_config zero moving_start = Ok moved_once /\
  all_moved sample_config (state moving_start) (state moved_once) /\
  frame_count moved_once = frame_count moving_start + 1 /\
  selected_entity_id moved_once = selected_entity_id moving_start /\
  is_running moved_once = is_running moving_start.
Proof.
  split; [exact wf_store_one|]. split; [exact moved_once_eq|].
  exact (update_moves_every_entity sample_config zero moving_start moved_once
           wf_store_one moved_once_eq).
Defined.

Lemma movement_keeps_other_attributes_witness :
  wf (entities (state moving_start)) /\
  update sample_config zero moving_start = Ok moved_once /\
  get (entities (state moving_start)) 1 = Some probe_entity /\
  get_entity_ids (state moved_once) = get_entity_ids (state moving_start) /\
  exists E',
    get (entities (state moved_once)) 1 = Some E' /\
    forall k,
      k <> "x" -> k <> "grid_col" -> k <> "grid_row" ->
      get E' k = get probe_entity k.
Proof.
  assert (H3 : get (entities (state moving_start)) 1 = Some probe_entity)
    by reflexivity.
  split; [exact wf_store_one|]. split; [exact moved_once_eq|].
  split; [exact H3|].
  exact (movement_keeps_other_attributes
           sample_config zero moving_start moved_once 1 probe_entity
           wf_store_one moved_once_eq H3).
Defined.

Lemma grid_index_matches_position_witness :
  wf (entities (state moving_start)) /\
  update sample_config zero moving_start = Ok moved_once /\
  get (entities (state moved_once)) 1 = Some moved_probe /\
  exists x y grid_col grid_row,
    get moved_probe "x" = Some x /\ get moved_probe "y" = Some y /\
    get moved_probe "grid_col" = Some (VInt grid_col) /\
    get moved_probe "grid_row" = Some (VInt grid_row) /\
    Grid.screen_to_grid (CELL_SIZE sample_config) x y = Ok (grid_col, grid_row).
Proof.
  assert (H3 : get (entities (state moved_once)) 1 = Some moved_probe)
    by reflexivity.
  split; [exact wf_store_one|]. split; [exact moved_once_eq|].
  split; [exact H3|].
  exact (grid_index_matches_position
           sample_config zero moving_start moved_once 1 moved_probe
           wf_store_one moved_once_eq H3).
Defined.

Lemma movement_is_exact_witness :
  0 < 40 < 2 ^ 40 /\ - 2 ^ 40 < 800 < 2 ^ 40 /\
  wf (entities (state moving_start)) /\
  update (pixel_config 40 800) zero moving_start = Ok moved_once /\
  get (entities (state moving_start)) 1 = Some probe_entity /\
  get probe_entity "x" = Some (VInt 0) /\
  at_half_pixels (VInt 0) 0 /\ Z.abs 0 <= 2 ^ 51 /\
  get (get_entity_data (state moved_once) 1) "x" =
    Some (VFloat (halves (if 0 <? 2 * (800 - 40) then 0 + 3 else 3))).
Proof.
  assert (H1 : 0 < 40 < 2 ^ 40) by (split; reflexivity).
  assert (H2 : - 2 ^ 40 < 800 < 2 ^ 40) by (split; reflexivity).
  assert (H5 : get (entities (state moving_start)) 1 = Some probe_entity)
    by reflexivity.
  assert (H6 : get probe_entity "x" = Some (VInt 0)) by reflexivity.
  assert (H7 : at_half_pixels (VInt 0) 0)
    by (right; exists 0; split; reflexivity).
  assert (H8 : Z.abs 0 <= 2 ^ 51) by discriminate.
  split; [exact H1|]. split; [exact H2|]. split; [exact wf_store_one|].
  split; [exact moved_once_eq|]. split; [exact H5|]. split; [exact H6|].
  split; [exact H7|]. split; [exact H8|].
  exact (movement_is_exact 40 800 zero moving_start moved_once 1
           probe_entity (VInt 0) 0
           H1 H2 wf_store_one moved_once_eq H5 H6 H7 H8).
Defined.

Lemma selected_entity_snapshot_witness :
  wf (entities (state selected_start)) /\
  selected_entity_id selected_start = Some 1 /\
  get (entities (state selected_start)) 1 = Some probe_entity /\
  monitor selected_start = Some VariableMonitor.started /\
  monitor_up VariableMonitor.started /\
  (frame_count selected_start + 1) mod 15 = 0 /\
  update sample_config zero selected_start = Ok selected_published /\
  exists E' m',
    get (entities (state selected_published)) 1 = Some E' /\
    moved sample_config probe_entity E' /\
    monitor selected_published = Some m' /\
    VariableMonitor.snapshots (VariableMonitor.after_queue m') =
      VariableMonitor.snapshots
        (VariableMonitor.after_queue VariableMonitor.started) ++ [E'].
Proof.
  assert (H2 : selected_entity_id selected_start = Some 1) by reflexivity.
  assert (H3 : get (entities (state selected_start)) 1 = Some probe_entity)
    by reflexivity.
  assert (H4 : monitor selected_start = Some VariableMonitor.started)
    by reflexivity.
  assert (H5 : monitor_up VariableMonitor.started) by (split; reflexivity).
  assert (H6 : (frame_count selected_start + 1) mod 15 = 0) by reflexivity.
  assert (H7 : update sample_config zero selected_start = Ok selected_published)
    by (vm_compute; reflexivity).
  split; [exact wf_store_one|]. split; [exact H2|]. split; [exact H3|].
  split; [exact H4|]. split; [exact H5|]. split; [exact H6|].
  split; [exact H7|].
  exact (selected_entity_snapshot
           sample_config zero selected_start selected_published
           VariableMonitor.started 1 probe_entity
           wf_store_one H2 H3 H4 H5 H6 H7).
Defined.

Lemma update_without_listener_witness :
  update sample_config zero unstarted_start = Ok unstarted_moved /\
  monitor unstarted_moved = Some VariableMonitor.create.
Proof.
  assert (H1 : update sample_config zero unstarted_start = Ok unstarted_moved)
    by (vm_compute; reflexivity).
  split; [exact H1|].
  exact (update_without_listener
           sample_config zero unstarted_start unstarted_moved H1 eq_refl).
Defined.

Lemma update_schedule_witness :
  monitor selected_start = Some VariableMonitor.started /\
  monitor_up VariableMonitor.started /\
  update sample_config zero selected_start = Ok selected_published /\
  exists m',
    monitor selected_published = Some m' /\
    VariableMonitor.after_queue m' =
      VariableMonitor.after_queue VariableMonitor.started ++
      (if (frame_count selected_start + 1) mod 60 =? 0
       then [VariableMonitor.ApplyEntityListUpdate
               (get_entity_ids (state selected_published))]
       else []) ++
      (if (frame_count selected_start + 1) mod 15 =? 0
       then [VariableMonitor.PopulateVariables
               match selected_entity_id selected_start with
               | None => global_metrics selected_published
               | Some entity_id =>
                   get_entity_data (state selected_published) entity_id
               end]
       else []).
Proof.
  assert (H1 : monitor selected_start = Some VariableMonitor.started)
    by reflexivity.
  assert (H2 : monitor_up VariableMonitor.started) by (split; reflexivity).
  assert (H3 : update sample_config zero selected_start = Ok selected_published)
    by (vm_compute; reflexivity).
  split; [exact H1|]. split; [exact H2|]. split; [exact H3|].
  exact (update_schedule
           sample_config zero selected_start selected_published
           VariableMonitor.started H1 H2 H3).
Defined.

Lemma update_needs_numeric_positions_witness :
  update sample_config zero moving_start = Ok moved_once /\
  In (1, probe_entity) (entities (state moving_start)) /\
  exists x y a b,
    get probe_entity "x" = Some x /\ as_num x = Ok a /\
    get probe_entity "y" = Some y /\ as_num y = Ok b.
Proof.
  assert (H2 : In (1, probe_entity) (entities (state moving_start)))
    by (left; reflexivity).
  split; [exact moved_once_eq|]. split; [exact H2|].
  exact (update_needs_numeric_positions
           sample_config zero moving_start moved_once 1 probe_entity
           moved_once_eq H2).
Defined.

Lemma quit_ends_the_loop_after_the_turn_witness :
  is_running (init None initial) = true /\
  existsb is_quit (events quit_frame) = true /\
  run sample_config no_parse (quit_frame :: [idle_frame]) (init None initial)
  = frame sample_config no_parse quit_frame (init None initial) /\
  forall r',
    frame sample_config no_parse quit_frame (init None initial) = Ok r' ->
    is_running r' = false.
Proof.
  assert (H1 : is_running (init None initial) = true) by reflexivity.
  assert (H2 : existsb is_quit (events quit_frame) = true) by reflexivity.
  split; [exact H1|]. split; [exact H2|].
  exact (quit_ends_the_loop_after_the_turn
           sample_config no_parse quit_frame [idle_frame] (init None initial)
           H1 H2).
Defined.

Lemma selecting_a_label_reports_its_identity_witness :
  MonitorGui.select_callback gui_ready = true /\
  str_int default_max_str_digits 7 = Ok "7" /\
  snd (MonitorGui.set_entity_var default_max_str_digits gui_ready "7")
    = Some (if 0 <=? 7 then Some 7 else None) /\
  snd (MonitorGui.set_entity_var default_max_str_digits gui_ready "Game Metrics")
    = Some None.
Proof.
  assert (H1 : MonitorGui.select_callback gui_ready = true) by reflexivity.
  assert (H2 : str_int default_max_str_digits 7 = Ok "7") by reflexivity.
  split; [exact H1|]. split; [exact H2|].
  exact (selecting_a_label_reports_its_identity
           default_max_str_digits gui_ready 7 "7" H1 H2).
Defined.

Lemma stale_selection_falls_back_witness :
  MonitorGui.entity_menu gui_selected = true /\
  MonitorGui.select_callback gui_selected = true /\
  MonitorGui.entity_var gui_selected = Some "1" /\
  str_int default_max_str_digits 1 = Ok "1" /\
  In "1" (MonitorGui.entity_ids gui_selected) /\
  ~ In 1 [2] /\
  MonitorGui.apply_entity_list_update default_max_str_digits gui_selected [2]
  = Ok (gui_fallen_back, Some None) /\
  MonitorGui.entity_var gui_fallen_back = Some "Game Metrics" /\
  Some (@None Z) = Some None /\
  ~ In "1" (MonitorGui.entity_ids gui_fallen_back).
Proof.
  assert (H1 : MonitorGui.entity_menu gui_selected = true) by reflexivity.
  assert (H2 : MonitorGui.select_callback gui_selected = true) by reflexivity.
  assert (H3 : MonitorGui.entity_var gui_selected = Some "1") by reflexivity.
  assert (H4 : str_int default_max_str_digits 1 = Ok "1") by reflexivity.
  assert (H5 : In "1" (MonitorGui.entity_ids gui_selected))
    by (simpl; tauto).
  assert (H6 : ~ In 1 [2]) by (simpl; intuition discriminate).
  assert (H7 : MonitorGui.apply_entity_list_update
                 default_max_str_digits gui_selected [2]
               = Ok (gui_fallen_back, Some None)) by reflexivity.
  split; [exact H1|]. split; [exact H2|]. split; [exact H3|].
  split; [exact H4|]. split; [exact H5|]. split; [exact H6|].
  split; [exact H7|].
  exact (stale_selection_falls_back
           default_max_str_digits gui_selected gui_fallen_back [2]
           (Some None) 1 "1" H1 H2 H3 H4 H5 H6 H7).
Defined.

Lemma selection_stays_in_menu_witness :
  MonitorGui.selection_valid gui_selected /\
  MonitorGui.selection_valid
    (fst (MonitorGui.run_call default_max_str_digits float_text gui_selected
            (VariableMonitor.ApplyEntityListUpdate [2]))).
Proof.
  assert (H1 : MonitorGui.selection_valid gui_selected)
    by (unfold MonitorGui.selection_valid; simpl; tauto).
  split; [exact H1|].
  exact (selection_stays_in_menu
           default_max_str_digits float_text gui_selected
           (VariableMonitor.ApplyEntityListUpdate [2]) H1).
Defined.

Lemma unchanged_list_is_ignored_witness :
  MonitorGui.entity_menu gui_ready = true /\
  MonitorGui.apply_entity_list_update default_max_str_digits gui_ready [2; 1]
  = Ok (gui_two, None) /\
  Permutation [2; 1] [1; 2] /\
  MonitorGui.apply_entity_list_update default_max_str_digits gui_two [1; 2]
  = Ok (gui_two, None).
Proof.
  assert (H1 : MonitorGui.entity_menu gui_ready = true) by reflexivity.
  assert (H2 : MonitorGui.apply_entity_list_update
                 default_max_str_digits gui_ready [2; 1]
               = Ok (gui_two, None)) by reflexivity.
  assert (H3 : Permutation [2; 1] [1; 2]) by apply perm_swap.
  split; [exact H1|]. split; [exact H2|]. split; [exact H3|].
  exact (unchanged_list_is_ignored
           default_max_str_digits gui_ready gui_two [2; 1] [1; 2] None
           H1 H2 H3).
Defined.

Lemma stale_selection_recovers_at_refresh_witness :
  selected_entity_id stale_before_refresh = Some 1 /\
  get (entities (state stale_before_refresh)) 1 = None /\
  monitor stale_before_refresh = Some VariableMonitor.started /\
  monitor_up VariableMonitor.started /\
  VariableMonitor.after_queue VariableMonitor.started = [] /\
  (frame_count stale_before_refresh + 1) mod 60 = 0 /\
  update sample_config zero stale_before_refresh = Ok stale_refreshed /\
  MonitorGui.entity_menu gui_selected = true /\
  MonitorGui.select_callback gui_selected = true /\
  MonitorGui.entity_var gui_selected = Some "1" /\
  str_int default_max_str_digits 1 = Ok "1" /\
  In "1" (MonitorGui.entity_ids gui_selected) /\
  map_result (str_int default_max_str_digits)
             (sorted (get_entity_ids (state stale_refreshed))) = Ok [] /\
  selected_entity_id
    (snd (MonitorGui.tk_step default_max_str_digits float_text
            gui_selected stale_refreshed)) = None /\
  MonitorGui.entity_var
    (fst (MonitorGui.tk_step default_max_str_digits float_text
            gui_selected stale_refreshed)) = Some "Game Metrics" /\
  exists m1,
    monitor
      (snd (MonitorGui.tk_step default_max_str_digits float_text
              gui_selected stale_refreshed)) = Some m1 /\
    VariableMonitor.after_queue m1 = [VariableMonitor.PopulateVariables empty].
Proof.
  assert (H1 : selected_entity_id stale_before_refresh = Some 1)
    by reflexivity.
  assert (H2 : get (entities (state stale_before_refresh)) 1 = None)
    by reflexivity.
  assert (H3 : monitor stale_before_refresh = Some VariableMonitor.started)
    by reflexivity.
  assert (H4 : monitor_up VariableMonitor.started) by (split; reflexivity).
  assert (H5 : VariableMonitor.after_queue VariableMonitor.started = [])
    by reflexivity.
  assert (H6 : (frame_count stale_before_refresh + 1) mod 60 = 0)
    by reflexivity.
  assert (H7 : update sample_config zero stale_before_refresh
               = Ok stale_refreshed) by (vm_compute; reflexivity).
  assert (H8 : MonitorGui.entity_menu gui_selected = true) by reflexivity.
  assert (H9 : MonitorGui.select_callback gui_selected = true) by reflexivity.
  assert (H10 : MonitorGui.entity_var gui_selected = Some "1") by reflexivity.
  assert (H11 : str_int default_max_str_digits 1 = Ok "1") by reflexivity.
  assert (H12 : In "1" (MonitorGui.entity_ids gui_selected))
    by (simpl; tauto).
  assert (H13 : map_result (str_int default_max_str_digits)
                  (sorted (get_entity_ids (state stale_refreshed))) = Ok [])
    by reflexivity.
  split; [exact H1|]. split; [exact H2|]. split; [exact H3|].
  split; [exact H4|]. split; [exact H5|]. split; [exact H6|].
  split; [exact H7|]. split; [exact H8|]. split; [exact H9|].
  split; [exact H10|]. split; [exact H11|]. split; [exact H12|].
  split; [exact H13|].
  exact (stale_selection_recovers_at_refresh
           sample_config zero default_max_str_digits float_text
           stale_before_refresh stale_refreshed VariableMonitor.started
           gui_selected 1 "1" []
           H1 H2 H3 H4 H5 H6 H7 H8 H9 H10 H11 H12 H13).
Defined.

Lemma populate_variables_rows_witness :
  wf long_data /\
  (MonitorGui.content_frame gui_ready = false ->
   MonitorGui.populate_variables 640 float_text gui_ready long_data
   = (gui_ready, None)) /\
  (MonitorGui.content_frame gui_ready = true ->
   (forall texts,
       map_result (MonitorGui.py_str 640 float_text) (map snd long_data)
         = Ok texts ->
       MonitorGui.populate_variables 640 float_text gui_ready long_data
       = (MonitorGui.set_variable_labels gui_ready
            (combine (keys long_data) texts), None)) /\
   (forall shown key value rest texts e,
       long_data = shown ++ (key, value) :: rest ->
       map_result (MonitorGui.py_str 640 float_text) (map snd shown)
         = Ok texts ->
       MonitorGui.py_str 640 float_text value = Raise e ->
       MonitorGui.populate_variables 640 float_text gui_ready long_data
       = (MonitorGui.set_variable_labels gui_ready
            (combine (keys shown) texts), Some e))).
Proof.
  assert (H1 : wf long_data) by wf_keys.
  split; [exact H1|].
  exact (populate_variables_rows 640 float_text gui_ready long_data H1).
Defined.

End MoreWitnesses.
